(** * Home Management Hub: the persistence layer and the domain modules

    A shallow embedding of [js/storage.js], [js/planner.js] (with the
    save-meal proxy that follows it), [js/tasks.js] (with the shopping list
    module that follows it) and the meals module, and the properties the
    specification states about them; then the other functions of these
    modules and of [js/app.js], [ui.js] and [notifications.js] that work on
    the document, and properties read off their code.

    Conventions of the embedding.
    - A JavaScript value that went through [JSON.parse] is a [json]; the
      properties of an object are kept in insertion order.  (An engine lists
      canonical array-index keys first; such keys only arise when an array
      or a string is spread into a record.)  Numbers are integers in the
      range that a double holds exactly: no operation below does arithmetic
      on a stored number.
    - A string is a sequence of code units below 256.
    - [JSON.parse (JSON.stringify v)] is [v] on [json]: the store keeps the
      parsed document.
    - The object bound to the module constant [defaultData] is mutable and
      lives as long as the page: it is part of the state.  A value obtained
      from [loadData] may be that very object (or one of its arrays), and a
      [push] or an assignment through it changes the defaults in memory.
    - An exception is an outcome [Throw]; the state reached before it stays.
    - Toasts and alerts are collected in [ui]; the console is not modelled. *)

From Stdlib Require Import ZArith String Ascii List Bool Lia DecimalString.
From stdpp Require Import base tactics option list strings.

Local Open Scope string_scope.

(* ================================================================= *)
(** ** JSON values and the JavaScript operations used on them *)

#[warnings="-register-all"]
Inductive json : Type :=
  | JNull
  | JBool (b : bool)
  | JNum (n : Z)
  | JStr (s : string)
  | JArr (items : list json)
  | JObj (props : list (string * json)).

Abbreviation obj := (list (string * json)).

(** The result of reading a property: a JSON value, [undefined], or a member
    inherited from [Object.prototype] (a function, or the prototype itself). *)
Inductive jsval : Type :=
  | Undefined
  | Builtin
  | Val (j : json).

Inductive exn : Type :=
  | TypeError
  | RangeError
  | SyntaxError
  | Error (msg : string).

Inductive outcome (A : Type) : Type :=
  | Return (a : A)
  | Throw (e : exn).
Arguments Return {A} a.
Arguments Throw {A} e.

#[global] Instance outcome_ret : MRet outcome := fun A a => Return a.

#[global] Instance outcome_bind : MBind outcome := fun A B f x =>
  match x with
  | Return a => f a
  | Throw e => Throw e
  end.

Definition object_prototype_members : list string :=
  [ "constructor"; "hasOwnProperty"; "isPrototypeOf"; "propertyIsEnumerable";
    "toLocaleString"; "toString"; "valueOf"; "__proto__";
    "__defineGetter__"; "__defineSetter__"; "__lookupGetter__";
    "__lookupSetter__" ].

Definition inherited (k : string) : bool :=
  existsb (String.eqb k) object_prototype_members.

(** Own property lookup. *)
Fixpoint own (o : obj) (k : string) : option json :=
  match o with
  | [] => None
  | (k', v) :: o' => if String.eqb k' k then Some v else own o' k
  end.

Definition has_own (o : obj) (k : string) : bool :=
  match own o k with Some _ => true | None => false end.

(** [o[k]] on a plain object. *)
Definition obj_get (o : obj) (k : string) : jsval :=
  match own o k with
  | Some v => Val v
  | None => if inherited k then Builtin else Undefined
  end.

(** Defining an own property: in place when the key exists, else appended. *)
Fixpoint obj_set (o : obj) (k : string) (v : json) : obj :=
  match o with
  | [] => [(k, v)]
  | (k', v') :: o' =>
      if String.eqb k' k then (k, v) :: o' else (k', v') :: obj_set o' k v
  end.

(** [o[k] = v]: as [obj_set], but an assignment to an inherited
    ["__proto__"] goes to the prototype setter and defines nothing. *)
Definition obj_assign (o : obj) (k : string) (v : json) : obj :=
  if String.eqb k "__proto__" && negb (has_own o k) then o else obj_set o k v.

(** [v.k] for the field names of this program (none of them is a member of
    [Array.prototype], [String.prototype] or the like). *)
Definition member (v : json) (k : string) : outcome jsval :=
  match v with
  | JNull => Throw TypeError
  | JObj o => Return (obj_get o k)
  | _ => Return (if inherited k then Builtin else Undefined)
  end.

Definition truthy (v : jsval) : bool :=
  match v with
  | Undefined => false
  | Builtin => true
  | Val JNull => false
  | Val (JBool b) => b
  | Val (JNum n) => negb (n =? 0)%Z
  | Val (JStr s) => negb (String.eqb s "")
  | Val (JArr _) => true
  | Val (JObj _) => true
  end.

(** [a === b], and the comparison that [includes] makes, where [a] was read
    from a parsed document and [b] is an argument of the caller or was read
    at another place: arrays and objects are compared by identity, and the
    two are never the same one. *)
Definition strict_eq (a : jsval) (b : json) : bool :=
  match a, b with
  | Val JNull, JNull => true
  | Val (JBool x), JBool y => Bool.eqb x y
  | Val (JNum x), JNum y => (x =? y)%Z
  | Val (JStr x), JStr y => String.eqb x y
  | _, _ => false
  end.

Definition index_key (i : nat) : string :=
  NilZero.string_of_uint (Nat.to_uint i).

(** The own enumerable properties that a spread [...v] copies. *)
Definition own_props (v : jsval) : obj :=
  match v with
  | Val (JObj o) => o
  | Val (JArr l) => imap (fun i x => (index_key i, x)) l
  | Val (JStr s) =>
      imap (fun i c => (index_key i, JStr (String c EmptyString)))
           (list_ascii_of_string s)
  | _ => []
  end.

Definition set_prop (o : obj) (kv : string * json) : obj :=
  obj_set o (fst kv) (snd kv).

(** [{ ...target, ...src }] continued from [target]. *)
Definition spread (target : obj) (src : jsval) : obj :=
  fold_left set_prop (own_props src) target.

Definition Z_to_string (n : Z) : string :=
  NilZero.string_of_int (Z.to_int n).

(** [ToString] on parsed values; an array is joined with commas. *)
Fixpoint ToString (v : json) : string :=
  match v with
  | JNull => "null"
  | JBool true => "true"
  | JBool false => "false"
  | JNum n => Z_to_string n
  | JStr s => s
  | JArr l =>
      (fix join (l : list json) : string :=
         match l with
         | [] => ""
         | [x] => match x with JNull => "" | _ => ToString x end
         | x :: l' =>
             (match x with JNull => "" | _ => ToString x end) +:+ "," +:+ join l'
         end) l
  | JObj _ => "[object Object]"
  end.

(** [ToString] of a value read under a name of this program; none of the
    names read into a text or into a property key is inherited, so the case
    [Builtin] does not arise. *)
Definition to_string (v : jsval) : string :=
  match v with
  | Undefined => "undefined"
  | Builtin => "function () { [native code] }"
  | Val j => ToString j
  end.

(** [Array.prototype.join]. *)
Definition join_item (x : json) : string :=
  match x with JNull => "" | _ => ToString x end.

Fixpoint join (sep : string) (l : list json) : string :=
  match l with
  | [] => ""
  | [x] => join_item x
  | x :: l' => join_item x +:+ sep +:+ join sep l'
  end.

(** [String.prototype.toLowerCase] on code units below 256. *)
Definition lower_char (c : ascii) : ascii :=
  let n := nat_of_ascii c in
  if ((65 <=? n) && (n <=? 90))%nat then ascii_of_nat (n + 32)
  else if ((192 <=? n) && (n <=? 222) && negb (n =? 215))%nat
       then ascii_of_nat (n + 32)
  else c.

Fixpoint toLowerCase (s : string) : string :=
  match s with
  | EmptyString => EmptyString
  | String c s' => String (lower_char c) (toLowerCase s')
  end.

(** [String.prototype.includes]. *)
Fixpoint includes_from (s sub : string) : bool :=
  String.prefix sub s
  || match s with
     | EmptyString => false
     | String _ s' => includes_from s' sub
     end.

Definition string_includes (s sub : string) : bool := includes_from s sub.

(** [Array.prototype.includes] with an argument of the caller. *)
Definition array_includes (l : list json) (x : json) : bool :=
  existsb (fun y => strict_eq (Val y) x) l.

(* ================================================================= *)
(** ** js/storage.js *)

Definition STORAGE_KEY : string := "homeManagementData".

Definition DAYS : list string :=
  [ "Monday"; "Tuesday"; "Wednesday"; "Thursday"; "Friday"; "Saturday";
    "Sunday" ].

(** The object literal that [defaultData] is bound to when the module is
    evaluated. *)
Definition defaultData : obj :=
  [ ("meals", JArr []);
    ("weeklyPlan",
      JObj [ ("Monday", JArr []); ("Tuesday", JArr []);
             ("Wednesday", JArr []); ("Thursday", JArr []);
             ("Friday", JArr []); ("Saturday", JArr []);
             ("Sunday", JArr []) ]);
    ("shoppingList", JArr []);
    ("householdItems", JArr []);
    ("cleaningTasks", JArr []);
    ("maintenanceTasks", JArr []);
    ("settings",
      JObj [ ("notificationsEnabled", JBool false);
             ("notifyMeals", JBool true);
             ("notifyCleaning", JBool true);
             ("notifyShopping", JBool true);
             ("lastExport", JNull) ]) ].

(** What [localStorage.getItem STORAGE_KEY] holds: a text that parses to a
    JSON value, or a text that does not parse (the empty text included: it
    is falsy, and [loadData] then takes the defaults all the same). *)
Inductive text : Type :=
  | JsonText (j : json)
  | BadText.

Inductive event : Type :=
  | Success (msg : string)
  | Alert (msg : string).

Record state : Type := mkState {
  localStorage : option text;
  module_defaults : obj;      (* the object bound to [defaultData], as it is now *)
  ui : list event
}.

Definition set_store (st : state) (s : option text) : state :=
  mkState s (module_defaults st) (ui st).

Definition set_defaults (st : state) (d : obj) : state :=
  mkState (localStorage st) d (ui st).

Definition emit (e : event) (st : state) : state :=
  mkState (localStorage st) (module_defaults st) (ui st ++ [e]).

Definition showSuccess (msg : string) (st : state) : state :=
  emit (Success msg) st.

(** A page that has just evaluated the module, over a given store. *)
Definition fresh_page (s : option text) : state := mkState s defaultData [].

(** The object expression of [loadData] lines 43-48 and of [importData]
    lines 150-155, over the defaults [dflt] as they are in memory. *)
Definition merge_defaults (dflt : obj) (data : json) : outcome obj :=
  wp ← member data "weeklyPlan";
  se ← member data "settings";
  Return
    (obj_set
       (obj_set (spread (spread [] (Val (JObj dflt))) (Val data))
          "weeklyPlan"
          (JObj (spread (spread [] (obj_get dflt "weeklyPlan")) wp)))
       "settings"
       (JObj (spread (spread [] (obj_get dflt "settings")) se))).

Definition copy_defaults (st : state) : obj :=
  spread [] (Val (JObj (module_defaults st))).

Definition loadData (st : state) : obj :=
  match localStorage st with
  | Some (JsonText data) =>
      match merge_defaults (module_defaults st) data with
      | Return merged => merged
      | Throw _ => copy_defaults st          (* catch *)
      end
  | Some BadText => copy_defaults st         (* falsy, or JSON.parse throws *)
  | None => copy_defaults st
  end.

Definition getData (section : string) (st : state) : jsval :=
  obj_get (loadData st) section.

Section Quota.

(** [fits doc]: [localStorage.setItem] accepts the serialised document
    (otherwise it throws [QuotaExceededError]). *)
Variable fits : json -> bool.

Definition saveData (data : obj) (st : state) : bool * state :=
  if fits (JObj data)
  then (true, set_store st (Some (JsonText (JObj data))))
  else (false,
        emit (Alert "Storage quota exceeded. Consider exporting your data and clearing old items.") st).

Definition updateData (section : string) (value : json) (st : state)
  : bool * state :=
  let data := loadData st in
  saveData (obj_assign data section value) st.

(** The file handed to [importData]: unreadable, or read as a text. *)
Inductive upload : Type :=
  | ReadError
  | Content (t : text).

Definition typeof_object (v : json) : bool :=
  match v with
  | JNull | JArr _ | JObj _ => true
  | _ => false
  end.

(** [importData]: [Return true] is [resolve(true)], [Throw e] is
    [reject(e)]. *)
Definition importData (file : upload) (st : state) : outcome bool * state :=
  match file with
  | ReadError => (Throw (Error "Error reading file"), st)
  | Content BadText => (Throw SyntaxError, st)
  | Content (JsonText importedData) =>
      if negb (truthy (Val importedData)) || negb (typeof_object importedData)
      then (Throw (Error "Invalid data format"), st)
      else
        match merge_defaults (module_defaults st) importedData with
        | Throw e => (Throw e, st)
        | Return mergedData =>
            let (ok, st') := saveData mergedData st in
            if ok then (Return true, st')
            else (Throw (Error "Failed to save imported data"), st')
        end
  end.

(** [clearAllData]: [answers] are the user's replies to the two
    confirmation dialogs. *)
Definition clearAllData (confirmed : bool) (answers : bool * bool)
  (st : state) : bool * state :=
  if negb confirmed && negb (fst answers) then (false, st)
  else if negb confirmed && negb (snd answers) then (false, st)
  else (true, set_store st None).

End Quota.

(* ================================================================= *)
(** ** Which loaded values are the defaults themselves *)

(** [merged_from st] is the parsed document when [loadData] returns the
    merge of lines 43-48, and [None] when it returns [{ ...defaultData }]. *)
Definition merged_from (st : state) : option json :=
  match localStorage st with
  | Some (JsonText data) =>
      match merge_defaults (module_defaults st) data with
      | Return _ => Some data
      | Throw _ => None
      end
  | _ => None
  end.

Definition is_merged_section (k : string) : bool :=
  String.eqb k "weeklyPlan" || String.eqb k "settings".

(** [loadData()[k]] is the very object [defaultData[k]]: the spread copied
    the reference and nothing replaced it. *)
Definition shares_section (st : state) (k : string) : bool :=
  has_own (module_defaults st) k
  && match merged_from st with
     | Some data =>
         negb (has_own (own_props (Val data)) k) && negb (is_merged_section k)
     | None => true
     end.

(** [loadData().weeklyPlan[d]] is the very array [defaultData.weeklyPlan[d]]. *)
Definition shares_day (st : state) (d : string) : bool :=
  has_own (own_props (obj_get (module_defaults st) "weeklyPlan")) d
  && match merged_from st with
     | Some data =>
         match member data "weeklyPlan" with
         | Return wp => negb (has_own (own_props wp) d)
         | Throw _ => true
         end
     | None => true
     end.

(** The effect on the defaults of a mutation made through such a value. *)
Definition write_section (k : string) (v : json) (st : state) : state :=
  set_defaults st (obj_set (module_defaults st) k v).

Definition write_day (d : string) (v : json) (st : state) : state :=
  match own (module_defaults st) "weeklyPlan" with
  | Some (JObj dwp) => write_section "weeklyPlan" (JObj (obj_set dwp d v)) st
  | _ => st
  end.

(** [a || b]. *)
Definition or_else (a : jsval) (b : json) : jsval :=
  if truthy a then a else Val b.

(** The receiver of an array method ([push], [find], [findIndex], [filter],
    [forEach], [every], [some], [join]): anything but an array has no such
    method, and the call throws. *)
Definition as_array (v : jsval) : outcome (list json) :=
  match v with
  | Val (JArr l) => Return l
  | _ => Throw TypeError
  end.

(** [getData(k) || []], and whether the array obtained is the defaults' own. *)
Definition collection (k : string) (st : state) : jsval :=
  or_else (getData k st) (JArr []).

Definition collection_shared (k : string) (st : state) : bool :=
  shares_section st k && truthy (getData k st).

(** [find] and [findIndex]: the callback runs left to right and stops at the
    first element it accepts. *)
Fixpoint js_find (p : json -> outcome bool) (l : list json) (i : nat)
  : outcome (option (nat * json)) :=
  match l with
  | [] => Return None
  | x :: l' =>
      b ← p x;
      if (b : bool) then Return (Some (i, x)) else js_find p l' (S i)
  end.

Fixpoint js_every (p : json -> outcome bool) (l : list json) : outcome bool :=
  match l with
  | [] => Return true
  | x :: l' => b ← p x; if (b : bool) then js_every p l' else Return false
  end.

Fixpoint js_some (p : json -> outcome bool) (l : list json) : outcome bool :=
  match l with
  | [] => Return false
  | x :: l' => b ← p x; if (b : bool) then Return true else js_some p l'
  end.

Fixpoint js_filter (p : json -> outcome bool) (l : list json)
  : outcome (list json) :=
  match l with
  | [] => Return []
  | x :: l' =>
      b ← p x;
      r ← js_filter p l';
      Return (if (b : bool) then x :: r else r)
  end.

(** [x => x.id === id]. *)
Definition id_is (id : json) (x : json) : outcome bool :=
  v ← member x "id"; Return (strict_eq v id).

(** [recv.includes(x)]: arrays and strings have the method. *)
Definition includes_method (recv : jsval) (x : json) : outcome bool :=
  match recv with
  | Val (JArr l) => Return (array_includes l x)
  | Val (JStr s) => Return (string_includes s (ToString x))
  | _ => Throw TypeError
  end.

(** [s.toLowerCase()] on a value read from a document. *)
Definition toLowerCase_method (v : jsval) : outcome string :=
  match v with
  | Val (JStr s) => Return (toLowerCase s)
  | _ => Throw TypeError
  end.

(* ================================================================= *)
(** ** js/planner.js *)

Section Planner.

Variable fits : json -> bool.

Definition getWeeklyPlan (st : state) : jsval :=
  or_else (getData "weeklyPlan" st) (JObj []).

(** The own properties of the plan, and whether the plan is
    [defaultData.weeklyPlan] itself.  What [loadData] puts under
    ["weeklyPlan"] is an object: the merge builds one, and the defaults hold
    one (lemma [getWeeklyPlan_object]). *)
Definition plan_props (st : state) : obj :=
  match getWeeklyPlan st with
  | Val (JObj o) => o
  | _ => []
  end.

Definition plan_shared (st : state) : bool :=
  shares_section st "weeklyPlan" && truthy (getData "weeklyPlan" st).

(** A mutation of the plan object [plan[day] = v], seen from the defaults. *)
Definition plan_write (day : string) (v : json) (st : state) : state :=
  if plan_shared st then
    write_section "weeklyPlan" (JObj (obj_assign (plan_props st) day v)) st
  else st.

Definition addMealToDay (day : string) (mealId : json) (st : state)
  : outcome bool * state :=
  let plan := plan_props st in
  let shared := plan_shared st in
  (* if (!plan[day]) plan[day] = []; *)
  let fresh_day := negb (truthy (obj_get plan day)) in
  let plan1 := if fresh_day then obj_assign plan day (JArr []) else plan in
  let st1 := if fresh_day then plan_write day (JArr []) st else st in
  let day_shared := shared || (shares_day st day && negb fresh_day) in
  match includes_method (obj_get plan1 day) mealId with
  | Throw e => (Throw e, st1)
  | Return true => (Return false, st1)
  | Return false =>
      match as_array (obj_get plan1 day) with
      | Throw e => (Throw e, st1)
      | Return ids =>
          (* plan[day].push(mealId) *)
          let ids' := JArr (ids ++ [mealId]) in
          let plan2 := obj_set plan1 day ids' in
          let st2 := if day_shared then write_day day ids' st1 else st1 in
          let (_, st3) := updateData fits "weeklyPlan" (JObj plan2) st2 in
          (Return true, showSuccess ("Meal added to " +:+ day +:+ "!") st3)
      end
  end.

Definition removeMealFromDay (day : string) (mealId : json) (st : state)
  : outcome bool * state :=
  let plan := plan_props st in
  if truthy (obj_get plan day) then
    match as_array (obj_get plan day) with
    | Throw e => (Throw e, st)
    | Return ids =>
        let kept := JArr (filter (fun id => strict_eq (Val id) mealId = false) ids) in
        let plan1 := obj_assign plan day kept in
        let st1 := plan_write day kept st in
        let (_, st2) := updateData fits "weeklyPlan" (JObj plan1) st1 in
        (Return true, showSuccess "Meal removed" st2)
    end
  else (Return false, st).

Definition clearDay (day : string) (st : state) : state :=
  let plan1 := obj_assign (plan_props st) day (JArr []) in
  let st1 := plan_write day (JArr []) st in
  let (_, st2) := updateData fits "weeklyPlan" (JObj plan1) st1 in
  showSuccess (day +:+ " cleared") st2.

Definition clearWeek (st : state) : state :=
  let plan := fold_left (fun p day => obj_assign p day (JArr [])) DAYS [] in
  let (_, st1) := updateData fits "weeklyPlan" (JObj plan) st in
  showSuccess "Week cleared!" st1.

Definition getMealsForDay (day : string) (st : state) : jsval :=
  or_else (obj_get (plan_props st) day) (JArr []).

End Planner.

(* ================================================================= *)
(** ** The [Date] operations used by [calculateNextDueDate]

    Time values are milliseconds since the epoch, [None] is an invalid date
    ([NaN]).  The abstract operations follow ECMA-262, section "Date
    Objects". *)

Module JSDate.

Local Open Scope Z_scope.

Definition msPerDay : Z := 86400000.

Definition Day (t : Z) : Z := t / msPerDay.
Definition TimeWithinDay (t : Z) : Z := t mod msPerDay.

Definition DayFromYear (y : Z) : Z :=
  365 * (y - 1970) + (y - 1969) / 4 - (y - 1901) / 100 + (y - 1601) / 400.

Definition InLeapYear_year (y : Z) : bool :=
  ((y mod 4 =? 0) && negb (y mod 100 =? 0)) || (y mod 400 =? 0).

(** The largest [y] with [DayFromYear y <= Day t]. *)
Definition YearFromTime (t : Z) : Z :=
  let d := Day t in
  let y := 1970 + d * 400 / 146097 in
  if d <? DayFromYear y then y - 1
  else if DayFromYear (y + 1) <=? d then y + 1
  else y.

Definition DayWithinYear (t : Z) : Z := Day t - DayFromYear (YearFromTime t).

Definition leap (y : Z) : Z := if InLeapYear_year y then 1 else 0.

(** Days of the year before month [m] (0 = January). *)
Definition days_before_month (l m : Z) : Z :=
  match m with
  | 0 => 0
  | 1 => 31
  | 2 => 59 + l
  | 3 => 90 + l
  | 4 => 120 + l
  | 5 => 151 + l
  | 6 => 181 + l
  | 7 => 212 + l
  | 8 => 243 + l
  | 9 => 273 + l
  | 10 => 304 + l
  | _ => 334 + l
  end.

Definition MonthFromTime (t : Z) : Z :=
  let l := leap (YearFromTime t) in
  let d := DayWithinYear t in
  if d <? 31 then 0
  else if d <? 59 + l then 1
  else if d <? 90 + l then 2
  else if d <? 120 + l then 3
  else if d <? 151 + l then 4
  else if d <? 181 + l then 5
  else if d <? 212 + l then 6
  else if d <? 243 + l then 7
  else if d <? 273 + l then 8
  else if d <? 304 + l then 9
  else if d <? 334 + l then 10
  else 11.

(** The day number of the first day of month [m] (0..11) of year [y]. *)
Definition first_of_month (y m : Z) : Z :=
  DayFromYear y + days_before_month (leap y) m.

Definition DateFromTime (t : Z) : Z :=
  Day t - first_of_month (YearFromTime t) (MonthFromTime t) + 1.

Definition MakeDay (year month date : Z) : Z :=
  first_of_month (year + month / 12) (month mod 12) + date - 1.

Definition MakeDate (day time : Z) : Z := day * msPerDay + time.

Definition TimeClip (t : Z) : option Z :=
  if Z.abs t <=? 8640000000000000 then Some t else None.

Definition HourFromTime (t : Z) : Z := (t / 3600000) mod 24.
Definition MinFromTime (t : Z) : Z := (t / 60000) mod 60.
Definition SecFromTime (t : Z) : Z := (t / 1000) mod 60.
Definition msFromTime (t : Z) : Z := t mod 1000.

(** The length of month [m] (0 = January) of year [y]. *)
Definition DaysInMonth (y m : Z) : Z :=
  match m with
  | 1 => 28 + leap y
  | 3 | 5 | 8 | 10 => 30
  | _ => 31
  end.

(** *** Digits *)

Definition digit_of (c : ascii) : option Z :=
  let n := Z.of_nat (nat_of_ascii c) in
  if (48 <=? n) && (n <=? 57) then Some (n - 48) else None.

Fixpoint digits_value (acc : Z) (l : list ascii) : option Z :=
  match l with
  | [] => Some acc
  | c :: l' =>
      match digit_of c with
      | Some d => digits_value (10 * acc + d) l'
      | None => None
      end
  end.

Fixpoint zeros (n : nat) : string :=
  match n with
  | O => EmptyString
  | S n' => String "0" (zeros n')
  end.

(** A non-negative number in decimal, padded with zeros to [width]. *)
Definition pad (width : nat) (n : Z) : string :=
  let s := Z_to_string n in
  zeros (width - String.length s) +:+ s.

(** *** Parsing: the date-only form [YYYY-MM-DD] is UTC; any other text is
    left to the engine ([parse_other]). *)

Definition parse_date_only (s : string) : option Z :=
  match list_ascii_of_string s with
  | [y1; y2; y3; y4; s1; m1; m2; s2; d1; d2] =>
      if Ascii.eqb s1 "-" && Ascii.eqb s2 "-" then
        match digits_value 0 [y1; y2; y3; y4], digits_value 0 [m1; m2],
              digits_value 0 [d1; d2] with
        | Some y, Some m, Some d =>
            if (1 <=? m) && (m <=? 12) && (1 <=? d)
               && (d <=? DaysInMonth y (m - 1))
            then Some (MakeDate (MakeDay y (m - 1) d) 0)
            else None
        | _, _, _ => None
        end
      else None
  | _ => None
  end.

(** *** Formatting: [toISOString] *)

Definition year_string (y : Z) : string :=
  if (0 <=? y) && (y <=? 9999) then pad 4 y
  else if y <? 0 then "-" +:+ pad 6 (- y)
  else "+" +:+ pad 6 y.

Definition toISOString (t : Z) : string :=
  year_string (YearFromTime t) +:+ "-" +:+ pad 2 (MonthFromTime t + 1)
  +:+ "-" +:+ pad 2 (DateFromTime t) +:+ "T" +:+ pad 2 (HourFromTime t)
  +:+ ":" +:+ pad 2 (MinFromTime t) +:+ ":" +:+ pad 2 (SecFromTime t)
  +:+ "." +:+ pad 3 (msFromTime t) +:+ "Z".

(** [s.split('T')[0]]. *)
Fixpoint before_T (s : string) : string :=
  match s with
  | EmptyString => EmptyString
  | String c s' => if Ascii.eqb c "T" then EmptyString else String c (before_T s')
  end.

Section Zone.

(** The offset of local time from UTC in milliseconds: [LocalTZA t true] at
    the UTC time [t], [LocalTZA t false] at the local time [t]. *)
Variable LocalTZA : Z -> bool -> Z.

(** [Date.parse] on a text that is not of the date-only form. *)
Variable parse_other : string -> option Z.

Definition LocalTime (t : Z) : Z := t + LocalTZA t true.
Definition UTC (t : Z) : Z := t - LocalTZA t false.

Definition Date_parse (s : string) : option Z :=
  match parse_date_only s with
  | Some t => Some t
  | None => parse_other s
  end.

(** [new Date(v)] for a value read from a document. *)
Definition new_Date (v : jsval) : option Z :=
  match v with
  | Undefined => None
  | Builtin => None
  | Val JNull => Some 0
  | Val (JBool b) => Some (if b then 1 else 0)
  | Val (JNum n) => TimeClip n
  | Val (JStr s) => t ← Date_parse s; TimeClip t
  | Val j => t ← Date_parse (ToString j); TimeClip t
  end.

Definition getDate (t : Z) : Z := DateFromTime (LocalTime t).

Definition setDate (t : Z) (dt : Z) : option Z :=
  let lt := LocalTime t in
  let newDate :=
    MakeDate (MakeDay (YearFromTime lt) (MonthFromTime lt) dt)
             (TimeWithinDay lt) in
  TimeClip (UTC newDate).

End Zone.

End JSDate.

(* ================================================================= *)
(** ** The domain modules: meals, tasks, shopping list

    [generateId()] and [new Date().toISOString()] are inputs: [id] and
    [now]. *)

Record filters : Type := mkFilters {
  f_type : option string;
  f_dietary : option (list json);
  f_ingredient : option string;
  f_search : option string
}.

Definition nonempty (s : string) : bool := negb (String.eqb s "").

Section Domain.

Variable fits : json -> bool.
Variable LocalTZA : Z -> bool -> Z.
Variable parse_other : string -> option Z.

(** [arr.push(x); updateData(k, arr)] for [arr] obtained by
    [getData(k) || []]. *)
Definition push_and_save (k : string) (arr : list json) (x : json)
  (st : state) : state :=
  let arr' := JArr (arr ++ [x]) in
  let st1 := if collection_shared k st then write_section k arr' st else st in
  snd (updateData fits k arr' st1).

(** [arr[i] = x; updateData(k, arr)], or the same after a mutation of the
    element [arr[i]] in place. *)
Definition store_at (k : string) (arr : list json) (i : nat) (x : json)
  (st : state) : state :=
  let arr' := JArr (<[i := x]> arr) in
  let st1 := if collection_shared k st then write_section k arr' st else st in
  snd (updateData fits k arr' st1).

(** *** meals.js *)

Definition getMeals (st : state) : jsval := collection "meals" st.

Definition addMeal (id now : string) (mealData : json) (st : state)
  : outcome json * state :=
  match as_array (getMeals st) with
  | Throw e => (Throw e, st)
  | Return meals =>
      let newMeal :=
        JObj (obj_set
                (obj_set (spread [("id", JStr id)] (Val mealData))
                   "dateAdded" (JStr now))
                "lastMade" JNull) in
      let st1 := push_and_save "meals" meals newMeal st in
      (Return newMeal, showSuccess "Meal added successfully!" st1)
  end.

Definition updateMeal (mealId : json) (mealData : json) (st : state)
  : outcome json * state :=
  match meals ← as_array (getMeals st);
        found ← js_find (id_is mealId) meals 0;
        Return (meals, found) with
  | Throw e => (Throw e, st)
  | Return (meals, Some (index, meal)) =>
      let updated := JObj (spread (spread [] (Val meal)) (Val mealData)) in
      let st1 := store_at "meals" meals index updated st in
      (Return updated, showSuccess "Meal updated!" st1)
  | Return (_, None) => (Return JNull, st)
  end.

(** The callback of [filterMeals], one [if] per line. *)
Definition meal_passes (f : filters) (meal : json) : outcome bool :=
  ok1 ← match f_type f with
         | Some t =>
             if nonempty t && negb (String.eqb t "all") then
               ty ← member meal "type"; Return (strict_eq ty (JStr t))
             else Return true
         | None => Return true
         end;
  if negb ok1 then Return false else
  ok2 ← match f_dietary f with
         | Some ds =>
             js_every (fun d => r ← member meal "dietary"; includes_method r d) ds
         | None => Return true
         end;
  if negb ok2 then Return false else
  ok3 ← match f_ingredient f with
         | Some ing =>
             if nonempty ing then
               mi ← member meal "mainIngredients";
               l ← as_array mi;
               js_some (fun i => s ← toLowerCase_method (Val i);
                                 Return (string_includes s (toLowerCase ing))) l
             else Return true
         | None => Return true
         end;
  if negb ok3 then Return false else
  match f_search f with
  | Some q =>
      if nonempty q then
        title ← member meal "title";
        ings ← member meal "ingredients";
        l ← as_array ings;
        let searchText :=
          toLowerCase (to_string title +:+ " " +:+ join " " l) in
        Return (string_includes searchText (toLowerCase q))
      else Return true
  | None => Return true
  end.

Definition filterMeals (f : filters) (st : state) : outcome (list json) :=
  meals ← as_array (getMeals st);
  js_filter (meal_passes f) meals.

(** *** tasks.js *)

Definition tasks_section (type : string) : string :=
  if String.eqb type "cleaning" then "cleaningTasks" else "maintenanceTasks".

Definition getCleaningTasks (st : state) : jsval := collection "cleaningTasks" st.
Definition getMaintenanceTasks (st : state) : jsval :=
  collection "maintenanceTasks" st.

Definition tasks_of (type : string) (st : state) : jsval :=
  if String.eqb type "cleaning" then getCleaningTasks st
  else getMaintenanceTasks st.

Definition addTask (id now : string) (taskData : json) (type : string)
  (st : state) : outcome json * state :=
  match as_array (tasks_of type st) with
  | Throw e => (Throw e, st)
  | Return tasks =>
      let newTask :=
        JObj (obj_set
                (obj_set
                   (obj_set (spread [("id", JStr id)] (Val taskData))
                      "completed" (JBool false))
                   "lastCompleted" JNull)
                "createdDate" (JStr now)) in
      let st1 := push_and_save (tasks_section type) tasks newTask st in
      (Return newTask, showSuccess "Task added!" st1)
  end.

Definition freq : obj :=
  [ ("daily", JNum 1); ("weekly", JNum 7); ("fortnightly", JNum 14);
    ("monthly", JNum 30); ("quarterly", JNum 90); ("yearly", JNum 365) ].

(** An inherited member of [freq] makes the sum a text, the date invalid,
    and [toISOString] throws, as it does on any invalid date. *)
Definition calculateNextDueDate (currentDate frequency : jsval)
  : outcome string :=
  let date := JSDate.new_Date parse_other currentDate in
  match or_else (obj_get freq (to_string frequency)) (JNum 7), date with
  | Val (JNum n), Some t =>
      match JSDate.setDate LocalTZA t (JSDate.getDate LocalTZA t + n) with
      | Some u => Return (JSDate.before_T (JSDate.toISOString u))
      | None => Throw RangeError
      end
  | _, _ => Throw RangeError
  end.

Definition toggleTaskComplete (now : string) (taskId : json) (type : string)
  (st : state) : outcome json * state :=
  let k := tasks_section type in
  match tasks ← as_array (tasks_of type st);
        found ← js_find (id_is taskId) tasks 0;
        Return (tasks, found) with
  | Throw e => (Throw e, st)
  | Return (tasks, Some (i, JObj task)) =>
      let save t := (Return (JObj t), store_at k tasks i (JObj t) st) in
      let completed := negb (truthy (obj_get task "completed")) in
      let task1 := obj_set task "completed" (JBool completed) in
      if completed then
        let task2 := obj_set task1 "lastCompleted" (JStr now) in
        if negb (strict_eq (obj_get task2 "frequency") (JStr "once")) then
          match calculateNextDueDate (obj_get task2 "dueDate")
                  (obj_get task2 "frequency") with
          | Return due =>
              save (obj_set (obj_set task2 "dueDate" (JStr due))
                      "completed" (JBool false))
          | Throw e =>
              (* nothing is saved; the task object was changed in place *)
              (Throw e,
               if collection_shared k st
               then write_section k (JArr (<[i := JObj task2]> tasks)) st
               else st)
          end
        else save task2
      else save task1
  | Return (_, _) => (Return JNull, st)   (* not found; see [found_is_object] *)
  end.

End Domain.

(** *** shopping.js *)

(** An element of the [Set] of ingredients, with the place it was read from
    (meal index, ingredient index): arrays and objects are set members by
    identity, and two places never hold the same one. *)
Abbreviation placed := (json * (nat * nat))%type.

Definition same_value_zero (a b : placed) : bool :=
  match fst a with
  | JArr _ | JObj _ =>
      Nat.eqb (fst (snd a)) (fst (snd b)) && Nat.eqb (snd (snd a)) (snd (snd b))
  | _ => strict_eq (Val (fst a)) (fst b)
  end.

Definition set_add (s : list placed) (x : placed) : list placed :=
  if existsb (fun y => same_value_zero y x) s then s else s ++ [x].

(** [dayMeals.forEach(mealId => ...)] of [generateFromMealPlan]. *)
Fixpoint collect_ids (meals : jsval) (ids : list json) (acc : list placed)
  : outcome (list placed) :=
  match ids with
  | [] => Return acc
  | mealId :: ids' =>
      ms ← as_array meals;
      found ← js_find (id_is mealId) ms 0;
      acc' ← match found with
              | Some (i, meal) =>
                  ings ← member meal "ingredients";
                  l ← as_array ings;
                  Return (fold_left set_add (imap (fun j ing => (ing, (i, j))) l) acc)
              | None => Return acc
              end;
      collect_ids meals ids' acc'
  end.

(** [Object.values(weeklyPlan).forEach(dayMeals => ...)]. *)
Fixpoint collect_days (meals : jsval) (days : list json) (acc : list placed)
  : outcome (list placed) :=
  match days with
  | [] => Return acc
  | dayMeals :: days' =>
      ids ← as_array (Val dayMeals);
      acc' ← collect_ids meals ids acc;
      collect_days meals days' acc'
  end.

(** [item => item.name.toLowerCase() === ing.toLowerCase()]. *)
Definition names (ing : json) (item : json) : outcome bool :=
  n ← member item "name";
  a ← toLowerCase_method n;
  b ← toLowerCase_method (Val ing);
  Return (String.eqb a b).

Section Shopping.

Variable fits : json -> bool.

Definition getShoppingList (st : state) : jsval := collection "shoppingList" st.

Definition addShoppingItem (id now : string) (itemData : json) (st : state)
  : outcome json * state :=
  match as_array (getShoppingList st) with
  | Throw e => (Throw e, st)
  | Return list =>
      let newItem :=
        JObj (obj_set
                (obj_set (spread [("id", JStr id)] (Val itemData))
                   "checked" (JBool false))
                "addedDate" (JStr now)) in
      let st1 := push_and_save fits "shoppingList" list newItem st in
      (Return newItem, showSuccess "Item added to shopping list!" st1)
  end.

Definition toggleItemChecked (itemId : json) (st : state)
  : outcome bool * state :=
  match list ← as_array (getShoppingList st);
        found ← js_find (id_is itemId) list 0;
        Return (list, found) with
  | Throw e => (Throw e, st)
  | Return (list, Some (i, JObj item)) =>
      let checked := negb (truthy (obj_get item "checked")) in
      let item' := JObj (obj_set item "checked" (JBool checked)) in
      (Return checked, store_at fits "shoppingList" list i item' st)
  | Return (_, _) => (Return false, st)   (* not found; see [found_is_object] *)
  end.

(** The second loop of [generateFromMealPlan].  [currentList] was read once,
    before the loop; when it is the defaults' own array, the pushes of
    [addShoppingItem] on that array show in it.  [fresh n] gives the id and
    the time of the [n]-th item added. *)
Definition current_list (shared : bool) (snapshot : jsval) (st : state)
  : jsval :=
  if shared then obj_get (module_defaults st) "shoppingList" else snapshot.

(** [{ name: ing, quantity: '1', category: 'food', price: 0, aisle: '' }]. *)
Definition generated_item (ing : json) : json :=
  JObj [ ("name", ing); ("quantity", JStr "1"); ("category", JStr "food");
         ("price", JNum 0); ("aisle", JStr "") ].

Fixpoint add_missing (fresh : nat -> string * string) (shared : bool)
  (snapshot : jsval) (ings : list json) (added : nat) (st : state)
  : outcome nat * state :=
  match ings with
  | [] => (Return added, st)
  | ing :: ings' =>
      match cur ← as_array (current_list shared snapshot st);
            js_find (names ing) cur 0 with
      | Throw e => (Throw e, st)
      | Return (Some _) => add_missing fresh shared snapshot ings' added st
      | Return None =>
          match addShoppingItem (fst (fresh added)) (snd (fresh added))
                  (generated_item ing) st with
          | (Throw e, st') => (Throw e, st')
          | (Return _, st') =>
              add_missing fresh shared snapshot ings' (S added) st'
          end
      end
  end.

Definition planned_ingredients (st : state) : outcome (list placed) :=
  let weeklyPlan := or_else (getData "weeklyPlan" st) (JObj []) in
  let meals := or_else (getData "meals" st) (JArr []) in
  collect_days meals (map snd (own_props weeklyPlan)) [].

Definition generateFromMealPlan (fresh : nat -> string * string)
  (st : state) : outcome nat * state :=
  let currentList := getShoppingList st in
  let shared := collection_shared "shoppingList" st in
  match planned_ingredients st with
  | Throw e => (Throw e, st)
  | Return ingredients =>
      match add_missing fresh shared currentList (map fst ingredients) 0 st with
      | (Throw e, st') => (Throw e, st')
      | (Return added, st') =>
          (Return added,
           showSuccess ("Added " +:+ index_key added +:+ " items from meal plan!") st')
      end
  end.

End Shopping.

(* ================================================================= *)
(** ** The save-meal proxy *)

Definition is_word (c : ascii) : bool :=
  let n := nat_of_ascii c in
  ((48 <=? n) && (n <=? 57) || (65 <=? n) && (n <=? 90)
   || (97 <=? n) && (n <=? 122) || (n =? 95))%nat.

(** [.replace(/[^\w]+/g, '-')]: [in_run] says that the previous character
    was part of the run being replaced. *)
Fixpoint replace_runs (in_run : bool) (s : string) : string :=
  match s with
  | EmptyString => EmptyString
  | String c s' =>
      if is_word c then String c (replace_runs false s')
      else if in_run then replace_runs true s'
      else String "-" (replace_runs true s')
  end.

Definition is_hyphen (c : ascii) : bool := Ascii.eqb c "-".

(** [.replace(/(^-+|-+$)/g, '')]: the hyphens the text starts with and the
    hyphens it ends with. *)
Fixpoint drop_leading (s : string) : string :=
  match s with
  | String c s' => if is_hyphen c then drop_leading s' else s
  | EmptyString => EmptyString
  end.

Fixpoint drop_trailing (s : string) : string :=
  match s with
  | EmptyString => EmptyString
  | String c s' =>
      match drop_trailing s' with
      | EmptyString => if is_hyphen c then EmptyString else String c EmptyString
      | r => String c r
      end
  end.

Definition slugify (text : string) : string :=
  drop_trailing (drop_leading (replace_runs false (toLowerCase text)))
  +:+ ".json".

(** The path computed by the handler of [POST /api/save-meal] from the
    request body. *)
Definition save_meal_path (meal : json) : outcome string :=
  ty ← member meal "type";
  mealType ← toLowerCase_method ty;
  title ← member meal "title";
  fileName ← match title with
              | Val (JStr t) => Return (slugify t)
              | _ => Throw TypeError
              end;
  Return ("meals/" +:+ mealType +:+ "/" +:+ fileName).

(** *** The slug in the words of the specification: the maximal runs of word
    characters of the lowercased title, joined by single hyphens. *)

Fixpoint word_runs (cur : string) (s : string) : list string :=
  match s with
  | EmptyString => if nonempty cur then [cur] else []
  | String c s' =>
      if is_word c then word_runs (cur +:+ String c EmptyString) s'
      else if nonempty cur then cur :: word_runs EmptyString s'
      else word_runs EmptyString s'
  end.

Fixpoint hyphenate (ws : list string) : string :=
  match ws with
  | [] => EmptyString
  | [w] => w
  | w :: ws' => w +:+ "-" +:+ hyphenate ws'
  end.

Definition slug (title : string) : string :=
  hyphenate (word_runs EmptyString (toLowerCase title)).

(* ================================================================= *)
(** ** Environments used in the examples *)

(** A store that never refuses a write. *)
Definition unlimited : json -> bool := fun _ => true.

(** An engine that accepts the date-only form alone. *)
Definition no_other_format : string -> option Z := fun _ => None.

(** Local time is UTC. *)
Definition zone_utc : Z -> bool -> Z := fun _ _ => 0%Z.

(** Europe/London during 2024: one hour ahead of UTC from 31 March 01:00 UTC
    to 27 October 01:00 UTC.  A local time that the clocks skip or repeat is
    read with the offset in force before the change. *)
Definition bst_start : Z := 1711846800000.
Definition bst_end : Z := 1729990800000.

Definition zone_london_2024 (t : Z) (isUTC : bool) : Z :=
  let shift := if isUTC then 0%Z else 3600000%Z in
  if ((bst_start + shift <=? t) && (t <? bst_end + shift))%Z
  then 3600000%Z else 0%Z.

(* ================================================================= *)
(** ** Sequences of operations *)

Inductive op : Type :=
  | AddMealToDay (day : string) (mealId : json)
  | RemoveMealFromDay (day : string) (mealId : json)
  | ClearDay (day : string)
  | ClearWeek
  | ImportData (file : upload)
  | ClearAllData
  | UpdateData (section : string) (value : json)
  | AddMeal (id now : string) (mealData : json)
  | UpdateMeal (mealId mealData : json)
  | AddTask (id now : string) (taskData : json) (type : string)
  | ToggleTaskComplete (now : string) (taskId : json) (type : string)
  | AddShoppingItem (id now : string) (itemData : json)
  | ToggleItemChecked (itemId : json)
  | GenerateFromMealPlan (fresh : nat -> string * string).

Section Run.

Variable fits : json -> bool.
Variable LocalTZA : Z -> bool -> Z.
Variable parse_other : string -> option Z.

Definition run (o : op) (st : state) : state :=
  match o with
  | AddMealToDay day mealId => snd (addMealToDay fits day mealId st)
  | RemoveMealFromDay day mealId => snd (removeMealFromDay fits day mealId st)
  | ClearDay day => clearDay fits day st
  | ClearWeek => clearWeek fits st
  | ImportData file => snd (importData fits file st)
  | ClearAllData => snd (clearAllData true (true, true) st)
  | UpdateData section value => snd (updateData fits section value st)
  | AddMeal id now mealData => snd (addMeal fits id now mealData st)
  | UpdateMeal mealId mealData => snd (updateMeal fits mealId mealData st)
  | AddTask id now taskData type => snd (addTask fits id now taskData type st)
  | ToggleTaskComplete now taskId type =>
      snd (toggleTaskComplete fits LocalTZA parse_other now taskId type st)
  | AddShoppingItem id now itemData =>
      snd (addShoppingItem fits id now itemData st)
  | ToggleItemChecked itemId => snd (toggleItemChecked fits itemId st)
  | GenerateFromMealPlan fresh => snd (generateFromMealPlan fits fresh st)
  end.


End Run.

(* ================================================================= *)
(** ** Predicates used in the statements *)

(** The section names of the document. *)
Definition sections : list string := map fst defaultData.

Definition keys (o : obj) : list string := map fst o.

(** The in-memory defaults keep their shape: distinct keys, and a weekly
    plan with distinct keys among which the seven days. *)
Definition defaults_wf (d : obj) : Prop :=
  NoDup (keys d)
  /\ exists dwp, own d "weeklyPlan" = Some (JObj dwp)
       /\ NoDup (keys dwp)
       /\ Forall (fun day => has_own dwp day = true) DAYS.

Definition state_wf (st : state) : Prop := defaults_wf (module_defaults st).

(** [x.id === id] on a record. *)
Definition has_id (id : json) (x : json) : bool :=
  match x with
  | JObj o => strict_eq (obj_get o "id") id
  | _ => false
  end.

(** [x] is not [null] and its [id] is not [id]. *)
Definition other_record (id : json) (x : json) : bool :=
  match x with
  | JNull => false
  | _ => negb (has_id id x)
  end.

(** No element of the collection has the id [id]. *)
Definition id_absent (id : json) (l : list json) : Prop :=
  Forall (fun x => other_record id x = true) l.

(** A meal as the data model has it, as far as [filterMeals] looks: a record
    with a list of dietary tags. *)
Definition has_dietary_list (m : json) : bool :=
  match m with
  | JObj o => match own o "dietary" with Some (JArr _) => true | _ => false end
  | _ => false
  end.

(** [type === 'dinner'] and [dietary] contains ['vegan']. *)
Definition dinner_and_vegan (m : json) : bool :=
  match m with
  | JObj o =>
      strict_eq (obj_get o "type") (JStr "dinner")
      && match own o "dietary" with
         | Some (JArr tags) => existsb (fun t => strict_eq (Val t) (JStr "vegan")) tags
         | _ => false
         end
  | _ => false
  end.

Definition is_string (x : json) : bool :=
  match x with JStr _ => true | _ => false end.

Definition is_list (x : json) : bool :=
  match x with JArr _ => true | _ => false end.

(** A meal with a list of ingredient names; a shopping item with a name. *)
Definition has_ingredient_names (m : json) : bool :=
  match m with
  | JObj o =>
      match own o "ingredients" with
      | Some (JArr l) => forallb is_string l
      | _ => false
      end
  | _ => false
  end.

Definition has_name (x : json) : bool :=
  match x with
  | JObj o => match own o "name" with Some (JStr _) => true | _ => false end
  | _ => false
  end.

Definition name_of (x : json) : string :=
  match x with
  | JObj o => match own o "name" with Some (JStr s) => s | _ => "" end
  | _ => ""
  end.

(** The item's name is [s], up to case. *)
Definition matches (s : string) (item : json) : bool :=
  String.eqb (toLowerCase (name_of item)) (toLowerCase s).

(** The document read by [generateFromMealPlan] has the shape of the data
    model: lists of meal ids per day, meals with ingredient names, shopping
    items with names. *)
Definition plan_data_wf (st : state) : Prop :=
  (exists plan, getData "weeklyPlan" st = Val (JObj plan)
                /\ forallb is_list (map snd plan) = true)
  /\ (exists meals, getData "meals" st = Val (JArr meals)
                    /\ forallb has_ingredient_names meals = true)
  /\ (exists items, getData "shoppingList" st = Val (JArr items)
                    /\ forallb has_name items = true).

(** The shopping list as a list of items ([[]] when it is not a list). *)
Definition shopping_items (st : state) : list json :=
  match getData "shoppingList" st with
  | Val (JArr l) => l
  | _ => []
  end.

(** The ingredient names of the planned meals. *)
Definition planned_names (st : state) : list string :=
  match planned_ingredients st with
  | Return l => map (fun p => ToString (fst p)) l
  | Throw _ => []
  end.

(** The day number that a date-only text denotes. *)
Definition day_number (s : string) : option Z :=
  option_map JSDate.Day (JSDate.parse_date_only s).

(** The date-only text of a day number. *)
Definition date_text (d : Z) : string :=
  JSDate.before_T (JSDate.toISOString (d * JSDate.msPerDay)).

(* ================================================================= *)
(** ** Definitions used in the proofs *)

(** The key list after defining the key [k]. *)
Definition add_key (ks : list string) (k : string) : list string :=
  if existsb (String.eqb k) ks then ks else (ks ++ [k])%list.

(** What [getData] reads, by cases on the store. *)
Definition read_section (st : state) (k : string) : jsval :=
  let d := module_defaults st in
  match merged_from st with
  | None => obj_get d k
  | Some data =>
      if is_merged_section k then
        match member data k with
        | Return x => Val (JObj (spread (spread [] (obj_get d k)) x))
        | Throw _ => Undefined
        end
      else
        match own (rev (own_props (Val data))) k with
        | Some u => Val u
        | None => obj_get d k
        end
  end.

(** [find] with a callback that does not throw. *)
Fixpoint find_from (f : json -> bool) (l : list json) (i : nat)
  : option (nat * json) :=
  match l with
  | [] => None
  | x :: l' => if f x then Some (i, x) else find_from f l' (S i)
  end.

(** A text made of word characters only. *)
Fixpoint all_word (s : string) : bool :=
  match s with
  | EmptyString => true
  | String c s' => is_word c && all_word s'
  end.

(** What the second loop of [generateFromMealPlan] keeps: the plan and the
    meals are read as [W] and [M], the shopping list is [Ls], and the list
    read before the loop holds at least the items [L0] it held then and at
    most those of [Ls]. *)
Definition loop_inv (W M : jsval) (st : state) (Ls : list json) : Prop :=
  state_wf st /\ getData "weeklyPlan" st = W /\ getData "meals" st = M
  /\ getData "shoppingList" st = Val (JArr Ls) /\ forallb has_name Ls = true.

Definition cur_ok (shared : bool) (snapshot : jsval) (st : state)
  (L0 Ls : list json) : Prop :=
  exists Cs, current_list shared snapshot st = Val (JArr Cs)
    /\ incl L0 Cs /\ incl Cs Ls /\ forallb has_name Cs = true.

(* ================================================================= *)
(** ** Example documents and pages *)

(** The filter [{ type: 'dinner', dietary: ['vegan'] }]. *)
Definition dinner_vegan : filters :=
  mkFilters (Some "dinner") (Some [JStr "vegan"]) None None.

Definition meal_dal : json :=
  JObj [ ("id", JStr "m1"); ("title", JStr "Dal"); ("type", JStr "dinner");
         ("dietary", JArr [JStr "vegan"; JStr "gluten-free"]);
         ("mainIngredients", JArr [JStr "lentils"]);
         ("ingredients", JArr [JStr "Lentils"; JStr "Onion"; JStr "Rice"]) ].

Definition meal_roast : json :=
  JObj [ ("id", JStr "m2"); ("title", JStr "Roast"); ("type", JStr "dinner");
         ("dietary", JArr []);
         ("mainIngredients", JArr [JStr "chicken"]);
         ("ingredients", JArr [JStr "Chicken"; JStr "onion"]) ].

Definition meal_porridge : json :=
  JObj [ ("id", JStr "m3"); ("title", JStr "Porridge");
         ("type", JStr "breakfast"); ("dietary", JArr [JStr "vegan"]);
         ("mainIngredients", JArr [JStr "oats"]);
         ("ingredients", JArr [JStr "Oats"]) ].

Definition sample_meals : list json := [meal_dal; meal_roast; meal_porridge].

Definition sample_tasks : list json :=
  [ JObj [ ("id", JStr "t1"); ("name", JStr "Hoover the stairs");
           ("frequency", JStr "weekly"); ("dueDate", JStr "2024-01-01");
           ("completed", JBool false) ] ].

Definition sample_items : list json :=
  [ JObj [ ("id", JStr "i1"); ("name", JStr "RICE"); ("checked", JBool false) ] ].

(** A page over a store with three meals, a plan for two days, one shopping
    item and one cleaning task. *)
Definition sample_page : state :=
  fresh_page (Some (JsonText (JObj
    [ ("meals", JArr sample_meals);
      ("weeklyPlan",
        JObj [ ("Monday", JArr [JStr "m1"]); ("Tuesday", JArr [JStr "m2"; JStr "m1"]) ]);
      ("shoppingList", JArr sample_items);
      ("cleaningTasks", JArr sample_tasks) ]))).

(** Ids and times for the items that [generateFromMealPlan] adds. *)
Definition sample_fresh (n : nat) : string * string :=
  ("item" +:+ index_key n, "2024-01-03T09:00:00.000Z").

(** A page over a store with one meal. *)
Definition page_with_meal : state :=
  fresh_page (Some (JsonText (JObj
    [ ("meals", JArr [ JObj [ ("id", JStr "m1"); ("title", JStr "Dal") ] ]) ]))).

(** A page whose store holds one cleaning task, and that task once
    completed. *)
Definition page_with_task (frequency dueDate : string) : state :=
  fresh_page (Some (JsonText (JObj
    [ ("cleaningTasks",
       JArr [ JObj [ ("id", JStr "t1"); ("name", JStr "Hoover the stairs");
                     ("frequency", JStr frequency);
                     ("dueDate", JStr dueDate);
                     ("completed", JBool false) ] ]) ]))).

Definition completed_task (frequency dueDate now : string) (done : bool)
  : json :=
  JObj [ ("id", JStr "t1"); ("name", JStr "Hoover the stairs");
         ("frequency", JStr frequency); ("dueDate", JStr dueDate);
         ("completed", JBool done); ("lastCompleted", JStr now) ].

(** The page after [initStorage] stored the defaults, the user cleared all
    data, planned a meal and cleared all data again. *)
Definition cleared_twice : state :=
  let st0 := fresh_page (Some (JsonText (JObj defaultData))) in
  let st1 := snd (clearAllData true (true, true) st0) in
  let st2 := snd (addMealToDay unlimited "Monday" (JStr "m1") st1) in
  snd (clearAllData true (true, true) st2).

(** An imported document whose plan has an eighth key and a Monday list
    that repeats an id; the page after that import, and a page after one
    meal was planned. *)
Definition imported_plan : json :=
  JObj [ ("weeklyPlan",
          JObj [ ("Monday", JArr [JStr "m1"; JStr "m1"]); ("Funday", JArr []) ]) ].

Definition page_after_import : state :=
  run unlimited zone_utc no_other_format
    (ImportData (Content (JsonText imported_plan))) (fresh_page None).


(* ================================================================= *)
(** ** The other functions of the modules

    The functions of [js/app.js], [js/storage.js], [js/planner.js], the
    meals, tasks and shopping modules, [ui.js] and [notifications.js] that
    read or write the document or compute on its values.  [new Date()] is
    an input, the time value [now].  Left out are the functions that work
    on the page (the DOM, the clipboard, timers, the permission dialog),
    [formatDate] and [formatPrice], which format for a locale,
    [getStorageInfo], which measures the serialised text, [getTotalCost],
    which adds prices (these are not whole numbers), and the reminders
    other than [checkDueTasks]. *)

(** *** js/app.js: dates *)

(** [new Date().toISOString().split('T')[0]] at the time value [now]. *)
Definition getTodayISO (now : Z) : string :=
  JSDate.before_T (JSDate.toISOString now).

(** The text of a parsed value where one is needed ([ToPrimitive], then
    [ToString]): as [ToString], but a record that has a property [toString]
    of its own, which is not a function, has no text and the conversion
    throws. *)
Fixpoint text_of (v : json) : outcome string :=
  match v with
  | JArr l =>
      (fix items (l : list json) : outcome string :=
         match l with
         | [] => Return ""
         | [x] => match x with JNull => Return "" | _ => text_of x end
         | x :: l' =>
             a ← match x with JNull => Return "" | _ => text_of x end;
             b ← items l';
             Return (a +:+ "," +:+ b)
         end) l
  | JObj o =>
      if has_own o "toString" then Throw TypeError else Return "[object Object]"
  | _ => Return (ToString v)
  end.

(** [a < b] and [a <= b] where [b] is a date text, which is no numeric
    literal.  Two texts are compared by code units; an array or a record is
    compared by its text; a number, a boolean, [null] or [undefined] is
    compared as a number with [NaN], and the result is [false], as it is for
    a member of [Object.prototype], whose text starts with a letter or a
    bracket. *)
Definition text_of_operand (a : jsval) : outcome (option string) :=
  match a with
  | Val (JStr s) => Return (Some s)
  | Val (JArr l) => s ← text_of (JArr l); Return (Some s)
  | Val (JObj o) => s ← text_of (JObj o); Return (Some s)
  | _ => Return None
  end.

Definition lt_text (a : jsval) (b : string) : outcome bool :=
  s ← text_of_operand a;
  Return (match s with Some s => String.ltb s b | None => false end).

Definition le_text (a : jsval) (b : string) : outcome bool :=
  s ← text_of_operand a;
  Return (match s with Some s => String.leb s b | None => false end).

Definition isToday (now : Z) (dateString : jsval) : bool :=
  strict_eq dateString (JStr (getTodayISO now)).

Definition isPast (now : Z) (dateString : jsval) : outcome bool :=
  lt_text dateString (getTodayISO now).

(** The day of the week of a time value, 0 for Sunday (ECMA-262,
    [WeekDay]), and its name in English, as
    [toLocaleDateString('en-US', { weekday: 'long' })] gives it for a local
    time. *)
Definition WeekDay (t : Z) : Z := ((JSDate.Day t + 4) mod 7)%Z.

Definition weekday_name (w : Z) : string :=
  match w with
  | 0 => "Sunday"
  | 1 => "Monday"
  | 2 => "Tuesday"
  | 3 => "Wednesday"
  | 4 => "Thursday"
  | 5 => "Friday"
  | _ => "Saturday"
  end%Z.

Section App.

Variable LocalTZA : Z -> bool -> Z.
Variable parse_other : string -> option Z.

(** [formatDate], which formats in the locale ['en-GB']. *)
Variable formatDate : jsval -> string.

Definition formatDateForInput (dateString : jsval) : outcome string :=
  if negb (truthy dateString) then Return ""
  else match JSDate.new_Date parse_other dateString with
       | Some t => Return (JSDate.before_T (JSDate.toISOString t))
       | None => Throw RangeError
       end.

(** [getDayOfWeek(dateString)] at the time [now]. *)
Definition getDayOfWeek (now : Z) (dateString : jsval) : string :=
  let date :=
    if truthy dateString then JSDate.new_Date parse_other dateString
    else Some now in
  match date with
  | Some t => weekday_name (WeekDay (JSDate.LocalTime LocalTZA t))
  | None => "Invalid Date"
  end.

Definition plural (n : Z) : string := if (1 <? n)%Z then "s" else "".

(** [getRelativeTime(dateString)] at the time [now]; an invalid date makes
    every number [NaN] and every comparison false.  The difference and the
    quotients are those of whole numbers, which a double holds exactly as
    far as the result depends on them. *)
Definition getRelativeTime (now : Z) (dateString : jsval) : string :=
  match JSDate.new_Date parse_other dateString with
  | None => "Just now"
  | Some date =>
      let diff := (now - date)%Z in
      let seconds := (diff / 1000)%Z in
      let minutes := (seconds / 60)%Z in
      let hours := (minutes / 60)%Z in
      let days := (hours / 24)%Z in
      if (7 <? days)%Z then formatDate dateString
      else if (0 <? days)%Z
           then Z_to_string days +:+ " day" +:+ plural days +:+ " ago"
      else if (0 <? hours)%Z
           then Z_to_string hours +:+ " hour" +:+ plural hours +:+ " ago"
      else if (0 <? minutes)%Z
           then Z_to_string minutes +:+ " minute" +:+ plural minutes +:+ " ago"
      else "Just now"
  end.

(** *** js/planner.js, continued *)

Definition getTodaysMeals (now : Z) (st : state) : jsval :=
  or_else (obj_get (plan_props st) (getDayOfWeek now Undefined)) (JArr []).

End App.

(** *** js/app.js: pages *)









(** *** js/storage.js, continued *)

Section Backup.

Variable fits : json -> bool.

(** [exportData()]: [t1], [t2] and [t3] are the times of the three
    [new Date()]; the result is the value returned and the file handed to
    the browser, its name and the document that is serialised into it.  An
    assignment to a property of [undefined], of [null] or (the modules are
    strict code) of a number, a boolean or a text throws, and the handler
    alerts and returns [false], the file being downloaded already.  (A
    property assigned to an array is not serialised and the model does not
    keep it; the settings that [loadData] returns are a record, lemma
    [loaded_settings].) *)
Definition exportData (t1 t2 t3 : Z) (st : state)
  : (bool * option (string * json)) * state :=
  let data := obj_assign (loadData st) "exportDate"
                (JStr (JSDate.toISOString t1)) in
  let file :=
    ("home-management-backup-"
       +:+ JSDate.before_T (JSDate.toISOString t2) +:+ ".json",
     JObj data) in
  match obj_get data "settings" with
  | Val (JObj settings) =>
      let settings' :=
        JObj (obj_assign settings "lastExport" (JStr (JSDate.toISOString t3))) in
      let st1 :=
        if shares_section st "settings"
        then write_section "settings" settings' st else st in
      let (_, st2) := saveData fits (obj_set data "settings" settings') st1 in
      ((true, Some file), st2)
  | Val (JArr _) =>
      let (_, st2) := saveData fits data st in
      ((true, Some file), st2)
  | _ =>
      ((false, Some file),
       emit (Alert "Error exporting data. Please try again.") st)
  end.

(** [initStorage()]: [available] is the answer of [isStorageAvailable],
    and [empty_text] says, of a stored text that does not parse, whether it
    is the empty text.  The document returned in the first two cases is the
    object [defaultData] itself. *)
Definition initStorage (available empty_text : bool) (st : state)
  : obj * state :=
  if negb available then (module_defaults st, st)
  else
    let data := loadData st in
    let nothing_stored :=
      match localStorage st with
      | None => true
      | Some BadText => empty_text
      | Some (JsonText _) => false
      end in
    if nothing_stored
    then (module_defaults st, snd (saveData fits (module_defaults st) st))
    else (data, st).

End Backup.

(** *** meals.js, tasks.js and shopping.js, continued *)

(** [x => x.id !== id]. *)
Definition id_is_not (id : json) (x : json) : outcome bool :=
  v ← member x "id"; Return (negb (strict_eq v id)).

(** [i => !i.checked]. *)
Definition not_checked (i : json) : outcome bool :=
  v ← member i "checked"; Return (negb (truthy v)).

Section Removal.

Variable fits : json -> bool.

(** *** meals.js, continued *)

Definition deleteMeal (mealId : json) (st : state) : outcome unit * state :=
  match meals ← as_array (getMeals st);
        js_filter (id_is_not mealId) meals with
  | Throw e => (Throw e, st)
  | Return filtered =>
      let st1 := snd (updateData fits "meals" (JArr filtered) st) in
      (Return tt, showSuccess "Meal deleted" st1)
  end.

Definition toggleFavourite (mealId : json) (st : state)
  : outcome bool * state :=
  match meals ← as_array (getMeals st);
        found ← js_find (id_is mealId) meals 0;
        Return (meals, found) with
  | Throw e => (Throw e, st)
  | Return (meals, Some (i, JObj meal)) =>
      let favourite := negb (truthy (obj_get meal "favourite")) in
      let meal' := JObj (obj_set meal "favourite" (JBool favourite)) in
      (Return favourite, store_at fits "meals" meals i meal' st)
  | Return (_, _) => (Return false, st)   (* not found; see [found_is_object] *)
  end.

(** *** tasks.js, continued *)

Definition deleteTask (taskId : json) (type : string) (st : state)
  : outcome unit * state :=
  match tasks ← as_array (tasks_of type st);
        js_filter (id_is_not taskId) tasks with
  | Throw e => (Throw e, st)
  | Return filtered =>
      let st1 := snd (updateData fits (tasks_section type) (JArr filtered) st) in
      (Return tt, showSuccess "Task deleted" st1)
  end.

(** *** shopping.js, continued *)

Definition removeItem (itemId : json) (st : state) : outcome unit * state :=
  match list ← as_array (getShoppingList st);
        js_filter (id_is_not itemId) list with
  | Throw e => (Throw e, st)
  | Return filtered =>
      let st1 := snd (updateData fits "shoppingList" (JArr filtered) st) in
      (Return tt, showSuccess "Item removed" st1)
  end.

Definition clearCheckedItems (st : state) : outcome (list json) * state :=
  match list ← as_array (getShoppingList st);
        js_filter not_checked list with
  | Throw e => (Throw e, st)
  | Return filtered =>
      let st1 := snd (updateData fits "shoppingList" (JArr filtered) st) in
      (Return filtered, showSuccess "Checked items cleared!" st1)
  end.

End Removal.

(** [t => !t.completed && t.dueDate && t.dueDate <= today]. *)
Definition is_due (today : string) (t : json) : outcome bool :=
  c ← member t "completed";
  if truthy c then Return false
  else d ← member t "dueDate";
       if truthy d then le_text d today else Return false.

Definition getDueTasks (now : Z) (type : string) (st : state)
  : outcome (list json) :=
  tasks ← as_array (tasks_of type st);
  js_filter (is_due (getTodayISO now)) tasks.

(** *** ui.js: the filter manager

    The state of the object is the record [activeFilters].  The values are
    texts, as the filter buttons supply them. *)

(** [delete o[k]]. *)
Definition obj_delete (o : obj) (k : string) : obj :=
  List.filter (fun kv => negb (String.eqb (fst kv) k)) o.

Module FilterManager.

Definition constructor : obj := [].

Definition setFilter (category value : string) (activeFilters : obj) : obj :=
  if String.eqb value "all" || String.eqb value ""
  then obj_delete activeFilters category
  else obj_assign activeFilters category (JStr value).

Definition getFilter (category : string) (activeFilters : obj) : jsval :=
  or_else (obj_get activeFilters category) JNull.

Definition clearFilters (activeFilters : obj) : obj := [].

Definition hasActiveFilters (activeFilters : obj) : bool :=
  (0 <? length (keys activeFilters))%nat.

Definition applyFilters (items : list json)
  (filterFn : json -> obj -> outcome bool) (activeFilters : obj)
  : outcome (list json) :=
  js_filter (fun item => filterFn item activeFilters) items.

End FilterManager.

(** *** notifications.js *)

(** [v.k] for a value that [getData] returned. *)
Definition member_of (v : jsval) (k : string) : outcome jsval :=
  match v with
  | Undefined => Throw TypeError
  | Builtin => Return (if inherited k then Builtin else Undefined)
  | Val j => member j k
  end.

(** The elements that a spread [...v] in an array literal takes from [v]. *)
Definition iterate (v : jsval) : outcome (list json) :=
  match v with
  | Val (JArr l) => Return l
  | Val (JStr s) =>
      Return (map (fun c => JStr (String c EmptyString)) (list_ascii_of_string s))
  | _ => Throw TypeError
  end.

(** [Array.prototype.join], with the texts of the elements as [text_of]
    gives them. *)
Definition item_text (x : json) : outcome string :=
  match x with JNull => Return "" | _ => text_of x end.

Fixpoint join_texts (sep : string) (l : list json) : outcome string :=
  match l with
  | [] => Return ""
  | [x] => item_text x
  | x :: l' => a ← item_text x; b ← join_texts sep l'; Return (a +:+ sep +:+ b)
  end.

(** [task => !task.completed && task.dueDate === today]. *)
Definition due_today (today : string) (task : json) : outcome bool :=
  c ← member task "completed";
  if truthy c then Return false
  else d ← member task "dueDate"; Return (strict_eq d (JStr today)).

(** The tasks that [checkDueTasks] counts. *)
Definition tasks_due_today (now : Z) (st : state) : outcome (list json) :=
  cleaningTasks ← iterate (collection "cleaningTasks" st);
  maintenanceTasks ← iterate (collection "maintenanceTasks" st);
  js_filter (due_today (getTodayISO now)) (cleaningTasks ++ maintenanceTasks).

(** [t => t.name], as [join] reads the result: [undefined] like [null]. *)
Definition name_for_join (t : json) : json :=
  match member t "name" with
  | Return (Val v) => v
  | _ => JNull
  end.

Section Notifications.

(** The text of the icon, a house; its code units are not among the
    characters of [string]. *)
Variable house : string.

Definition defaultOptions : obj :=
  [ ("icon", JStr house); ("badge", JStr house);
    ("vibrate", JArr [JNum 200; JNum 100; JNum 200]);
    ("tag", JStr "home-management"); ("renotify", JBool false) ].

(** [showNotification(title, options)]: the title and the options of the
    notification created, or [None] for [null].  [granted] says that
    notifications are supported and permitted. *)
Definition showNotification (granted : bool) (title : string) (options : obj)
  : option (string * obj) :=
  if granted
  then Some (title, spread (spread [] (Val (JObj defaultOptions))) (Val (JObj options)))
  else None.

(** [checkDueTasks()] at the time [now]: the notification shown, if any. *)
Definition checkDueTasks (granted : bool) (now : Z) (st : state)
  : outcome (option (string * obj)) :=
  let settings := getData "settings" st in
  enabled ← member_of settings "notificationsEnabled";
  if negb (truthy enabled) then Return None else
  notify ← member_of settings "notifyCleaning";
  if negb (truthy notify) then Return None else
  dueTasks ← tasks_due_today now st;
  let n := length dueTasks in
  if (0 <? n)%nat then
    body ← join_texts ", " (map name_for_join dueTasks);
    Return
      (showNotification granted
         (index_key n +:+ " Task" +:+ (if (1 <? n)%nat then "s" else "")
            +:+ " Due Today")
         [ ("body", JStr body); ("tag", JStr "daily-tasks") ])
  else Return None.

Variable fits : json -> bool.

(** [data.notificationsEnabled = enabled; updateData('settings', data)] for
    [data = getData('settings')].  (A property assigned to an array is not
    serialised and the model does not keep it; the settings that [getData]
    returns are a record, lemma [loaded_settings].) *)
Definition set_notificationsEnabled (enabled : bool) (st : state)
  : outcome unit * state :=
  match getData "settings" st with
  | Val (JObj data) =>
      let data' := JObj (obj_assign data "notificationsEnabled" (JBool enabled)) in
      let st1 :=
        if shares_section st "settings"
        then write_section "settings" data' st else st in
      (Return tt, snd (updateData fits "settings" data' st1))
  | Val (JArr l) => (Return tt, snd (updateData fits "settings" (JArr l) st))
  | _ => (Throw TypeError, st)
  end.

Definition disableNotifications (st : state) : outcome unit * state :=
  set_notificationsEnabled false st.

End Notifications.

(* ================================================================= *)
(** ** Sequences of operations, continued *)

Inductive action : Type :=
  | Op (o : op)
  | DeleteMeal (mealId : json)
  | ToggleFavourite (mealId : json)
  | DeleteTask (taskId : json) (type : string)
  | RemoveItem (itemId : json)
  | ClearCheckedItems
  | ExportData (t1 t2 t3 : Z)
  | InitStorage (available empty_text : bool)
  | SetNotificationsEnabled (enabled : bool).

Section Perform.

Variable fits : json -> bool.
Variable LocalTZA : Z -> bool -> Z.
Variable parse_other : string -> option Z.

Definition perform (a : action) (st : state) : state :=
  match a with
  | Op o => run fits LocalTZA parse_other o st
  | DeleteMeal mealId => snd (deleteMeal fits mealId st)
  | ToggleFavourite mealId => snd (toggleFavourite fits mealId st)
  | DeleteTask taskId type => snd (deleteTask fits taskId type st)
  | RemoveItem itemId => snd (removeItem fits itemId st)
  | ClearCheckedItems => snd (clearCheckedItems fits st)
  | ExportData t1 t2 t3 => snd (exportData fits t1 t2 t3 st)
  | InitStorage available empty_text =>
      snd (initStorage fits available empty_text st)
  | SetNotificationsEnabled enabled =>
      snd (set_notificationsEnabled fits enabled st)
  end.

(** The states of a page under all the operations modelled. *)
Inductive page_state : state -> Prop :=
  | page_fresh (s : option text) : page_state (fresh_page s)
  | page_perform (a : action) (st : state) :
      page_state st -> page_state (perform a st).

End Perform.

(* ================================================================= *)
(** ** Predicates, definitions used in the proofs and examples, continued *)

(** The day that a task is due, when its [dueDate] is a date-only text. *)
Definition due_on (t : json) : option Z :=
  match t with
  | JObj o =>
      match own o "dueDate" with
      | Some (JStr s) => day_number s
      | _ => None
      end
  | _ => None
  end.

(** A task as the data model has it, as far as [getDueTasks] looks: a
    record whose [dueDate] is a date-only text, or is empty or missing. *)
Definition well_dated (t : json) : bool :=
  match t with
  | JObj o =>
      match obj_get o "dueDate" with
      | Val (JStr s) =>
          String.eqb s "" || match day_number s with Some _ => true | None => false end
      | v => negb (truthy v)
      end
  | _ => false
  end.

(** The task is not completed and is due on the day [today] or before. *)
Definition due_by (today : Z) (t : json) : bool :=
  match t with
  | JObj o =>
      negb (truthy (obj_get o "completed"))
      && match due_on t with
         | Some d => (d <=? today)%Z
         | None => false
         end
  | _ => false
  end.

Definition page_with_due_tasks : state :=
  fresh_page (Some (JsonText (JObj
    [ ("cleaningTasks",
       JArr [ JObj [ ("id", JStr "t1"); ("dueDate", JStr "2024-02-29");
                     ("completed", JBool false) ];
              JObj [ ("id", JStr "t2"); ("dueDate", JStr "2024-03-01");
                     ("completed", JBool false) ];
              JObj [ ("id", JStr "t3"); ("dueDate", JStr "2023-12-31");
                     ("completed", JBool true) ];
              JObj [ ("id", JStr "t4"); ("completed", JBool false) ];
              JObj [ ("id", JStr "t5"); ("dueDate", JStr "2023-12-31");
                     ("completed", JBool false) ] ]) ]))).

Definition pad_ok (w : nat) (n : Z) : bool :=
  let l := list_ascii_of_string (JSDate.pad w n) in
  Nat.eqb (length l) w
  && match JSDate.digits_value 0 l with
     | Some v => Z.eqb v n
     | None => false
     end.

Definition not_null (x : json) : bool :=
  match x with JNull => false | _ => true end.

(** [x.checked] is truthy. *)
Definition is_checked (x : json) : bool :=
  match x with
  | JObj o => truthy (obj_get o "checked")
  | _ => false
  end.

(** The settings of the in-memory defaults keep their shape: a record with
    distinct keys. *)
Definition settings_wf (d : obj) : Prop :=
  exists ds, own d "settings" = Some (JObj ds) /\ NoDup (keys ds).

Definition page_wf (st : state) : Prop :=
  state_wf st /\ settings_wf (module_defaults st).

Definition quota_alert : event :=
  Alert "Storage quota exceeded. Consider exporting your data and clearing old items.".


Definition listed_items : list json :=
  [ JObj [ ("id", JStr "i1"); ("name", JStr "Rice"); ("price", JNum 2);
           ("checked", JBool false) ];
    JObj [ ("id", JStr "i2"); ("name", JStr "Oats"); ("price", JNum 3);
           ("checked", JBool true) ];
    JObj [ ("id", JStr "i3"); ("name", JStr "Salt"); ("checked", JBool false) ];
    JObj [ ("id", JStr "i4"); ("name", JStr "Tea"); ("price", JNum 4);
           ("checked", JBool false) ] ].

Definition page_with_items : state :=
  fresh_page (Some (JsonText (JObj [ ("shoppingList", JArr listed_items) ]))).

(** The plan that [clearWeek] writes. *)
Definition empty_week : obj := map (fun day => (day, JArr [])) DAYS.

(** A zone that is five hours behind UTC all year. *)
Definition zone_minus_5 : Z -> bool -> Z := fun _ _ => (-18000000)%Z.

(** A store that holds no document: no text, a text that does not parse,
    or the text of [null], of a boolean or of a number. *)
Definition no_document (s : option text) : bool :=
  match s with
  | None | Some BadText => true
  | Some (JsonText (JNull | JBool _ | JNum _)) => true
  | _ => false
  end.

(** The pure reading of [due_today]. *)
Definition due_today_value (today : string) (t : json) : bool :=
  match t with
  | JObj o =>
      negb (truthy (obj_get o "completed"))
      && strict_eq (obj_get o "dueDate") (JStr today)
  | _ => false
  end.

Definition page_with_notifications : state :=
  fresh_page (Some (JsonText (JObj
    [ ("settings", JObj [ ("notificationsEnabled", JBool true) ]);
      ("cleaningTasks",
       JArr [ JObj [ ("id", JStr "t1"); ("name", JStr "Hoover");
                     ("dueDate", JStr "2024-02-29"); ("completed", JBool false) ];
              JObj [ ("id", JStr "t2"); ("name", JStr "Dust");
                     ("dueDate", JStr "2024-02-28"); ("completed", JBool false) ] ]);
      ("maintenanceTasks",
       JArr [ JObj [ ("id", JStr "t3"); ("name", JStr "Boiler");
                     ("dueDate", JStr "2024-02-29"); ("completed", JBool false) ] ]) ]))).

(** The settings of the in-memory defaults are [c]. *)
Definition settings_are (c : option json) (st : state) : Prop :=
  own (module_defaults st) "settings" = c.

(* ================================================================= *)
(** * Properties *)

(** ** Objects as ordered property lists *)

Lemma eqb_refl_true k : String.eqb k k = true.
Proof. apply String.eqb_refl. Qed.

Lemma own_cons k' v (o : obj) k :
  own ((k', v) :: o) k = if String.eqb k' k then Some v else own o k.
Proof. reflexivity. Qed.

Lemma own_obj_set o k k' v :
  own (obj_set o k v) k' = if String.eqb k k' then Some v else own o k'.
Proof.
  induction o as [|[k0 v0] o IH]; simpl.
  - destruct (String.eqb k k'); reflexivity.
  - destruct (String.eqb k0 k) eqn:E0; simpl.
    + apply String.eqb_eq in E0; subst k0.
      destruct (String.eqb k k'); reflexivity.
    + rewrite IH. destruct (String.eqb k0 k') eqn:E1; [|reflexivity].
      apply String.eqb_eq in E1; subst k0. rewrite String.eqb_sym, E0.
      reflexivity.
Qed.

Lemma own_obj_set_eq o k v : own (obj_set o k v) k = Some v.
Proof. rewrite own_obj_set, eqb_refl_true. reflexivity. Qed.

Lemma own_obj_set_ne o k k' v :
  k <> k' -> own (obj_set o k v) k' = own o k'.
Proof.
  intros H. rewrite own_obj_set.
  destruct (String.eqb k k') eqn:E; [|reflexivity].
  apply String.eqb_eq in E. contradiction.
Qed.

Lemma has_own_keys o k : has_own o k = true <-> In k (keys o).
Proof.
  unfold has_own, keys. induction o as [|[k0 v0] o IH]; simpl.
  - split; [discriminate | tauto].
  - destruct (String.eqb k0 k) eqn:E.
    + apply String.eqb_eq in E. tauto.
    + apply String.eqb_neq in E. rewrite IH. tauto.
Qed.

Lemma own_None_keys o k : own o k = None <-> ~ In k (keys o).
Proof.
  rewrite <- has_own_keys. unfold has_own.
  destruct (own o k); split; intros H; congruence.
Qed.

Lemma keys_obj_set o k v :
  keys (obj_set o k v) = if has_own o k then keys o else (keys o ++ [k])%list.
Proof.
  unfold has_own, keys. induction o as [|[k0 v0] o IH]; simpl; [reflexivity|].
  destruct (String.eqb k0 k) eqn:E; simpl.
  - apply String.eqb_eq in E. subst. reflexivity.
  - rewrite IH. destruct (own o k); reflexivity.
Qed.

Lemma NoDup_obj_set o k v : NoDup (keys o) -> NoDup (keys (obj_set o k v)).
Proof.
  intros H. rewrite keys_obj_set. destruct (has_own o k) eqn:E; [exact H|].
  apply NoDup_app. repeat split; [exact H | | apply NoDup_singleton].
  intros x Hx Hk. apply list_elem_of_singleton in Hk. subst x.
  apply list_elem_of_In, has_own_keys in Hx. congruence.
Qed.

Lemma has_own_obj_set o k k' v :
  has_own (obj_set o k v) k' = String.eqb k k' || has_own o k'.
Proof.
  unfold has_own. rewrite own_obj_set. destruct (String.eqb k k'); reflexivity.
Qed.

Lemma NoDup_fold_set props target :
  NoDup (keys target) -> NoDup (keys (fold_left set_prop props target)).
Proof.
  revert target. induction props as [|[k v] props IH]; intros target H; simpl.
  - exact H.
  - apply IH. apply NoDup_obj_set, H.
Qed.

Lemma NoDup_spread target src :
  NoDup (keys target) -> NoDup (keys (spread target src)).
Proof. apply NoDup_fold_set. Qed.

(** A spread gives each key its last value among the copied properties,
    and leaves the other keys of the target as they are. *)
Lemma own_fold_set props target k :
  own (fold_left set_prop props target) k =
    match own (rev props) k with
    | Some v => Some v
    | None => own target k
    end.
Proof.
  revert target. induction props as [|[k0 v0] props IH]; intros target; simpl.
  - reflexivity.
  - rewrite IH. clear IH.
    assert (Happ : forall (a b : obj),
      own (a ++ b) k = match own a k with Some v => Some v | None => own b k end).
    { induction a as [|[k1 v1] a IHa]; intros b; simpl; [reflexivity|].
      destruct (String.eqb k1 k); [reflexivity | apply IHa]. }
    rewrite Happ. destruct (own (rev props) k); [reflexivity|].
    unfold set_prop. simpl. rewrite own_obj_set. destruct (String.eqb k0 k); reflexivity.
Qed.

Lemma own_app (a b : obj) k :
  own (a ++ b) k = match own a k with Some v => Some v | None => own b k end.
Proof.
  induction a as [|[k1 v1] a IHa]; simpl; [reflexivity|].
  destruct (String.eqb k1 k); [reflexivity | apply IHa].
Qed.

Lemma own_rev_NoDup (o : obj) k : NoDup (keys o) -> own (rev o) k = own o k.
Proof.
  induction o as [|[k0 v0] o IH]; intros H; [reflexivity|].
  change (keys ((k0, v0) :: o)) with (k0 :: keys o) in H.
  apply NoDup_cons in H. destruct H as [Hn H].
  simpl. rewrite own_app, (IH H). simpl.
  destruct (String.eqb k0 k) eqn:E.
  - apply String.eqb_eq in E. subst k0.
    destruct (own o k) eqn:Eo; [|reflexivity].
    exfalso. apply Hn. apply list_elem_of_In, has_own_keys.
    unfold has_own. rewrite Eo. reflexivity.
  - destruct (own o k); reflexivity.
Qed.

Lemma own_spread_obj target o k :
  NoDup (keys o) ->
  own (spread target (Val (JObj o))) k =
    match own o k with Some v => Some v | None => own target k end.
Proof.
  intros H. unfold spread. simpl.
  rewrite own_fold_set, (own_rev_NoDup _ _ H). reflexivity.
Qed.

Lemma own_spread target src k :
  own (spread target src) k =
    match own (rev (own_props src)) k with
    | Some v => Some v
    | None => own target k
    end.
Proof. unfold spread. apply (own_fold_set (own_props src) target k). Qed.

Lemma NoDup_merge dflt data merged :
  merge_defaults dflt data = Return merged -> NoDup (keys merged).
Proof.
  unfold merge_defaults. intros H.
  destruct (member data "weeklyPlan") as [wp|]; [|discriminate].
  destruct (member data "settings") as [se|]; [|discriminate].
  simpl in H. inversion H; subst merged.
  do 2 apply NoDup_obj_set. do 2 apply NoDup_spread. constructor.
Qed.

Lemma NoDup_loadData st : NoDup (keys (loadData st)).
Proof.
  unfold loadData, copy_defaults.
  destruct (localStorage st) as [[data|]|];
    try (apply NoDup_spread; constructor).
  destruct (merge_defaults _ data) eqn:E.
  - eapply NoDup_merge, E.
  - apply NoDup_spread. constructor.
Qed.

Lemma merge_defaults_object dflt o :
  merge_defaults dflt (JObj o) =
    Return
      (obj_set
         (obj_set (spread (spread [] (Val (JObj dflt))) (Val (JObj o)))
            "weeklyPlan"
            (JObj (spread (spread [] (obj_get dflt "weeklyPlan"))
                          (obj_get o "weeklyPlan"))))
         "settings"
         (JObj (spread (spread [] (obj_get dflt "settings"))
                       (obj_get o "settings")))).
Proof. reflexivity. Qed.

Lemma sections_cases s :
  In s sections ->
  s = "meals" \/ s = "weeklyPlan" \/ s = "shoppingList" \/ s = "householdItems"
  \/ s = "cleaningTasks" \/ s = "maintenanceTasks" \/ s = "settings".
Proof. simpl. intuition. Qed.

Lemma obj_ext (o1 o2 : obj) :
  keys o1 = keys o2 -> NoDup (keys o1) ->
  (forall k, own o1 k = own o2 k) -> o1 = o2.
Proof.
  revert o2. induction o1 as [|[k v] o1 IH]; intros [|[k' v'] o2] Hk Hnd Hown;
    try discriminate; [reflexivity|].
  simpl in Hk. inversion Hk as [[Hkk Hks]]. subst k'.
  change (keys ((k, v) :: o1)) with (k :: keys o1) in Hnd.
  apply NoDup_cons in Hnd. destruct Hnd as [Hnin Hnd].
  pose proof (Hown k) as Hv. simpl in Hv. rewrite eqb_refl_true in Hv.
  inversion Hv; subst v'. f_equal.
  apply IH; [exact Hks | exact Hnd |].
  intros k'. specialize (Hown k'). simpl in Hown.
  destruct (String.eqb k k') eqn:E; [|exact Hown].
  apply String.eqb_eq in E. subst k'.
  assert (H1 : own o1 k = None).
  { apply own_None_keys. intros Hin. apply Hnin, list_elem_of_In, Hin. }
  assert (H2 : own o2 k = None).
  { apply own_None_keys. rewrite <- Hks. intros Hin. apply Hnin, list_elem_of_In, Hin. }
  congruence.
Qed.

Lemma obj_set_same (o : obj) k v : own o k = Some v -> obj_set o k v = o.
Proof.
  induction o as [|[k0 v0] o IH]; simpl; [discriminate|].
  destruct (String.eqb k0 k) eqn:E.
  - apply String.eqb_eq in E. subst. intros H; inversion H. reflexivity.
  - intros H. rewrite (IH H). reflexivity.
Qed.

(** Keys after a fold of definitions: the keys of the target, then the new
    keys in the order they first come. *)
Lemma keys_fold_set_app props target :
  exists extra, keys (fold_left set_prop props target) = (keys target ++ extra)%list.
Proof.
  revert target. induction props as [|[k v] props IH]; intros target; simpl.
  - exists []. rewrite app_nil_r. reflexivity.
  - destruct (IH (set_prop target (k, v))) as [e He]. rewrite He.
    unfold set_prop. simpl. rewrite keys_obj_set.
    destruct (has_own target k).
    + exists e. reflexivity.
    + exists (k :: e). rewrite <- app_assoc. reflexivity.
Qed.

Lemma own_prefix_None (a : obj) (b : list string) o k :
  keys o = (keys a ++ b)%list -> own o k = None -> own a k = None.
Proof.
  intros Hk Ho. apply own_None_keys. apply own_None_keys in Ho.
  rewrite Hk in Ho. intros Hin. apply Ho, in_or_app. left. exact Hin.
Qed.

Lemma has_own_existsb (o : obj) k : has_own o k = existsb (String.eqb k) (keys o).
Proof.
  unfold has_own. induction o as [|[k0 v0] o IH]; simpl; [reflexivity|].
  rewrite (String.eqb_sym k k0). destruct (String.eqb k0 k); [reflexivity|exact IH].
Qed.

Lemma keys_fold_set props target :
  keys (fold_left set_prop props target) = fold_left add_key (keys props) (keys target).
Proof.
  revert target. induction props as [|[k v] props IH]; intros target; simpl.
  - reflexivity.
  - rewrite IH. unfold set_prop at 1. simpl. rewrite keys_obj_set.
    unfold add_key at 2. rewrite has_own_existsb. reflexivity.
Qed.

Lemma existsb_eqb_In k ks : existsb (String.eqb k) ks = true <-> In k ks.
Proof.
  rewrite existsb_exists. split.
  - intros [x [Hx E]]. apply String.eqb_eq in E. subst. exact Hx.
  - intros H. exists k. split; [exact H | apply eqb_refl_true].
Qed.

Lemma fold_add_key_present xs ks :
  (forall x, In x xs -> In x ks) -> fold_left add_key xs ks = ks.
Proof.
  induction xs as [|x xs IH]; intros H; simpl; [reflexivity|].
  unfold add_key at 2.
  replace (existsb (String.eqb x) ks) with true
    by (symmetry; apply existsb_eqb_In, H; left; reflexivity).
  apply IH. intros y Hy. apply H. right. exact Hy.
Qed.

Lemma fold_add_key_fresh xs ks :
  NoDup (ks ++ xs) -> fold_left add_key xs ks = (ks ++ xs)%list.
Proof.
  revert ks. induction xs as [|x xs IH]; intros ks H; simpl.
  - rewrite app_nil_r. reflexivity.
  - unfold add_key at 2.
    destruct (existsb (String.eqb x) ks) eqn:E.
    + apply existsb_eqb_In in E. apply NoDup_app in H.
      destruct H as [_ [H _]]. exfalso.
      apply (H x); [apply list_elem_of_In, E | left].
    + rewrite IH; rewrite <- app_assoc; [reflexivity | exact H].
Qed.

(** Defining on [target] the properties of an object that already extends
    it gives that object. *)
Lemma fold_set_absorb (target o : obj) extra :
  NoDup (keys o) -> keys o = (keys target ++ extra)%list ->
  fold_left set_prop o target = o.
Proof.
  intros Hnd Hk.
  assert (Hown : forall k, own (fold_left set_prop o target) k = own o k).
  { intros k. rewrite own_fold_set, (own_rev_NoDup _ _ Hnd).
    destruct (own o k) eqn:E; [reflexivity|].
    eapply own_prefix_None; eauto. }
  assert (Hkeys : keys (fold_left set_prop o target) = keys o).
  { rewrite keys_fold_set, Hk, fold_left_app.
    rewrite (fold_add_key_present (keys target) (keys target)) by (intros ? ?; assumption).
    apply fold_add_key_fresh. rewrite <- Hk. exact Hnd. }
  apply obj_ext; [exact Hkeys | rewrite Hkeys; exact Hnd | exact Hown].
Qed.

Lemma spread_absorb target o extra :
  NoDup (keys o) -> keys o = (keys target ++ extra)%list ->
  spread target (Val (JObj o)) = o.
Proof. apply fold_set_absorb. Qed.

Lemma spread_nil_obj o : NoDup (keys o) -> spread [] (Val (JObj o)) = o.
Proof. intros H. apply (spread_absorb [] o (keys o)); [exact H | reflexivity]. Qed.

Lemma spread_spread target src :
  NoDup (keys target) ->
  spread target (Val (JObj (spread target src))) = spread target src.
Proof.
  intros H. destruct (keys_fold_set_app (own_props src) target) as [e He].
  apply (spread_absorb _ _ e); [apply NoDup_spread, H | exact He].
Qed.

(* ---------- the loaded document ---------- *)

Lemma loadData_cases st :
  (merged_from st = None /\ loadData st = copy_defaults st)
  \/ (exists data wp se,
        merged_from st = Some data
        /\ member data "weeklyPlan" = Return wp
        /\ member data "settings" = Return se
        /\ loadData st =
             obj_set
               (obj_set (spread (spread [] (Val (JObj (module_defaults st)))) (Val data))
                  "weeklyPlan"
                  (JObj (spread (spread [] (obj_get (module_defaults st) "weeklyPlan")) wp)))
               "settings"
               (JObj (spread (spread [] (obj_get (module_defaults st) "settings")) se))).
Proof.
  unfold merged_from, loadData.
  destruct (localStorage st) as [[data|]|]; try (left; split; reflexivity).
  unfold merge_defaults.
  destruct (member data "weeklyPlan") as [wp|] eqn:E1; simpl;
    [|left; split; reflexivity].
  destruct (member data "settings") as [se|] eqn:E2; simpl;
    [|left; split; reflexivity].
  right. exists data, wp, se. auto.
Qed.

Lemma has_own_spread_mono target src k :
  has_own target k = true -> has_own (spread target src) k = true.
Proof.
  unfold has_own. rewrite own_spread.
  destruct (own (rev (own_props src)) k); [reflexivity|]. auto.
Qed.

Lemma defaults_wf_plan d :
  defaults_wf d ->
  exists dwp, obj_get d "weeklyPlan" = Val (JObj dwp)
    /\ NoDup (keys dwp)
    /\ Forall (fun day => has_own dwp day = true) DAYS
    /\ spread [] (Val (JObj d)) = d
    /\ spread [] (Val (JObj dwp)) = dwp.
Proof.
  intros [Hnd [dwp [Ho [Hn Hd]]]]. exists dwp.
  unfold obj_get. rewrite Ho. repeat split; auto using spread_nil_obj.
Qed.

(** The weekly plan that [loadData] returns is the defaults' plan overlaid
    with some properties. *)
Lemma loaded_plan st dwp :
  defaults_wf (module_defaults st) ->
  own (module_defaults st) "weeklyPlan" = Some (JObj dwp) ->
  exists x, getData "weeklyPlan" st = Val (JObj (spread dwp x))
    /\ (merged_from st = None -> x = Undefined).
Proof.
  intros Hwf Ho. destruct (defaults_wf_plan _ Hwf) as [dwp' [Hg [Hn [Hd [Hs1 Hs2]]]]].
  assert (dwp' = dwp) by (unfold obj_get in Hg; rewrite Ho in Hg; congruence).
  subst dwp'. unfold getData.
  destruct (loadData_cases st) as [[Hm Hl]|[data [wp [se [Hm [Hw [Hse Hl]]]]]]].
  - exists Undefined. split; [|reflexivity]. rewrite Hl. unfold copy_defaults.
    rewrite Hs1. exact Hg.
  - exists wp. split; [|congruence]. rewrite Hl. unfold obj_get at 1.
    rewrite own_obj_set. simpl String.eqb. cbv iota.
    rewrite own_obj_set_eq. rewrite Hg, Hs2. reflexivity.
Qed.

Lemma plan_props_spec st dwp :
  defaults_wf (module_defaults st) ->
  own (module_defaults st) "weeklyPlan" = Some (JObj dwp) ->
  exists x, plan_props st = spread dwp x
    /\ getData "weeklyPlan" st = Val (JObj (spread dwp x))
    /\ (merged_from st = None -> x = Undefined).
Proof.
  intros Hwf Ho. destruct (loaded_plan st dwp Hwf Ho) as [x [Hx Hu]].
  exists x. unfold plan_props, getWeeklyPlan, or_else. rewrite Hx. simpl.
  auto.
Qed.

(* ---------- the defaults keep their shape ---------- *)

Lemma NoDup_obj_assign o k v : NoDup (keys o) -> NoDup (keys (obj_assign o k v)).
Proof.
  intros H. unfold obj_assign. destruct (_ && _); [exact H | apply NoDup_obj_set, H].
Qed.

Lemma has_own_obj_assign_mono o k v k' :
  has_own o k' = true -> has_own (obj_assign o k v) k' = true.
Proof.
  intros H. unfold obj_assign. destruct (_ && _); [exact H|].
  rewrite has_own_obj_set, H. apply orb_true_r.
Qed.

Lemma defaults_wf_set_other d k v :
  k <> "weeklyPlan" -> defaults_wf d -> defaults_wf (obj_set d k v).
Proof.
  intros Hk [Hnd [dwp [Ho H]]]. split; [apply NoDup_obj_set, Hnd|].
  exists dwp. split; [|exact H]. rewrite own_obj_set_ne; auto.
Qed.

Lemma defaults_wf_set_plan d p :
  defaults_wf d -> NoDup (keys p) ->
  Forall (fun day => has_own p day = true) DAYS ->
  defaults_wf (obj_set d "weeklyPlan" (JObj p)).
Proof.
  intros [Hnd _] Hp Hd. split; [apply NoDup_obj_set, Hnd|].
  exists p. rewrite own_obj_set_eq. auto.
Qed.

Lemma wf_set_store st s : state_wf st -> state_wf (set_store st s).
Proof. auto. Qed.

Lemma wf_emit st e : state_wf st -> state_wf (emit e st).
Proof. auto. Qed.

Lemma wf_showSuccess st m : state_wf st -> state_wf (showSuccess m st).
Proof. auto. Qed.

Lemma wf_saveData fits data st : state_wf st -> state_wf (snd (saveData fits data st)).
Proof. unfold saveData. destruct (fits _); auto. Qed.

Lemma wf_updateData fits k v st : state_wf st -> state_wf (snd (updateData fits k v st)).
Proof. apply wf_saveData. Qed.

Lemma wf_write_section k v st :
  k <> "weeklyPlan" -> state_wf st -> state_wf (write_section k v st).
Proof. intros Hk H. apply defaults_wf_set_other; assumption. Qed.

Lemma wf_write_day d v st : state_wf st -> state_wf (write_day d v st).
Proof.
  intros H. unfold write_day.
  destruct (own (module_defaults st) "weeklyPlan") as [[| | | | |dwp]|] eqn:E; try exact H.
  destruct H as [Hnd [dwp' [Ho [Hn Hd]]]].
  assert (dwp' = dwp) by congruence. subst dwp'.
  apply defaults_wf_set_plan.
  - split; [exact Hnd|]. exists dwp. auto.
  - apply NoDup_obj_set, Hn.
  - eapply Forall_impl; [exact Hd|]. intros day Hday. simpl in *.
    rewrite has_own_obj_set, Hday. apply orb_true_r.
Qed.

Lemma plan_props_shape st :
  state_wf st ->
  NoDup (keys (plan_props st))
  /\ Forall (fun day => has_own (plan_props st) day = true) DAYS.
Proof.
  intros H. pose proof H as [Hnd [dwp [Ho [Hn Hd]]]].
  destruct (plan_props_spec st dwp H Ho) as [x [-> _]].
  split; [apply NoDup_spread, Hn|].
  eapply Forall_impl; [exact Hd|]. intros day Hday.
  apply has_own_spread_mono, Hday.
Qed.

Lemma wf_plan_write day v st : state_wf st -> state_wf (plan_write day v st).
Proof.
  intros H. unfold plan_write. destruct (plan_shared st); [|exact H].
  destruct (plan_props_shape st H) as [Hn Hd].
  apply defaults_wf_set_plan; [exact H | apply NoDup_obj_assign, Hn |].
  eapply Forall_impl; [exact Hd|]. intros d Hday.
  apply has_own_obj_assign_mono, Hday.
Qed.

Lemma wf_push_and_save fits k arr x st :
  k <> "weeklyPlan" -> state_wf st -> state_wf (push_and_save fits k arr x st).
Proof.
  intros Hk H. unfold push_and_save. apply wf_updateData.
  destruct (collection_shared k st); [apply wf_write_section|]; assumption.
Qed.

Lemma wf_store_at fits k arr i x st :
  k <> "weeklyPlan" -> state_wf st -> state_wf (store_at fits k arr i x st).
Proof.
  intros Hk H. unfold store_at. apply wf_updateData.
  destruct (collection_shared k st); [apply wf_write_section|]; assumption.
Qed.

Lemma tasks_section_not_plan type : tasks_section type <> "weeklyPlan".
Proof. unfold tasks_section. destruct (String.eqb type "cleaning"); discriminate. Qed.

Lemma wf_addMealToDay fits day id st :
  state_wf st -> state_wf (snd (addMealToDay fits day id st)).
Proof.
  intros H. unfold addMealToDay.
  set (st1 := if negb (truthy (obj_get (plan_props st) day))
              then plan_write day (JArr []) st else st).
  assert (H1 : state_wf st1).
  { unfold st1. destruct (negb _); [apply wf_plan_write|]; exact H. }
  destruct (includes_method _ id) as [[|]|]; simpl; try exact H1.
  destruct (as_array _) as [ids|]; simpl; try exact H1.
  match goal with
  | |- context [updateData fits ?k ?v ?s] =>
      pose proof (wf_updateData fits k v s) as HU;
      destruct (updateData fits k v s) as [b st3]
  end.
  simpl. apply wf_showSuccess. simpl in HU. apply HU.
  destruct (_ || _); [apply wf_write_day|]; exact H1.
Qed.

Lemma wf_removeMealFromDay fits day id st :
  state_wf st -> state_wf (snd (removeMealFromDay fits day id st)).
Proof.
  intros H. unfold removeMealFromDay.
  destruct (truthy _); [|exact H].
  destruct (as_array _) as [ids|]; simpl; try exact H.
  match goal with
  | |- context [updateData fits ?k ?v ?s] =>
      pose proof (wf_updateData fits k v s) as HU;
      destruct (updateData fits k v s) as [b st3]
  end.
  simpl. apply wf_showSuccess. simpl in HU. apply HU, wf_plan_write, H.
Qed.

Lemma wf_clearDay fits day st : state_wf st -> state_wf (clearDay fits day st).
Proof.
  intros H. unfold clearDay.
  match goal with
  | |- context [updateData fits ?k ?v ?s] =>
      pose proof (wf_updateData fits k v s) as HU;
      destruct (updateData fits k v s) as [b st3]
  end.
  apply wf_showSuccess. simpl in HU. apply HU, wf_plan_write, H.
Qed.

Lemma wf_clearWeek fits st : state_wf st -> state_wf (clearWeek fits st).
Proof.
  intros H. unfold clearWeek.
  match goal with
  | |- context [updateData fits ?k ?v ?s] =>
      pose proof (wf_updateData fits k v s) as HU;
      destruct (updateData fits k v s) as [b st3]
  end.
  apply wf_showSuccess. simpl in HU. apply HU, H.
Qed.

Lemma wf_importData fits file st : state_wf st -> state_wf (snd (importData fits file st)).
Proof.
  intros H. unfold importData.
  destruct file as [|[v|]]; try exact H.
  destruct (_ || _); [exact H|].
  destruct (merge_defaults _ v) as [m|]; [|exact H].
  pose proof (wf_saveData fits m st H) as HS.
  destruct (saveData fits m st) as [[|] st']; exact HS.
Qed.

Lemma wf_addMeal fits id now data st : state_wf st -> state_wf (snd (addMeal fits id now data st)).
Proof.
  intros H. unfold addMeal. destruct (as_array _); [|exact H].
  simpl. apply wf_showSuccess, wf_push_and_save; [discriminate | exact H].
Qed.

Lemma wf_updateMeal fits id data st : state_wf st -> state_wf (snd (updateMeal fits id data st)).
Proof.
  intros H. unfold updateMeal.
  destruct (_ ≫= _) as [[meals [[i m]|]]|]; try exact H.
  simpl. apply wf_showSuccess, wf_store_at; [discriminate | exact H].
Qed.

Lemma wf_addTask fits id now data type st :
  state_wf st -> state_wf (snd (addTask fits id now data type st)).
Proof.
  intros H. unfold addTask. destruct (as_array _); [|exact H].
  simpl. apply wf_showSuccess, wf_push_and_save; [apply tasks_section_not_plan | exact H].
Qed.

Lemma wf_toggleTaskComplete fits zone other now id type st :
  state_wf st -> state_wf (snd (toggleTaskComplete fits zone other now id type st)).
Proof.
  intros H. unfold toggleTaskComplete.
  destruct (_ ≫= _) as [[tasks [[i [| | | | |task]]|]]|]; try exact H.
  pose proof (tasks_section_not_plan type) as Hk.
  repeat match goal with
         | |- context [if ?b then _ else _] => destruct b
         | |- context [match calculateNextDueDate ?a ?b ?c ?d with _ => _ end] =>
             destruct (calculateNextDueDate a b c d)
         end; simpl;
    try (apply wf_store_at; assumption);
    try (apply wf_write_section; assumption); try exact H.
Qed.

Lemma wf_addShoppingItem fits id now data st :
  state_wf st -> state_wf (snd (addShoppingItem fits id now data st)).
Proof.
  intros H. unfold addShoppingItem. destruct (as_array _); [|exact H].
  simpl. apply wf_showSuccess, wf_push_and_save; [discriminate | exact H].
Qed.

Lemma wf_toggleItemChecked fits id st :
  state_wf st -> state_wf (snd (toggleItemChecked fits id st)).
Proof.
  intros H. unfold toggleItemChecked.
  destruct (_ ≫= _) as [[l [[i [| | | | |item]]|]]|]; try exact H.
  simpl. apply wf_store_at; [discriminate | exact H].
Qed.

Lemma wf_add_missing fits fresh shared snapshot ings :
  forall added st, state_wf st ->
    state_wf (snd (add_missing fits fresh shared snapshot ings added st)).
Proof.
  induction ings as [|ing ings IH]; intros added st H; simpl; [exact H|].
  destruct (_ ≫= _) as [[[i x]|]|]; simpl; try exact H; [apply IH, H|].
  pose proof (wf_addShoppingItem fits (fresh added).1 (fresh added).2
                (JObj [("name", ing); ("quantity", JStr "1");
                       ("category", JStr "food"); ("price", JNum 0);
                       ("aisle", JStr "")]) st H) as HA.
  destruct (addShoppingItem _ _ _ _ st) as [[r|e] st']; simpl in HA; [|exact HA].
  apply IH, HA.
Qed.

Lemma wf_generateFromMealPlan fits fresh st :
  state_wf st -> state_wf (snd (generateFromMealPlan fits fresh st)).
Proof.
  intros H. unfold generateFromMealPlan.
  destruct (planned_ingredients st) as [ings|]; [|exact H].
  pose proof (wf_add_missing fits fresh (collection_shared "shoppingList" st)
                (getShoppingList st) (map fst ings) 0 st H) as HA.
  destruct (add_missing _ _ _ _ _ _ st) as [[n|e] st']; simpl in *; exact HA.
Qed.

Lemma wf_fresh_page s : state_wf (fresh_page s).
Proof.
  unfold state_wf, defaults_wf. simpl. split.
  - apply (bool_decide_unpack _). vm_compute. reflexivity.
  - eexists. split; [reflexivity|]. split.
    + apply (bool_decide_unpack _). vm_compute. reflexivity.
    + repeat constructor.
Qed.

Lemma wf_run fits zone other o st : state_wf st -> state_wf (run fits zone other o st).
Proof.
  intros H. destruct o; simpl;
    auto using wf_addMealToDay, wf_removeMealFromDay, wf_clearDay, wf_clearWeek,
      wf_importData, wf_updateData, wf_addMeal, wf_updateMeal, wf_addTask,
      wf_toggleTaskComplete, wf_addShoppingItem, wf_toggleItemChecked,
      wf_generateFromMealPlan.
Qed.


(* ---------- reading after writing ---------- *)

Lemma obj_get_ext (o1 o2 : obj) k : own o1 k = own o2 k -> obj_get o1 k = obj_get o2 k.
Proof. unfold obj_get. intros ->. reflexivity. Qed.

Lemma getData_read st k :
  NoDup (keys (module_defaults st)) -> getData k st = read_section st k.
Proof.
  intros Hnd. unfold getData, read_section.
  destruct (loadData_cases st) as [[Hm Hl]|[data [wp [se [Hm [Hw [Hse Hl]]]]]]];
    rewrite Hm, Hl.
  - unfold copy_defaults. rewrite (spread_nil_obj _ Hnd). reflexivity.
  - unfold is_merged_section.
    destruct (String.eqb k "settings") eqn:Es.
    { apply String.eqb_eq in Es. subst k. simpl. rewrite Hse.
      unfold obj_get at 1. rewrite own_obj_set_eq. reflexivity. }
    destruct (String.eqb k "weeklyPlan") eqn:Ew.
    { apply String.eqb_eq in Ew. subst k. simpl. rewrite Hw.
      unfold obj_get at 1. rewrite own_obj_set. simpl String.eqb. cbv iota.
      rewrite own_obj_set_eq. reflexivity. }
    cbn [orb]. apply String.eqb_neq in Es, Ew.
    unfold obj_get at 1.
    rewrite !own_obj_set_ne by congruence.
    rewrite own_spread. rewrite (spread_nil_obj _ Hnd).
    destruct (own (rev (own_props (Val data))) k); reflexivity.
Qed.

Lemma merged_from_set_defaults st d :
  merged_from (set_defaults st d) = merged_from st.
Proof.
  unfold merged_from, set_defaults. simpl.
  destruct (localStorage st) as [[data|]|]; try reflexivity.
  unfold merge_defaults.
  destruct (member data "weeklyPlan"); simpl; [|reflexivity].
  destruct (member data "settings"); reflexivity.
Qed.

Lemma merged_from_emit st e : merged_from (emit e st) = merged_from st.
Proof. reflexivity. Qed.

Lemma getData_emit k e st : getData k (emit e st) = getData k st.
Proof. reflexivity. Qed.

(** A write through a shared list changes what is read under its own key
    only. *)
Lemma getData_write_section k v k' st :
  NoDup (keys (module_defaults st)) ->
  k <> k' -> is_merged_section k = false ->
  getData k' (write_section k v st) = getData k' st.
Proof.
  intros Hnd Hk Hm.
  rewrite !getData_read; [| exact Hnd | apply NoDup_obj_set, Hnd].
  unfold read_section, write_section. rewrite merged_from_set_defaults.
  simpl module_defaults.
  assert (E : forall k0, k <> k0 ->
            obj_get (obj_set (module_defaults st) k v) k0 = obj_get (module_defaults st) k0).
  { intros k0 H0. apply obj_get_ext, own_obj_set_ne, H0. }
  rewrite (E k' Hk).
  destruct (merged_from st) as [data|]; [|reflexivity].
  reflexivity.
Qed.

Lemma shares_section_read st k :
  NoDup (keys (module_defaults st)) ->
  shares_section st k = true ->
  getData k st = obj_get (module_defaults st) k.
Proof.
  intros Hnd H. rewrite (getData_read _ _ Hnd). unfold read_section.
  unfold shares_section in H. apply andb_true_iff in H. destruct H as [_ H].
  destruct (merged_from st) as [data|]; [|reflexivity].
  apply andb_true_iff in H. destruct H as [H1 H2].
  apply negb_true_iff in H1, H2. rewrite H2.
  assert (E : own (rev (own_props (Val data))) k = None).
  { apply own_None_keys. intros Hin. unfold keys in Hin.
    rewrite map_rev in Hin. apply in_rev in Hin.
    apply has_own_keys in Hin. unfold has_own in *.
    destruct (own (own_props (Val data)) k); discriminate. }
  rewrite E. reflexivity.
Qed.

Lemma own_obj_assign_ne o k v k' : k <> k' -> own (obj_assign o k v) k' = own o k'.
Proof.
  intros H. unfold obj_assign. destruct (_ && _); [reflexivity|].
  apply own_obj_set_ne, H.
Qed.

Lemma has_own_spread_src target o k :
  has_own o k = true -> has_own (spread target (Val (JObj o))) k = true.
Proof.
  intros H. apply has_own_keys in H. unfold has_own. rewrite own_spread.
  destruct (own (rev (own_props (Val (JObj o)))) k) eqn:E; [reflexivity|].
  exfalso. apply own_None_keys in E. apply E. simpl. unfold keys.
  rewrite map_rev. apply -> in_rev. exact H.
Qed.

Lemma loadData_has_defaults st k :
  has_own (module_defaults st) k = true -> has_own (loadData st) k = true.
Proof.
  intros H.
  destruct (loadData_cases st) as [[Hm Hl]|[data [wp [se [Hm [Hw [Hse Hl]]]]]]];
    rewrite Hl.
  - apply has_own_spread_src, H.
  - rewrite !has_own_obj_set.
    rewrite (has_own_spread_mono _ _ _ (has_own_spread_src [] _ _ H)).
    rewrite !orb_true_r. reflexivity.
Qed.

Lemma loadData_None_defaults st k :
  own (loadData st) k = None -> own (module_defaults st) k = None.
Proof.
  intros H. pose proof (loadData_has_defaults st k) as L. unfold has_own in L.
  rewrite H in L. destruct (own (module_defaults st) k); [|reflexivity].
  specialize (L eq_refl). discriminate.
Qed.

Lemma merged_from_stored_object st o :
  merged_from (set_store st (Some (JsonText (JObj o)))) = Some (JObj o).
Proof. reflexivity. Qed.

(** What is read after a write that the store accepted. *)
Lemma getData_after_update fits k v st k' :
  NoDup (keys (module_defaults st)) ->
  fits (JObj (obj_assign (loadData st) k v)) = true ->
  getData k' (snd (updateData fits k v st)) =
    if is_merged_section k' then
      Val (JObj (spread (spread [] (obj_get (module_defaults st) k'))
                        (obj_get (obj_assign (loadData st) k v) k')))
    else
      match own (obj_assign (loadData st) k v) k' with
      | Some u => Val u
      | None => obj_get (module_defaults st) k'
      end.
Proof.
  intros Hnd Hf. unfold updateData, saveData. rewrite Hf. simpl snd.
  rewrite getData_read by exact Hnd. unfold read_section.
  rewrite merged_from_stored_object. simpl module_defaults.
  destruct (is_merged_section k'); [reflexivity|].
  simpl own_props. rewrite own_rev_NoDup; [reflexivity|].
  apply NoDup_obj_assign, NoDup_loadData.
Qed.

Lemma getData_rejected fits k v st k' :
  fits (JObj (obj_assign (loadData st) k v)) = false ->
  getData k' (snd (updateData fits k v st)) = getData k' st.
Proof. intros Hf. unfold updateData, saveData. rewrite Hf. reflexivity. Qed.

(** A write leaves the other list sections as they were read before. *)
Lemma getData_update_other fits k v st k' :
  NoDup (keys (module_defaults st)) ->
  k <> k' -> is_merged_section k' = false ->
  getData k' (snd (updateData fits k v st)) = getData k' st.
Proof.
  intros Hnd Hk Hm.
  destruct (fits (JObj (obj_assign (loadData st) k v))) eqn:Hf;
    [|apply getData_rejected, Hf].
  rewrite (getData_after_update _ _ _ _ _ Hnd Hf), Hm.
  rewrite (own_obj_assign_ne _ _ _ _ Hk). unfold getData, obj_get.
  destruct (own (loadData st) k') eqn:E; [reflexivity|].
  rewrite (loadData_None_defaults _ _ E). reflexivity.
Qed.

(** A write to another section leaves the weekly plan as it was read. *)
Lemma getData_update_plan fits k v st :
  state_wf st -> k <> "weeklyPlan" ->
  getData "weeklyPlan" (snd (updateData fits k v st)) = getData "weeklyPlan" st.
Proof.
  intros Hwf Hk. pose proof Hwf as [Hnd [dwp [Ho [Hn Hd]]]].
  destruct (fits (JObj (obj_assign (loadData st) k v))) eqn:Hf;
    [|apply getData_rejected, Hf].
  rewrite (getData_after_update _ _ _ _ _ Hnd Hf). simpl is_merged_section. cbv iota.
  rewrite (obj_get_ext (obj_assign (loadData st) k v) (loadData st))
    by (apply own_obj_assign_ne, Hk).
  fold (getData "weeklyPlan" st).
  destruct (loaded_plan st dwp Hwf Ho) as [x [Hx _]]. rewrite Hx.
  unfold obj_get. rewrite Ho. rewrite (spread_nil_obj _ Hn).
  rewrite (spread_spread _ _ Hn). reflexivity.
Qed.

(** The section written is read back. *)
Lemma getData_update_same fits k v st :
  NoDup (keys (module_defaults st)) ->
  fits (JObj (obj_assign (loadData st) k v)) = true ->
  is_merged_section k = false -> k <> "__proto__" ->
  getData k (snd (updateData fits k v st)) = Val v.
Proof.
  intros Hnd Hf Hm Hp. rewrite (getData_after_update _ _ _ _ _ Hnd Hf), Hm.
  unfold obj_assign. apply String.eqb_neq in Hp. rewrite Hp. simpl.
  rewrite own_obj_set_eq. reflexivity.
Qed.

Lemma wf_NoDup st : state_wf st -> NoDup (keys (module_defaults st)).
Proof. intros [H _]. exact H. Qed.

(** [push_and_save] on the shopping list, when the store accepts every
    write. *)
Lemma push_and_save_shopping fits items x st :
  (forall d, fits d = true) -> state_wf st ->
  let st' := push_and_save fits "shoppingList" items x st in
  state_wf st'
  /\ getData "shoppingList" st' = Val (JArr (items ++ [x]))
  /\ getData "meals" st' = getData "meals" st
  /\ getData "weeklyPlan" st' = getData "weeklyPlan" st
  /\ (obj_get (module_defaults st') "shoppingList"
        = obj_get (module_defaults st) "shoppingList"
      \/ obj_get (module_defaults st') "shoppingList" = Val (JArr (items ++ [x]))).
Proof.
  intros Hf Hwf st'. unfold st', push_and_save.
  set (st1 := if collection_shared "shoppingList" st
              then write_section "shoppingList" (JArr (items ++ [x])) st else st).
  assert (H1 : state_wf st1).
  { unfold st1. destruct (collection_shared _ _); [apply wf_write_section|]; auto. }
  assert (G : forall k, k <> "shoppingList" -> getData k st1 = getData k st).
  { intros k Hk. unfold st1. destruct (collection_shared _ _); [|reflexivity].
    apply getData_write_section; [apply wf_NoDup, Hwf | congruence | reflexivity]. }
  split; [apply wf_updateData, H1|].
  split; [apply getData_update_same; [apply wf_NoDup, H1 | apply Hf | reflexivity | discriminate]|].
  split; [rewrite getData_update_other;
          [apply G; discriminate | apply wf_NoDup, H1 | discriminate | reflexivity]|].
  split; [rewrite getData_update_plan; [apply G; discriminate | exact H1 | discriminate]|].
  assert (E : module_defaults (snd (updateData fits "shoppingList" (JArr (items ++ [x])) st1))
              = module_defaults st1).
  { unfold updateData, saveData. destruct (fits _); reflexivity. }
  rewrite E. unfold st1. destruct (collection_shared _ _); [right|left; reflexivity].
  unfold write_section. simpl. unfold obj_get. rewrite own_obj_set_eq. reflexivity.
Qed.

(** An element whose [id] is the one looked for is an object: the branch of
    [toggleTaskComplete] and [toggleItemChecked] on anything else is the
    not-found branch. *)
Lemma found_is_object id l i j x :
  js_find (id_is id) l i = Return (Some (j, x)) -> exists o, x = JObj o.
Proof.
  revert i. induction l as [|y l IH]; intros i; simpl; [discriminate|].
  destruct y as [| | | | |o]; simpl; try discriminate; try apply IH.
  unfold mbind, outcome_bind. simpl.
  destruct (strict_eq (obj_get o "id") id); [|apply IH].
  intros H. inversion H; subst. eauto.
Qed.

Lemma ToString_array l : ToString (JArr l) = join "," l.
Proof.
  induction l as [|x [|y l] IH]; [reflexivity | reflexivity |].
  change (ToString (JArr (x :: y :: l)))
    with (join_item x +:+ "," +:+ ToString (JArr (y :: l))).
  rewrite IH. reflexivity.
Qed.

Lemma getWeeklyPlan_object st :
  state_wf st -> getWeeklyPlan st = Val (JObj (plan_props st)).
Proof.
  intros H. pose proof H as [_ [dwp [Ho _]]].
  destruct (plan_props_spec st dwp H Ho) as [x [Hp [Hg _]]].
  unfold getWeeklyPlan, or_else. rewrite Hp, Hg. reflexivity.
Qed.

(* ================================================================= *)
(** ** The persistence layer *)

Lemma obj_assign_section o s v :
  In s sections -> obj_assign o s v = obj_set o s v.
Proof.
  intros H. apply sections_cases in H. unfold obj_assign.
  destruct H as [->|[->|[->|[->|[->|[->| ->]]]]]]; reflexivity.
Qed.

Lemma loadData_after_save fits data st :
  fits (JObj data) = true ->
  loadData (snd (saveData fits data st)) =
    match merge_defaults (module_defaults st) (JObj data) with
    | Return m => m
    | Throw _ => copy_defaults st
    end.
Proof. intros H. unfold saveData. rewrite H. reflexivity. Qed.

Lemma updateData_ok fits s v st :
  fst (updateData fits s v st) = true ->
  fits (JObj (obj_assign (loadData st) s v)) = true.
Proof.
  unfold updateData, saveData.
  destruct (fits _); [reflexivity | discriminate].
Qed.

(** C1, as the claim states it, fails: a weekly plan written with the single
    key Monday is read back with the six other days filled in. *)
Lemma set_then_get_is_not_identity :
  ~ (forall fits st s v,
       In s sections ->
       fst (updateData fits s v st) = true ->
       getData s (snd (updateData fits s v st)) = Val v).
Proof.
  intros H.
  specialize (H unlimited (fresh_page None) "weeklyPlan"
                (JObj [("Monday", JArr [JStr "m1"])])).
  vm_compute in H.
  assert (E : Val (JObj [("Monday", JArr [JStr "m1"]); ("Tuesday", JArr []);
                         ("Wednesday", JArr []); ("Thursday", JArr []);
                         ("Friday", JArr []); ("Saturday", JArr []);
                         ("Sunday", JArr [])])
              = Val (JObj [("Monday", JArr [JStr "m1"])])).
  { apply H; [tauto | reflexivity]. }
  discriminate E.
Qed.

(** C1, amended: for a valid section name [s], when the write succeeds,
    [getData s] after [updateData s v] is [v] for the five list sections;
    for [weeklyPlan] and [settings] it is the defaults of that section (as
    they are in memory) overlaid with the own properties of [v], so that a
    default key which [v] omits is read back with its default value. *)
Theorem get_after_set fits st s v :
  In s sections ->
  fst (updateData fits s v st) = true ->
  getData s (snd (updateData fits s v st)) =
    if is_merged_section s
    then Val (JObj (spread (spread [] (obj_get (module_defaults st) s)) (Val v)))
    else Val v.
Proof.
  intros Hs Hok. pose proof (updateData_ok _ _ _ _ Hok) as Hfits.
  rewrite (obj_assign_section _ _ _ Hs) in Hfits.
  unfold updateData. rewrite (obj_assign_section _ _ _ Hs).
  unfold getData. rewrite (loadData_after_save _ _ _ Hfits).
  rewrite merge_defaults_object.
  pose proof (NoDup_obj_set _ s v (NoDup_loadData st)) as Hnd.
  unfold obj_get at 1.
  apply sections_cases in Hs.
  destruct Hs as [->|[->|[->|[->|[->|[->| ->]]]]]];
    simpl is_merged_section; cbv iota;
    rewrite ?own_obj_set; simpl String.eqb; cbv iota;
    rewrite ?(own_spread_obj _ _ _ Hnd), ?own_obj_set_eq; try reflexivity.
  - unfold obj_get at 2. rewrite own_obj_set_eq. reflexivity.
  - unfold obj_get at 2. rewrite own_obj_set_eq. reflexivity.
Qed.

Lemma get_after_set_witness :
  In "settings" sections
  /\ fst (updateData unlimited "settings" (JObj [("notifyMeals", JBool false)])
            (fresh_page None)) = true
  /\ getData "settings"
       (snd (updateData unlimited "settings"
               (JObj [("notifyMeals", JBool false)]) (fresh_page None)))
     = Val (JObj [ ("notificationsEnabled", JBool false);
                   ("notifyMeals", JBool false);
                   ("notifyCleaning", JBool true);
                   ("notifyShopping", JBool true);
                   ("lastExport", JNull) ]).
Proof.
  split; [simpl; tauto|]. split; [reflexivity|].
  apply (get_after_set unlimited (fresh_page None) "settings"
           (JObj [("notifyMeals", JBool false)])); [simpl; tauto | reflexivity].
Defined.

(** On a page that has just evaluated the module, [loadData] over an empty
    store is the document written in the module. *)
Lemma loadData_fresh_page_empty :
  loadData (fresh_page None) = defaultData
  /\ getData "weeklyPlan" (fresh_page None)
     = Val (JObj (map (fun day => (day, JArr [])) DAYS)).
Proof. split; reflexivity. Qed.

(** C2, the code at the failing input: the store is empty, and [loadData]
    returns a document whose Monday holds the meal planned before the store
    was cleared; [push] changed the array of [defaultData] itself, which the
    shallow copy [{ ...defaultData }] had handed out. *)
Theorem loadData_empty_store_after_push :
  localStorage cleared_twice = None
  /\ getData "weeklyPlan" cleared_twice
     = Val (JObj [ ("Monday", JArr [JStr "m1"]); ("Tuesday", JArr []);
                   ("Wednesday", JArr []); ("Thursday", JArr []);
                   ("Friday", JArr []); ("Saturday", JArr []);
                   ("Sunday", JArr []) ])
  /\ loadData cleared_twice <> defaultData.
Proof.
  split; [reflexivity|]. split; [reflexivity|].
  vm_compute. discriminate.
Qed.

(* ================================================================= *)
(** ** Dates *)

Section DateFacts.

Import JSDate.
Local Open Scope Z_scope.

Lemma MonthFromTime_range t : 0 <= MonthFromTime t <= 11.
Proof.
  unfold MonthFromTime.
  repeat match goal with |- context [if ?b then _ else _] => destruct b end; lia.
Qed.

Lemma MakeDay_DateFromTime t n :
  MakeDay (YearFromTime t) (MonthFromTime t) (DateFromTime t + n) = Day t + n.
Proof.
  pose proof (MonthFromTime_range t) as H.
  unfold MakeDay, DateFromTime.
  rewrite (Z.div_small (MonthFromTime t) 12) by lia.
  rewrite (Z.mod_small (MonthFromTime t) 12) by lia.
  rewrite Z.add_0_r. lia.
Qed.

Lemma setDate_getDate_constant zone off t n :
  (forall u b, zone u b = off) ->
  setDate zone t (getDate zone t + n) = TimeClip (t + n * msPerDay).
Proof.
  intros Hz. unfold setDate, getDate, LocalTime, UTC.
  rewrite MakeDay_DateFromTime. rewrite !Hz. f_equal.
  unfold MakeDate, Day, TimeWithinDay, msPerDay.
  pose proof (Z.div_mod (t + off) 86400000). lia.
Qed.

Lemma digit_of_range c d : digit_of c = Some d -> 0 <= d <= 9.
Proof.
  unfold digit_of.
  destruct (_ && _) eqn:E; [|discriminate]. intros H. inversion H; subst.
  apply andb_true_iff in E. lia.
Qed.

Lemma DayFromYear_bounds y : 0 <= y <= 9999 -> -719528 <= DayFromYear y <= 2932532.
Proof.
  intros H. unfold DayFromYear.
  pose proof (Z.div_mod (y - 1969) 4). pose proof (Z.mod_pos_bound (y-1969) 4).
  pose proof (Z.div_mod (y - 1901) 100). pose proof (Z.mod_pos_bound (y-1901) 100).
  pose proof (Z.div_mod (y - 1601) 400). pose proof (Z.mod_pos_bound (y-1601) 400).
  lia.
Qed.

Lemma days_before_month_bounds l m :
  0 <= l <= 1 -> 0 <= days_before_month l m <= 335.
Proof.
  intros H. unfold days_before_month.
  repeat match goal with
         | |- context [match ?x with _ => _ end] => destruct x
         end; lia.
Qed.

Lemma DaysInMonth_le y m : DaysInMonth y m <= 31.
Proof.
  unfold DaysInMonth, leap.
  repeat match goal with
         | |- context [match ?x with _ => _ end] => destruct x
         end; lia.
Qed.

Lemma leap_range y : 0 <= leap y <= 1.
Proof. unfold leap. destruct (InLeapYear_year y); lia. Qed.

Lemma parse_date_only_spec s t :
  parse_date_only s = Some t ->
  exists d, t = d * msPerDay /\ -719528 <= d <= 2932898.
Proof.
  unfold parse_date_only.
  destruct (list_ascii_of_string s) as [|y1 [|y2 [|y3 [|y4 [|s1 [|m1 [|m2 [|s2 [|d1 [|d2 [|]]]]]]]]]]]; try discriminate.
  destruct (_ && _); [|discriminate].
  destruct (digits_value 0 [y1; y2; y3; y4]) as [y|] eqn:Ey; [|discriminate].
  destruct (digits_value 0 [m1; m2]) as [m|] eqn:Em; [|discriminate].
  destruct (digits_value 0 [d1; d2]) as [d|] eqn:Ed; [|discriminate].
  destruct (_ && _) eqn:Ev; [|discriminate].
  intros H. inversion H; subst t. clear H.
  exists (MakeDay y (m - 1) d). split; [unfold MakeDate; lia|].
  repeat (apply andb_true_iff in Ev; destruct Ev as [Ev ?]).
  assert (Hy : 0 <= y <= 9999).
  { simpl in Ey.
    destruct (digit_of y1) as [a|] eqn:E1; [|discriminate].
    destruct (digit_of y2) as [b|] eqn:E2; [|discriminate].
    destruct (digit_of y3) as [c|] eqn:E3; [|discriminate].
    destruct (digit_of y4) as [e|] eqn:E4; [|discriminate].
    apply digit_of_range in E1, E2, E3, E4. inversion Ey. lia. }
  unfold MakeDay. rewrite (Z.div_small (m-1) 12), (Z.mod_small (m-1) 12) by lia.
  rewrite Z.add_0_r. unfold first_of_month.
  pose proof (DayFromYear_bounds y Hy).
  pose proof (days_before_month_bounds (leap y) (m - 1) (leap_range y)).
  pose proof (DaysInMonth_le y (m - 1)).
  lia.
Qed.


(** The year, the month and the day of the month that the model computes
    are those of the calendar. *)
Lemma YearFromTime_spec t :
  DayFromYear (YearFromTime t) <= Day t < DayFromYear (YearFromTime t + 1).
Proof.
  unfold YearFromTime. set (d := Day t). clearbody d.
  set (y := 1970 + d * 400 / 146097).
  assert (Hy : 146097 * (y - 1970) <= 400 * d < 146097 * (y - 1970) + 146097).
  { unfold y. pose proof (Z.div_mod (d * 400) 146097).
    pose proof (Z.mod_pos_bound (d * 400) 146097). lia. }
  clearbody y.
  assert (B : forall z, 146097 * (z - 1970) - 607 <= 400 * DayFromYear z
                        <= 146097 * (z - 1970) + 593).
  { intros z. unfold DayFromYear.
    pose proof (Z.div_mod (z - 1969) 4). pose proof (Z.mod_pos_bound (z - 1969) 4).
    pose proof (Z.div_mod (z - 1901) 100). pose proof (Z.mod_pos_bound (z - 1901) 100).
    pose proof (Z.div_mod (z - 1601) 400). pose proof (Z.mod_pos_bound (z - 1601) 400).
    lia. }
  pose proof (B (y - 1)). pose proof (B y). pose proof (B (y + 1)). pose proof (B (y + 2)).
  destruct (d <? DayFromYear y) eqn:E1.
  - apply Z.ltb_lt in E1. replace (y - 1 + 1) with y by lia. lia.
  - apply Z.ltb_ge in E1. destruct (DayFromYear (y + 1) <=? d) eqn:E2.
    + apply Z.leb_le in E2. replace (y + 1 + 1) with (y + 2) by lia. lia.
    + apply Z.leb_gt in E2. lia.
Qed.

Lemma year_length y : DayFromYear (y + 1) - DayFromYear y = 365 + leap y.
Proof.
  unfold DayFromYear, leap, InLeapYear_year.
  pose proof (Z.div_mod (y + 1 - 1969) 4). pose proof (Z.mod_pos_bound (y + 1 - 1969) 4).
  pose proof (Z.div_mod (y + 1 - 1901) 100). pose proof (Z.mod_pos_bound (y + 1 - 1901) 100).
  pose proof (Z.div_mod (y + 1 - 1601) 400). pose proof (Z.mod_pos_bound (y + 1 - 1601) 400).
  pose proof (Z.div_mod (y - 1969) 4). pose proof (Z.mod_pos_bound (y - 1969) 4).
  pose proof (Z.div_mod (y - 1901) 100). pose proof (Z.mod_pos_bound (y - 1901) 100).
  pose proof (Z.div_mod (y - 1601) 400). pose proof (Z.mod_pos_bound (y - 1601) 400).
  pose proof (Z.div_mod y 4). pose proof (Z.mod_pos_bound y 4).
  pose proof (Z.div_mod y 100). pose proof (Z.mod_pos_bound y 100).
  pose proof (Z.div_mod y 400). pose proof (Z.mod_pos_bound y 400).
  destruct (y mod 4 =? 0) eqn:E4; destruct (y mod 100 =? 0) eqn:E100;
    destruct (y mod 400 =? 0) eqn:E400; simpl;
    rewrite ?Z.eqb_eq, ?Z.eqb_neq in *; lia.
Qed.

Lemma DateFromTime_range t :
  1 <= DateFromTime t <= DaysInMonth (YearFromTime t) (MonthFromTime t).
Proof.
  pose proof (YearFromTime_spec t) as HY.
  pose proof (year_length (YearFromTime t)) as HL.
  pose proof (leap_range (YearFromTime t)) as Hl.
  unfold DateFromTime, first_of_month, DaysInMonth, MonthFromTime, DayWithinYear.
  set (l := leap (YearFromTime t)) in *.
  set (d := Day t - DayFromYear (YearFromTime t)).
  assert (Hd : 0 <= d < 365 + l) by (unfold d; lia).
  replace (Day t - (DayFromYear (YearFromTime t) + days_before_month l
     (if d <? 31 then 0 else if d <? 59 + l then 1 else if d <? 90 + l then 2
      else if d <? 120 + l then 3 else if d <? 151 + l then 4
      else if d <? 181 + l then 5 else if d <? 212 + l then 6
      else if d <? 243 + l then 7 else if d <? 273 + l then 8
      else if d <? 304 + l then 9 else if d <? 334 + l then 10 else 11)) + 1)
    with (d - days_before_month l
     (if d <? 31 then 0 else if d <? 59 + l then 1 else if d <? 90 + l then 2
      else if d <? 120 + l then 3 else if d <? 151 + l then 4
      else if d <? 181 + l then 5 else if d <? 212 + l then 6
      else if d <? 243 + l then 7 else if d <? 273 + l then 8
      else if d <? 304 + l then 9 else if d <? 334 + l then 10 else 11) + 1)
    by (unfold d; lia).
  clearbody d. clear HY HL.
  repeat match goal with
         | |- context [if ?a <? ?b then _ else _] =>
             destruct (Z.ltb_spec a b)
         end; simpl; lia.
Qed.

Local Close Scope Z_scope.

Lemma Day_mul d : Day (d * msPerDay) = d.
Proof. unfold Day, msPerDay. apply Z.div_mul. lia. Qed.

Lemma day_number_spec due d :
  day_number due = Some d ->
  parse_date_only due = Some (d * msPerDay)%Z /\ (-719528 <= d <= 2932898)%Z.
Proof.
  unfold day_number. destruct (parse_date_only due) as [t|] eqn:E; [|discriminate].
  simpl. intros H. inversion H; subst d. clear H.
  destruct (parse_date_only_spec _ _ E) as [d [-> Hd]].
  rewrite Day_mul. split; [reflexivity | exact Hd].
Qed.

Lemma freq_offsets f n :
  own freq f = Some (JNum n) ->
  (f <> "once") /\ (1 <= n <= 365)%Z.
Proof.
  unfold freq. rewrite !own_cons.
  repeat match goal with
         | |- context [String.eqb ?a f] => destruct (String.eqb a f) eqn:?
         end; intros H; inversion H; subst;
    (split; [|lia]);
    repeat match goal with
           | E : String.eqb _ _ = true |- _ => apply String.eqb_eq in E; subst
           end; discriminate.
Qed.

Lemma calculateNextDueDate_constant zone off other due d f n :
  (forall u b, zone u b = off) ->
  day_number due = Some d ->
  own freq f = Some (JNum n) ->
  calculateNextDueDate zone other (Val (JStr due)) (Val (JStr f))
  = Return (date_text (d + n)).
Proof.
  intros Hz Hd Hf. destruct (day_number_spec _ _ Hd) as [Hp Hr].
  destruct (freq_offsets _ _ Hf) as [_ Hn].
  unfold calculateNextDueDate. simpl to_string.
  unfold obj_get. rewrite Hf. unfold or_else.
  replace (truthy (Val (JNum n))) with true
    by (simpl; symmetry; apply negb_true_iff, Z.eqb_neq; lia).
  unfold new_Date, Date_parse. rewrite Hp. simpl.
  unfold TimeClip at 1.
  replace (Z.abs (d * msPerDay) <=? 8640000000000000)%Z with true
    by (symmetry; apply Z.leb_le; unfold msPerDay; lia).
  rewrite (setDate_getDate_constant zone off) by exact Hz.
  unfold TimeClip.
  replace (Z.abs (d * msPerDay + n * msPerDay) <=? 8640000000000000)%Z with true
    by (symmetry; apply Z.leb_le; unfold msPerDay; lia).
  unfold date_text. do 3 f_equal. lia.
Qed.

End DateFacts.

(* ================================================================= *)
(** ** Tasks *)

Lemma toggle_found fits zone other now id type st tasks i task :
  tasks_of type st = Val (JArr tasks) ->
  js_find (id_is id) tasks 0 = Return (Some (i, JObj task)) ->
  toggleTaskComplete fits zone other now id type st =
    let k := tasks_section type in
    let save t := (Return (JObj t), store_at fits k tasks i (JObj t) st) in
    let completed := negb (truthy (obj_get task "completed")) in
    let task1 := obj_set task "completed" (JBool completed) in
    if completed then
      let task2 := obj_set task1 "lastCompleted" (JStr now) in
      if negb (strict_eq (obj_get task2 "frequency") (JStr "once")) then
        match calculateNextDueDate zone other (obj_get task2 "dueDate")
                (obj_get task2 "frequency") with
        | Return due =>
            save (obj_set (obj_set task2 "dueDate" (JStr due))
                    "completed" (JBool false))
        | Throw e =>
            (Throw e,
             if collection_shared k st
             then write_section k (JArr (<[i := JObj task2]> tasks)) st
             else st)
        end
      else save task2
    else save task1.
Proof.
  intros Ht Hf. unfold toggleTaskComplete. rewrite Ht. simpl as_array.
  simpl mbind. unfold outcome_bind at 1. rewrite Hf. reflexivity.
Qed.

Lemma obj_get_own o k v : own o k = Some v -> obj_get o k = Val v.
Proof. unfold obj_get. intros ->. reflexivity. Qed.

(** X16: in a time zone whose offset from UTC never changes, completing an
    incomplete task whose frequency is one of the six of the table moves the
    due date by the offset of the table, from the previous due date. *)
Lemma toggle_recurring_constant_zone fits zone off other now id type st
    tasks i task due d f n :
  (forall u b, zone u b = off) ->
  tasks_of type st = Val (JArr tasks) ->
  js_find (id_is id) tasks 0 = Return (Some (i, JObj task)) ->
  truthy (obj_get task "completed") = false ->
  own task "frequency" = Some (JStr f) ->
  own freq f = Some (JNum n) ->
  own task "dueDate" = Some (JStr due) ->
  day_number due = Some d ->
  exists task',
    fst (toggleTaskComplete fits zone other now id type st) = Return (JObj task')
    /\ own task' "dueDate" = Some (JStr (date_text (d + n)))
    /\ own task' "completed" = Some (JBool false)
    /\ own task' "lastCompleted" = Some (JStr now).
Proof.
  intros Hz Ht Hfind Hc Hfr Hn Hdue Hd.
  rewrite (toggle_found _ _ _ _ _ _ _ _ _ _ Ht Hfind). cbv zeta.
  rewrite Hc. simpl negb. cbv iota.
  set (task2 := obj_set (obj_set task "completed" (JBool true)) "lastCompleted" (JStr now)).
  assert (E1 : obj_get task2 "frequency" = Val (JStr f)).
  { apply obj_get_own. unfold task2. rewrite !own_obj_set. exact Hfr. }
  assert (E2 : obj_get task2 "dueDate" = Val (JStr due)).
  { apply obj_get_own. unfold task2. rewrite !own_obj_set. exact Hdue. }
  rewrite E1, E2.
  destruct (freq_offsets _ _ Hn) as [Hne _].
  replace (strict_eq (Val (JStr f)) (JStr "once")) with false
    by (symmetry; apply String.eqb_neq; exact Hne).
  simpl negb. cbv iota.
  rewrite (calculateNextDueDate_constant zone off other due d f n Hz Hd Hn).
  eexists. split; [reflexivity|].
  unfold task2. repeat split; rewrite !own_obj_set; reflexivity.
Qed.

(** Completing a task of frequency [once] leaves it completed, with the due
    date it had. *)
Lemma toggle_once fits zone other now id type st tasks i task :
  tasks_of type st = Val (JArr tasks) ->
  js_find (id_is id) tasks 0 = Return (Some (i, JObj task)) ->
  truthy (obj_get task "completed") = false ->
  own task "frequency" = Some (JStr "once") ->
  exists task',
    fst (toggleTaskComplete fits zone other now id type st) = Return (JObj task')
    /\ own task' "dueDate" = own task "dueDate"
    /\ own task' "completed" = Some (JBool true).
Proof.
  intros Ht Hfind Hc Hfr.
  rewrite (toggle_found _ _ _ _ _ _ _ _ _ _ Ht Hfind). cbv zeta.
  rewrite Hc. simpl negb. cbv iota.
  set (task2 := obj_set (obj_set task "completed" (JBool true)) "lastCompleted" (JStr now)).
  assert (E1 : obj_get task2 "frequency" = Val (JStr "once")).
  { apply obj_get_own. unfold task2. rewrite !own_obj_set. exact Hfr. }
  rewrite E1. simpl.
  eexists. split; [reflexivity|].
  unfold task2. split; rewrite !own_obj_set; reflexivity.
Qed.

(** The example of the specification, with local time UTC and in London. *)
Example toggle_weekly_january :
  fst (toggleTaskComplete unlimited zone_utc no_other_format
         "2024-01-03T09:00:00.000Z" (JStr "t1") "cleaning"
         (page_with_task "weekly" "2024-01-01"))
  = Return (completed_task "weekly" "2024-01-08" "2024-01-03T09:00:00.000Z" false)
  /\ fst (toggleTaskComplete unlimited zone_london_2024 no_other_format
            "2024-01-03T09:00:00.000Z" (JStr "t1") "cleaning"
            (page_with_task "weekly" "2024-01-01"))
     = Return (completed_task "weekly" "2024-01-08" "2024-01-03T09:00:00.000Z" false)
  /\ fst (toggleTaskComplete unlimited zone_london_2024 no_other_format
            "2024-01-03T09:00:00.000Z" (JStr "t1") "cleaning"
            (page_with_task "once" "2024-01-01"))
     = Return (completed_task "once" "2024-01-01" "2024-01-03T09:00:00.000Z" true).
Proof. repeat split; vm_compute; reflexivity. Qed.

(** C3, the code at the failing input: in London, a weekly task due on
    2024-03-25 and completed that week gets the due date 2024-03-31, six
    days later and not seven (2024-04-01): [setDate] adds the days in local
    time, the clocks go forward on 31 March, and [toISOString] reads the
    result in UTC, one hour before midnight.  A daily task due on 2024-03-31
    keeps the due date 2024-03-31. *)
Theorem toggle_weekly_across_clock_change :
  day_number "2024-03-25" = Some 19807%Z
  /\ date_text (19807 + 7) = "2024-04-01"
  /\ fst (toggleTaskComplete unlimited zone_london_2024 no_other_format
            "2024-03-26T09:00:00.000Z" (JStr "t1") "cleaning"
            (page_with_task "weekly" "2024-03-25"))
     = Return (completed_task "weekly" "2024-03-31" "2024-03-26T09:00:00.000Z" false)
  /\ fst (toggleTaskComplete unlimited zone_london_2024 no_other_format
            "2024-03-31T09:00:00.000Z" (JStr "t1") "cleaning"
            (page_with_task "daily" "2024-03-31"))
     = Return (completed_task "daily" "2024-03-31" "2024-03-31T09:00:00.000Z" false).
Proof. repeat split; vm_compute; reflexivity. Qed.

(* ================================================================= *)
(** ** Import *)

(** X7: the contents that [importData] rejects: it throws, and the state,
    the stored document included, is as before. *)
Lemma importData_rejects fits file st :
  match file with
  | ReadError | Content BadText => True
  | Content (JsonText v) =>
      match v with JNull | JBool _ | JNum _ | JStr _ => True | _ => False end
  end ->
  exists e, importData fits file st = (Throw e, st).
Proof.
  destruct file as [|[v|]]; [eexists; reflexivity | | eexists; reflexivity].
  destruct v; intros H; try contradiction; unfold importData; simpl.
  - eexists; reflexivity.
  - destruct b; eexists; reflexivity.
  - destruct (negb (n =? 0)%Z); eexists; reflexivity.
  - destruct (negb (s =? "")); eexists; reflexivity.
Qed.

(** A JSON object is merged as [loadData] would merge it if the store held
    it, and the merge is what is persisted. *)
Lemma importData_object fits o st :
  fits (JObj (loadData (set_store st (Some (JsonText (JObj o)))))) = true ->
  importData fits (Content (JsonText (JObj o))) st =
    (Return true,
     set_store st
       (Some (JsonText (JObj (loadData (set_store st (Some (JsonText (JObj o))))))))).
Proof.
  intros H. unfold importData. simpl truthy. simpl typeof_object. simpl.
  unfold loadData in *. simpl in *.
  unfold saveData. rewrite H. reflexivity.
Qed.

(** An import without a [settings] section persists the default settings. *)
Lemma importData_without_settings fits o st ds :
  has_own o "settings" = false ->
  obj_get (module_defaults st) "settings" = Val (JObj ds) ->
  NoDup (keys ds) ->
  fits (JObj (loadData (set_store st (Some (JsonText (JObj o)))))) = true ->
  exists doc,
    localStorage (snd (importData fits (Content (JsonText (JObj o))) st))
      = Some (JsonText (JObj doc))
    /\ own doc "settings" = Some (JObj ds)
    /\ getData "settings" (snd (importData fits (Content (JsonText (JObj o))) st))
       = Val (JObj ds).
Proof.
  intros Hno Hds Hnd H. rewrite (importData_object _ _ _ H). simpl snd.
  eexists. split; [reflexivity|].
  assert (E : own (loadData (set_store st (Some (JsonText (JObj o))))) "settings"
              = Some (JObj ds)).
  { unfold loadData. simpl. rewrite own_obj_set_eq. simpl module_defaults.
    rewrite Hds. unfold obj_get. unfold has_own in Hno.
    destruct (own o "settings"); [discriminate|]. simpl.
    rewrite (spread_nil_obj _ Hnd). reflexivity. }
  split; [exact E|].
  remember (loadData (set_store st (Some (JsonText (JObj o))))) as M eqn:EM.
  unfold getData, loadData. simpl. unfold obj_get at 1.
  rewrite own_obj_set_eq. simpl module_defaults. rewrite Hds.
  unfold obj_get. rewrite E. rewrite (spread_nil_obj _ Hnd).
  rewrite (spread_absorb ds ds []); [reflexivity | exact Hnd |].
  rewrite app_nil_r. reflexivity.
Qed.

(** C4, the code at the failing input: a file holding the JSON array [[]]
    is not rejected; [typeof] of an array is ['object'].  The import
    resolves [true] and the stored document, here one with a meal, is
    replaced by the defaults. *)
Theorem importData_accepts_array :
  getData "meals" page_with_meal
    = Val (JArr [ JObj [ ("id", JStr "m1"); ("title", JStr "Dal") ] ])
  /\ importData unlimited (Content (JsonText (JArr []))) page_with_meal
     = (Return true,
        set_store page_with_meal (Some (JsonText (JObj defaultData))))
  /\ getData "meals"
       (snd (importData unlimited (Content (JsonText (JArr []))) page_with_meal))
     = Val (JArr []).
Proof. repeat split; vm_compute; reflexivity. Qed.

(* ================================================================= *)
(** ** Meals *)

Lemma meal_passes_dinner_vegan m :
  has_dietary_list m = true ->
  meal_passes dinner_vegan m = Return (dinner_and_vegan m).
Proof.
  destruct m as [| | | | |o]; try discriminate. simpl has_dietary_list.
  destruct (own o "dietary") as [[| | | |tags|]|] eqn:E; try discriminate.
  intros _. unfold meal_passes, dinner_and_vegan. rewrite E.
  simpl f_type. simpl nonempty. simpl member.
  simpl mbind. unfold outcome_bind.
  destruct (strict_eq (obj_get o "type") (JStr "dinner")); simpl; [|reflexivity].
  unfold obj_get. rewrite E. simpl. unfold array_includes.
  destruct (existsb _ tags); reflexivity.
Qed.

Lemma js_filter_total p (f : json -> bool) l :
  Forall (fun x => p x = Return (f x)) l ->
  js_filter p l = Return (List.filter f l).
Proof.
  induction 1 as [|x l Hx Hl IH]; simpl; [reflexivity|].
  rewrite Hx. simpl. unfold mbind, outcome_bind. rewrite IH. reflexivity.
Qed.
(** C6: over a stored collection of meals, each with a list of dietary
    tags, [filterMeals({ type: 'dinner', dietary: ['vegan'] })] returns, in
    the order of the collection, exactly the meals whose type is ['dinner']
    and whose dietary list contains ['vegan']. *)
Theorem filterMeals_dinner_vegan st meals :
  getMeals st = Val (JArr meals) ->
  forallb has_dietary_list meals = true ->
  filterMeals dinner_vegan st = Return (List.filter dinner_and_vegan meals).
Proof.
  intros Hm Hd. unfold filterMeals. rewrite Hm. simpl.
  apply js_filter_total.
  apply Forall_forall. intros m Hin.
  apply meal_passes_dinner_vegan.
  rewrite forallb_forall in Hd. apply Hd. apply list_elem_of_In, Hin.
Qed.

Lemma filterMeals_dinner_vegan_witness :
  getMeals sample_page = Val (JArr sample_meals)
  /\ forallb has_dietary_list sample_meals = true
  /\ filterMeals dinner_vegan sample_page = Return [meal_dal].
Proof.
  split; [reflexivity|]. split; [reflexivity|].
  exact (filterMeals_dinner_vegan sample_page sample_meals eq_refl eq_refl).
Defined.

(* ================================================================= *)
(** ** Updates and toggles of an id that is not there *)

Lemma js_find_absent id l i :
  id_absent id l -> js_find (id_is id) l i = Return None.
Proof.
  intros H. revert i. induction H as [|x l Hx Hl IH]; intros i; simpl; [reflexivity|].
  unfold id_is at 1.
  destruct x as [| | | | |o]; simpl in *; try discriminate; try apply IH.
  apply negb_true_iff in Hx. unfold mbind, outcome_bind. simpl in *.
  rewrite Hx. apply IH.
Qed.
(** C9: when no element of the collection has the id, [updateMeal] returns
    [null], [toggleTaskComplete] returns [null] and [toggleItemChecked]
    returns [false]; the state after is the state before: the stored
    document is untouched, nothing is saved, no toast and no alert is
    shown. *)
Theorem not_found_changes_nothing fits zone other st mealId mealData taskId
    type now itemId meals tasks items :
  getMeals st = Val (JArr meals) -> id_absent mealId meals ->
  tasks_of type st = Val (JArr tasks) -> id_absent taskId tasks ->
  getShoppingList st = Val (JArr items) -> id_absent itemId items ->
  updateMeal fits mealId mealData st = (Return JNull, st)
  /\ toggleTaskComplete fits zone other now taskId type st = (Return JNull, st)
  /\ toggleItemChecked fits itemId st = (Return false, st).
Proof.
  intros Hm Am Ht At Hi Ai. repeat split.
  - unfold updateMeal. rewrite Hm. simpl. unfold mbind at 1, outcome_bind.
    rewrite (js_find_absent _ _ 0 Am). reflexivity.
  - unfold toggleTaskComplete. rewrite Ht. simpl. unfold mbind at 1, outcome_bind.
    rewrite (js_find_absent _ _ 0 At). reflexivity.
  - unfold toggleItemChecked. rewrite Hi. simpl. unfold mbind at 1, outcome_bind.
    rewrite (js_find_absent _ _ 0 Ai). reflexivity.
Qed.

Lemma not_found_changes_nothing_witness :
  getMeals sample_page = Val (JArr sample_meals)
  /\ id_absent (JStr "m9") sample_meals
  /\ tasks_of "cleaning" sample_page = Val (JArr sample_tasks)
  /\ id_absent (JStr "t9") sample_tasks
  /\ getShoppingList sample_page = Val (JArr sample_items)
  /\ id_absent (JStr "i9") sample_items
  /\ updateMeal unlimited (JStr "m9") (JObj [("title", JStr "Soup")]) sample_page
     = (Return JNull, sample_page)
  /\ toggleTaskComplete unlimited zone_utc no_other_format
       "2024-01-03T09:00:00.000Z" (JStr "t9") "cleaning" sample_page
     = (Return JNull, sample_page)
  /\ toggleItemChecked unlimited (JStr "i9") sample_page
     = (Return false, sample_page).
Proof.
  assert (Am : id_absent (JStr "m9") sample_meals) by (repeat constructor).
  assert (At : id_absent (JStr "t9") sample_tasks) by (repeat constructor).
  assert (Ai : id_absent (JStr "i9") sample_items) by (repeat constructor).
  split; [reflexivity|]. split; [exact Am|]. split; [reflexivity|].
  split; [exact At|]. split; [reflexivity|]. split; [exact Ai|].
  exact (not_found_changes_nothing unlimited zone_utc no_other_format
           sample_page (JStr "m9") (JObj [("title", JStr "Soup")]) (JStr "t9")
           "cleaning" "2024-01-03T09:00:00.000Z" (JStr "i9")
           sample_meals sample_tasks sample_items
           eq_refl Am eq_refl At eq_refl Ai).
Defined.

(* ================================================================= *)
(** ** Records created by the add operations *)

(** C10: whatever the input, also one that supplies the lifecycle fields,
    the record that [addMeal] returns has [lastMade = null], the one that
    [addTask] returns has [completed = false] and [lastCompleted = null],
    and the one that [addShoppingItem] returns has [checked = false]: these
    fields are defined after the input is spread. *)
Theorem add_resets_lifecycle_fields fits st id now data type meals tasks items :
  getMeals st = Val (JArr meals) ->
  tasks_of type st = Val (JArr tasks) ->
  getShoppingList st = Val (JArr items) ->
  (exists m, fst (addMeal fits id now data st) = Return (JObj m)
             /\ own m "lastMade" = Some JNull)
  /\ (exists t, fst (addTask fits id now data type st) = Return (JObj t)
                /\ own t "completed" = Some (JBool false)
                /\ own t "lastCompleted" = Some JNull)
  /\ (exists x, fst (addShoppingItem fits id now data st) = Return (JObj x)
                /\ own x "checked" = Some (JBool false)).
Proof.
  intros Hm Ht Hi. repeat split.
  - unfold addMeal. rewrite Hm. simpl. eexists. split; [reflexivity|].
    apply own_obj_set_eq.
  - unfold addTask. rewrite Ht. simpl. eexists. split; [reflexivity|].
    split; rewrite !own_obj_set; reflexivity.
  - unfold addShoppingItem. rewrite Hi. simpl. eexists. split; [reflexivity|].
    rewrite !own_obj_set; reflexivity.
Qed.

Lemma add_resets_lifecycle_fields_witness :
  let data := JObj [ ("name", JStr "Eggs"); ("title", JStr "Eggs");
                     ("lastMade", JStr "2023-12-24"); ("completed", JBool true);
                     ("lastCompleted", JStr "2023-12-24");
                     ("checked", JBool true) ] in
  getMeals sample_page = Val (JArr sample_meals)
  /\ tasks_of "cleaning" sample_page = Val (JArr sample_tasks)
  /\ getShoppingList sample_page = Val (JArr sample_items)
  /\ (exists m, fst (addMeal unlimited "id7" "2024-01-03T09:00:00.000Z" data sample_page)
                 = Return (JObj m)
                 /\ own m "lastMade" = Some JNull)
  /\ (exists t, fst (addTask unlimited "id7" "2024-01-03T09:00:00.000Z" data
                       "cleaning" sample_page) = Return (JObj t)
                 /\ own t "completed" = Some (JBool false)
                 /\ own t "lastCompleted" = Some JNull)
  /\ (exists x, fst (addShoppingItem unlimited "id7" "2024-01-03T09:00:00.000Z"
                       data sample_page) = Return (JObj x)
                 /\ own x "checked" = Some (JBool false)).
Proof.
  intros data.
  split; [reflexivity|]. split; [reflexivity|]. split; [reflexivity|].
  exact (add_resets_lifecycle_fields unlimited sample_page "id7"
           "2024-01-03T09:00:00.000Z" data "cleaning"
           sample_meals sample_tasks sample_items eq_refl eq_refl eq_refl).
Defined.

(* ================================================================= *)
(** ** The save-meal proxy *)

Lemma word_not_hyphen c : is_word c = true -> is_hyphen c = false.
Proof.
  destruct c as [[] [] [] [] [] [] [] []]; try reflexivity; discriminate.
Qed.

Lemma append_cons c (a b : string) : String c a +:+ b = String c (a +:+ b).
Proof. reflexivity. Qed.

Lemma append_nil_l (b : string) : "" +:+ b = b.
Proof. reflexivity. Qed.

Lemma append_assoc (a b c : string) : (a +:+ b) +:+ c = a +:+ (b +:+ c).
Proof.
  induction a as [|x a IH]; [reflexivity|].
  rewrite !append_cons, IH. reflexivity.
Qed.

Lemma append_nil_r (a : string) : a +:+ "" = a.
Proof.
  induction a as [|x a IH]; [reflexivity|]. rewrite append_cons, IH. reflexivity.
Qed.

Lemma all_word_app a c : all_word a = true -> is_word c = true ->
  all_word (a +:+ String c "") = true.
Proof.
  induction a as [|x a IH]; intros Ha Hc.
  - rewrite append_nil_l. simpl. rewrite Hc. reflexivity.
  - rewrite append_cons. simpl in *.
    apply andb_true_iff in Ha. destruct Ha as [Hx Ha]. rewrite Hx. simpl. auto.
Qed.

Lemma drop_trailing_app a b :
  drop_trailing (a +:+ b) =
    match drop_trailing b with
    | EmptyString => drop_trailing a
    | r => a +:+ r
    end.
Proof.
  induction a as [|c a IH].
  - rewrite append_nil_l. destruct (drop_trailing b); reflexivity.
  - rewrite append_cons. simpl. rewrite IH.
    destruct (drop_trailing b) eqn:E; [reflexivity|].
    rewrite append_cons. destruct a; reflexivity.
Qed.

Lemma drop_trailing_words a : all_word a = true -> drop_trailing a = a.
Proof.
  induction a as [|c a IH]; simpl; [reflexivity|]. intros H.
  apply andb_true_iff in H. destruct H as [Hc Ha]. rewrite (IH Ha).
  destruct a; [|reflexivity]. rewrite (word_not_hyphen _ Hc). reflexivity.
Qed.

Lemma drop_leading_in_run s :
  drop_leading (replace_runs true s) = replace_runs true s.
Proof.
  induction s as [|c s IH]; simpl; [reflexivity|].
  destruct (is_word c) eqn:E; [|exact IH].
  simpl. rewrite (word_not_hyphen _ E). reflexivity.
Qed.

Lemma hyphenate_nonempty ws :
  Forall (fun w => nonempty w = true) ws -> hyphenate ws = "" -> ws = [].
Proof.
  destruct 1 as [|w ws Hw Hws]; [reflexivity|]. simpl.
  destruct w; [discriminate|]. destruct ws; discriminate.
Qed.

Lemma nonempty_app a c : nonempty (a +:+ String c "") = true.
Proof. destruct a; reflexivity. Qed.

Lemma word_runs_nonempty s : forall cur,
  Forall (fun w => nonempty w = true) (word_runs cur s).
Proof.
  induction s as [|c s IH]; intros cur; simpl.
  - destruct (nonempty cur) eqn:E; repeat constructor. exact E.
  - destruct (is_word c); [apply IH|].
    destruct (nonempty cur) eqn:E; [constructor; [exact E|]|]; apply IH.
Qed.

Lemma slug_runs s :
  (forall cur, nonempty cur = true -> all_word cur = true ->
     drop_trailing (cur +:+ replace_runs false s) = hyphenate (word_runs cur s))
  /\ (forall b,
        drop_trailing (drop_leading (replace_runs b s))
        = hyphenate (word_runs "" s)).
Proof.
  induction s as [|c s [IH1 IH2]]; split.
  - intros cur Hn Hw. simpl. rewrite append_nil_r, Hn. simpl.
    apply drop_trailing_words, Hw.
  - intros b. reflexivity.
  - intros cur Hn Hw. simpl. destruct (is_word c) eqn:E.
    + rewrite <- (IH1 (cur +:+ String c ""));
        [| apply nonempty_app | apply all_word_app; assumption].
      rewrite append_assoc. reflexivity.
    + rewrite Hn. rewrite drop_trailing_app. simpl drop_trailing.
      specialize (IH2 true). rewrite drop_leading_in_run in IH2.
      rewrite IH2.
      destruct (word_runs "" s) as [|w ws] eqn:Ew.
      * simpl. apply drop_trailing_words, Hw.
      * assert (Hne : hyphenate (w :: ws) <> "").
        { intros Hh. pose proof (word_runs_nonempty s "") as Hf.
          rewrite Ew in Hf. apply hyphenate_nonempty in Hh; [discriminate | exact Hf]. }
        destruct (hyphenate (w :: ws)) eqn:Eh; [contradiction|].
        change (hyphenate (cur :: w :: ws))
          with (cur +:+ "-" +:+ hyphenate (w :: ws)).
        rewrite Eh. reflexivity.
  - intros b. simpl. destruct (is_word c) eqn:E.
    + simpl. rewrite (word_not_hyphen _ E).
      apply (IH1 (String c "")); [reflexivity | simpl; rewrite E; reflexivity].
    + destruct b; simpl; apply IH2.
Qed.

Lemma slugify_slug title : slugify title = slug title +:+ ".json".
Proof.
  unfold slugify, slug.
  destruct (slug_runs (toLowerCase title)) as [_ H]. rewrite H. reflexivity.
Qed.
(** C8: for a meal whose [type] and [title] are texts, the path of the
    upstream file is ['meals/'], the lowercased type, ['/'], the slug of the
    title and ['.json']; the slug, the word runs of the lowercased title
    joined by single hyphens, is what the code computes: every run of
    non-word characters replaced by one hyphen, then the hyphens at both
    ends removed. *)
Theorem save_meal_path_spec o type title :
  own o "type" = Some (JStr type) ->
  own o "title" = Some (JStr title) ->
  save_meal_path (JObj o)
  = Return ("meals/" +:+ toLowerCase type +:+ "/" +:+ slug title +:+ ".json")
  /\ slug title =
       drop_trailing (drop_leading (replace_runs false (toLowerCase title))).
Proof.
  intros Ht Hti. split.
  - unfold save_meal_path. simpl. unfold obj_get. rewrite Ht, Hti. simpl.
    rewrite slugify_slug. reflexivity.
  - unfold slug. destruct (slug_runs (toLowerCase title)) as [_ H].
    rewrite H. reflexivity.
Qed.

Lemma save_meal_path_spec_witness :
  own [("title", JStr "Spicy Tofu!"); ("type", JStr "Dinner")] "type" = Some (JStr "Dinner")
  /\ own [("title", JStr "Spicy Tofu!"); ("type", JStr "Dinner")] "title" = Some (JStr "Spicy Tofu!")
  /\ save_meal_path (JObj [("title", JStr "Spicy Tofu!"); ("type", JStr "Dinner")])
     = Return "meals/dinner/spicy-tofu.json".
Proof.
  split; [reflexivity|]. split; [reflexivity|].
  exact (proj1 (save_meal_path_spec
                  [("title", JStr "Spicy Tofu!"); ("type", JStr "Dinner")]
                  "Dinner" "Spicy Tofu!" eq_refl eq_refl)).
Defined.

(* ================================================================= *)
(** ** The shopping list generated from the meal plan *)

Lemma js_find_pure p f l i :
  Forall (fun x => p x = Return (f x)) l ->
  js_find p l i = Return (find_from f l i).
Proof.
  intros H. revert i. induction H as [|x l Hx Hl IH]; intros i; simpl; [reflexivity|].
  rewrite Hx. simpl. unfold mbind, outcome_bind.
  destruct (f x); [reflexivity | apply IH].
Qed.

Lemma find_from_Some f l i j x :
  find_from f l i = Some (j, x) -> In x l /\ f x = true.
Proof.
  revert i. induction l as [|y l IH]; intros i; simpl; [discriminate|].
  destruct (f y) eqn:E.
  - intros H. inversion H; subst. auto.
  - intros H. destruct (IH _ H). auto.
Qed.

Lemma find_from_None f l i : find_from f l i = None <-> existsb f l = false.
Proof.
  revert i. induction l as [|y l IH]; intros i; simpl; [tauto|].
  destruct (f y); simpl; [split; discriminate | apply IH].
Qed.

Lemma find_from_exists f l i :
  existsb f l = true -> exists r, find_from f l i = Some r.
Proof.
  intros H. destruct (find_from f l i) eqn:E; [eauto|].
  apply find_from_None in E. congruence.
Qed.

Lemma names_pure s item :
  has_name item = true -> names (JStr s) item = Return (matches s item).
Proof.
  destruct item as [| | | | |o]; try discriminate. simpl.
  destruct (own o "name") as [[| | |n| |]|] eqn:E; try discriminate.
  intros _. unfold names, matches. simpl. unfold obj_get. rewrite E. reflexivity.
Qed.

Lemma js_find_names s l i :
  forallb has_name l = true ->
  js_find (names (JStr s)) l i = Return (find_from (matches s) l i).
Proof.
  intros H. apply js_find_pure. apply Forall_forall. intros x Hx.
  apply names_pure. rewrite forallb_forall in H. apply H, list_elem_of_In, Hx.
Qed.

Lemma id_is_record id m :
  has_ingredient_names m = true -> id_is id m = Return (has_id id m).
Proof. destruct m; try discriminate. reflexivity. Qed.

(* ---------- the set of ingredients ---------- *)

Lemma existsb_same_value acc ss s pl :
  map fst acc = map JStr ss ->
  existsb (fun y => same_value_zero y (JStr s, pl)) acc
  = existsb (fun s' => String.eqb s' s) ss.
Proof.
  revert ss. induction acc as [|[v q] acc IH]; intros [|s' ss] H; try discriminate;
    [reflexivity|].
  simpl in H. inversion H; subst v. simpl. rewrite (IH ss); auto.
Qed.

Lemma set_add_strings acc ss s pl :
  map fst acc = map JStr ss -> NoDup ss ->
  exists ss', map fst (set_add acc (JStr s, pl)) = map JStr ss' /\ NoDup ss'
    /\ (forall t, In t ss' <-> In t ss \/ t = s).
Proof.
  intros Hm Hn. unfold set_add. rewrite (existsb_same_value _ ss _ _ Hm).
  destruct (existsb _ ss) eqn:E.
  - exists ss. split; [exact Hm|]. split; [exact Hn|].
    intros t. split; [tauto|]. intros [H| ->]; [exact H|].
    apply existsb_exists in E. destruct E as [s' [Hin Es]].
    apply String.eqb_eq in Es. subst. exact Hin.
  - exists (ss ++ [s])%list. split.
    + rewrite !map_app, Hm. reflexivity.
    + split.
      * apply NoDup_app. repeat split; [exact Hn | | apply NoDup_singleton].
        intros x Hx Hs. apply list_elem_of_singleton in Hs. subst x.
        assert (existsb (fun s' => String.eqb s' s) ss = true); [|congruence].
        apply existsb_exists. exists s. split; [apply list_elem_of_In, Hx|].
        apply eqb_refl_true.
      * intros t. rewrite in_app_iff. simpl. intuition.
Qed.

Lemma fold_set_add_strings (g : nat -> json -> placed) l :
  (forall j x, fst (g j x) = x) ->
  forallb is_string l = true ->
  forall acc ss, map fst acc = map JStr ss -> NoDup ss ->
  exists ss', map fst (fold_left set_add (imap g l) acc) = map JStr ss'
    /\ NoDup ss'
    /\ (forall t, In t ss' <-> In t ss \/ In (JStr t) l).
Proof.
  revert g. induction l as [|x l IH]; intros g Hg Hl acc ss Hm Hn.
  - exists ss. simpl. repeat split; auto. tauto.
  - simpl in Hl. apply andb_true_iff in Hl. destruct Hl as [Hx Hl].
    destruct x as [| | |s| |]; try discriminate.
    simpl. pose proof (Hg 0 (JStr s)) as H0.
    destruct (g 0 (JStr s)) as [v pl] eqn:Eg. simpl in H0. subst v.
    destruct (set_add_strings acc ss s pl Hm Hn) as [ss1 [Hm1 [Hn1 Hin1]]].
    destruct (IH (g ∘ S) (fun j x => Hg (S j) x) Hl _ _ Hm1 Hn1) as [ss2 [Hm2 [Hn2 Hin2]]].
    exists ss2. split; [exact Hm2|]. split; [exact Hn2|].
    intros t. rewrite Hin2, Hin1. split.
    + intros [[H| ->]|H]; auto.
    + intros [H|[H|H]]; auto. inversion H. auto.
Qed.

Lemma collect_ids_strings meals ids :
  forallb has_ingredient_names meals = true ->
  forall acc ss, map fst acc = map JStr ss -> NoDup ss ->
  exists acc' ss', collect_ids (Val (JArr meals)) ids acc = Return acc'
    /\ map fst acc' = map JStr ss' /\ NoDup ss'.
Proof.
  intros Hmeals. induction ids as [|id ids IH]; intros acc ss Hm Hn; simpl.
  - exists acc, ss. auto.
  - rewrite (js_find_pure _ (has_id id)).
    2:{ apply Forall_forall. intros m Hin. apply id_is_record.
        rewrite forallb_forall in Hmeals. apply Hmeals, list_elem_of_In, Hin. }
    simpl.
    destruct (find_from (has_id id) meals 0) as [[i m]|] eqn:Ef.
    + destruct (find_from_Some _ _ _ _ _ Ef) as [Hin _].
      rewrite forallb_forall in Hmeals. specialize (Hmeals m Hin).
      destruct m as [| | | | |o]; try discriminate. simpl in Hmeals.
      simpl. unfold obj_get.
      destruct (own o "ingredients") as [[| | | |l|]|]; try discriminate.
      simpl.
      destruct (fold_set_add_strings (fun j ing => (ing, (i, j))) l
                  (fun _ _ => eq_refl) Hmeals acc ss Hm Hn) as [ss1 [Hm1 [Hn1 _]]].
      apply (IH _ _ Hm1 Hn1).
    + simpl. apply (IH _ _ Hm Hn).
Qed.

Lemma collect_days_strings meals days :
  forallb has_ingredient_names meals = true ->
  forallb is_list days = true ->
  forall acc ss, map fst acc = map JStr ss -> NoDup ss ->
  exists acc' ss', collect_days (Val (JArr meals)) days acc = Return acc'
    /\ map fst acc' = map JStr ss' /\ NoDup ss'.
Proof.
  intros Hmeals. induction days as [|d days IH]; intros Hd acc ss Hm Hn; simpl.
  - exists acc, ss. auto.
  - simpl in Hd. apply andb_true_iff in Hd. destruct Hd as [Hl Hd].
    destruct d as [| | | |ids|]; try discriminate. simpl.
    destruct (collect_ids_strings meals ids Hmeals acc ss Hm Hn)
      as [acc1 [ss1 [E1 [Hm1 Hn1]]]].
    rewrite E1. apply (IH Hd _ _ Hm1 Hn1).
Qed.

Lemma planned_ingredients_strings st :
  plan_data_wf st ->
  exists ps ss, planned_ingredients st = Return ps
    /\ map fst ps = map JStr ss /\ NoDup ss /\ planned_names st = ss.
Proof.
  intros [[plan [Hp Hl]] [[meals [Hm Hi]] _]].
  unfold planned_names, planned_ingredients. rewrite Hp, Hm.
  unfold or_else. simpl truthy. cbv iota. simpl own_props.
  destruct (collect_days_strings meals (map snd plan) Hi Hl [] [] eq_refl (NoDup_nil_2))
    as [ps [ss [E [Hps Hn]]]].
  exists ps, ss. rewrite E. repeat split; auto.
  rewrite <- (map_map fst ToString), Hps, map_map. simpl. apply map_id.
Qed.

Lemma bind_Return {A B} (a : A) (f : A -> outcome B) : (Return a ≫= f) = f a.
Proof. reflexivity. Qed.

Lemma forallb_incl (f : json -> bool) l1 l2 :
  incl l1 l2 -> forallb f l2 = true -> forallb f l1 = true.
Proof.
  intros Hi H. rewrite forallb_forall in *. intros x Hx. apply H, Hi, Hx.
Qed.

Lemma existsb_incl (f : json -> bool) l1 l2 :
  incl l1 l2 -> existsb f l1 = true -> existsb f l2 = true.
Proof.
  intros Hi H. rewrite existsb_exists in *. destruct H as [x [Hx Hf]].
  exists x. split; [apply Hi, Hx | exact Hf].
Qed.

Lemma addShoppingItem_generated fits id now s W M st Ls :
  (forall d, fits d = true) -> loop_inv W M st Ls ->
  exists x st',
    addShoppingItem fits id now (generated_item (JStr s)) st = (Return x, st')
    /\ loop_inv W M st' (Ls ++ [x])
    /\ has_name x = true /\ name_of x = s
    /\ (obj_get (module_defaults st') "shoppingList"
          = obj_get (module_defaults st) "shoppingList"
        \/ obj_get (module_defaults st') "shoppingList" = Val (JArr (Ls ++ [x]))).
Proof.
  intros Hf [Hwf [HW [HM [HL Hn]]]].
  unfold addShoppingItem, getShoppingList, collection. rewrite HL.
  unfold or_else. simpl truthy. cbv iota. simpl as_array. cbv iota.
  set (x := JObj (obj_set (obj_set (spread [("id", JStr id)] (Val (generated_item (JStr s))))
                             "checked" (JBool false)) "addedDate" (JStr now))).
  destruct (push_and_save_shopping fits Ls x st Hf Hwf) as [H1 [H2 [H3 [H4 H5]]]].
  exists x, (showSuccess "Item added to shopping list!"
               (push_and_save fits "shoppingList" Ls x st)).
  split; [reflexivity|].
  assert (Hx : has_name x = true /\ name_of x = s) by (split; reflexivity).
  destruct Hx as [Hx1 Hx2].
  split.
  { unfold loop_inv, showSuccess. rewrite !getData_emit.
    split; [apply wf_emit, H1|]. split; [congruence|]. split; [congruence|].
    split; [exact H2|]. rewrite forallb_app, Hn. cbn [forallb]. rewrite Hx1. reflexivity. }
  split; [exact Hx1|]. split; [exact Hx2|]. exact H5.
Qed.

Lemma add_missing_spec fits fresh shared snapshot W M L0 :
  (forall d, fits d = true) ->
  forall ss added st Ls,
    NoDup ss ->
    loop_inv W M st Ls -> cur_ok shared snapshot st L0 Ls ->
    exists st' new,
      add_missing fits fresh shared snapshot (map JStr ss) added st
        = (Return (added + length new), st')
      /\ loop_inv W M st' (Ls ++ new)
      /\ cur_ok shared snapshot st' L0 (Ls ++ new)
      /\ sublist (map name_of new) ss
      /\ (forall x, In x new -> existsb (matches (name_of x)) L0 = false)
      /\ (forall s, In s ss -> existsb (matches s) (Ls ++ new) = true).
Proof.
  intros Hf. induction ss as [|s ss IH]; intros added st Ls Hnd Hinv Hcur.
  - exists st, []. simpl. rewrite Nat.add_0_r, app_nil_r.
    split; [reflexivity|]. split; [exact Hinv|]. split; [exact Hcur|].
    split; [constructor|]. split; [intros x []|intros s []].
  - apply NoDup_cons in Hnd. destruct Hnd as [Hs Hnd].
    destruct Hcur as [Cs [HC [H0C [HCL HCn]]]].
    simpl. rewrite HC. unfold as_array. rewrite bind_Return.
    rewrite (js_find_names s Cs 0 HCn).
    destruct (find_from (matches s) Cs 0) as [r|] eqn:Ef.
    + (* already on the list *)
      destruct (IH added st Ls Hnd Hinv) as [st' [new [E [Hi [Hc [Hsub [Hno Hall]]]]]]].
      { exists Cs. auto. }
      exists st', new. split; [exact E|]. split; [exact Hi|]. split; [exact Hc|].
      split; [apply sublist_cons, Hsub|]. split; [exact Hno|].
      intros t [<-|Ht]; [|apply Hall, Ht].
      destruct r as [j y]. destruct (find_from_Some _ _ _ _ _ Ef) as [Hy Hm].
      apply existsb_exists. exists y. split; [|exact Hm].
      apply in_or_app. left. apply HCL, Hy.
    + (* added *)
      apply find_from_None in Ef.
      destruct (addShoppingItem_generated fits (fresh added).1 (fresh added).2 s
                  W M st Ls Hf Hinv) as [x [st1 [EA [Hi1 [Hx1 [Hx2 Hd]]]]]].
      rewrite EA.
      assert (Hc1 : cur_ok shared snapshot st1 L0 (Ls ++ [x])).
      { unfold cur_ok, current_list in *. destruct shared.
        - destruct Hd as [Hd|Hd]; rewrite Hd.
          + exists Cs. repeat split; auto. apply incl_appl, HCL.
          + exists (Ls ++ [x])%list. repeat split.
            * eapply incl_tran; [exact H0C|]. apply incl_appl, HCL.
            * apply incl_refl.
            * destruct Hi1 as [_ [_ [_ [_ Hn1]]]]. exact Hn1.
        - exists Cs. repeat split; auto. apply incl_appl, HCL. }
      destruct (IH (S added) st1 (Ls ++ [x])%list Hnd Hi1 Hc1)
        as [st' [new [E [Hi [Hc [Hsub [Hno Hall]]]]]]].
      exists st', (x :: new). rewrite E.
      replace (S added + length new) with (added + length (x :: new)) by (simpl; lia).
      rewrite <- app_assoc in Hi, Hc, Hall. simpl in Hi, Hc, Hall.
      split; [reflexivity|]. split; [exact Hi|]. split; [exact Hc|].
      split; [simpl; rewrite Hx2; apply sublist_skip, Hsub|].
      split.
      * intros y [<-|Hy]; [|apply Hno, Hy]. rewrite Hx2.
        destruct (existsb (matches s) L0) eqn:E0; [|reflexivity].
        rewrite (existsb_incl _ _ _ H0C E0) in Ef. discriminate.
      * intros t [<-|Ht]; [|apply Hall, Ht].
        apply existsb_exists. exists x. split.
        -- apply in_or_app. right. left. reflexivity.
        -- unfold matches. rewrite Hx2. apply eqb_refl_true.
Qed.

(** When every ingredient is on the list already, nothing is added and the
    state stays. *)
Lemma add_missing_nothing fits fresh shared snapshot Cs :
  forall ss added st,
    current_list shared snapshot st = Val (JArr Cs) ->
    forallb has_name Cs = true ->
    (forall s, In s ss -> existsb (matches s) Cs = true) ->
    add_missing fits fresh shared snapshot (map JStr ss) added st
      = (Return added, st).
Proof.
  induction ss as [|s ss IH]; intros added st HC Hn Hall; [reflexivity|].
  simpl. rewrite HC. unfold as_array. rewrite bind_Return.
  rewrite (js_find_names s Cs 0 Hn).
  destruct (find_from_exists (matches s) Cs 0 (Hall s (or_introl eq_refl))) as [r Er].
  rewrite Er. apply IH; auto. intros t Ht. apply Hall. right. exact Ht.
Qed.

Lemma current_list_initial st Ls :
  state_wf st -> getData "shoppingList" st = Val (JArr Ls) ->
  current_list (collection_shared "shoppingList" st) (getShoppingList st) st
  = Val (JArr Ls).
Proof.
  intros Hwf HL. unfold current_list, getShoppingList, collection, collection_shared.
  rewrite HL. unfold or_else. simpl truthy. rewrite andb_true_r.
  destruct (shares_section st "shoppingList") eqn:E; [|reflexivity].
  rewrite <- (shares_section_read st _ (wf_NoDup _ Hwf) E). exact HL.
Qed.

Lemma planned_ingredients_ext st st' :
  getData "weeklyPlan" st' = getData "weeklyPlan" st ->
  getData "meals" st' = getData "meals" st ->
  planned_ingredients st' = planned_ingredients st.
Proof. intros H1 H2. unfold planned_ingredients. rewrite H1, H2. reflexivity. Qed.

(** C7: when the store accepts every write and the document has the shape
    of the data model, a first run of [generateFromMealPlan] appends to the
    shopping list items with pairwise distinct names, each the name of a
    planned ingredient that matched no item of the list up to case, and
    returns their number; a second run, made right after it, returns 0 and
    leaves the shopping list as the first run left it. *)
Theorem generateFromMealPlan_twice fits fresh1 fresh2 st :
  (forall d, fits d = true) -> state_wf st -> plan_data_wf st ->
  exists new,
    fst (generateFromMealPlan fits fresh1 st) = Return (length new)
    /\ shopping_items (snd (generateFromMealPlan fits fresh1 st))
       = (shopping_items st ++ new)%list
    /\ NoDup (map name_of new)
    /\ (forall x, In x new ->
          In (name_of x) (planned_names st)
          /\ existsb (matches (name_of x)) (shopping_items st) = false)
    /\ fst (generateFromMealPlan fits fresh2
              (snd (generateFromMealPlan fits fresh1 st))) = Return 0
    /\ shopping_items (snd (generateFromMealPlan fits fresh2
                              (snd (generateFromMealPlan fits fresh1 st))))
       = shopping_items (snd (generateFromMealPlan fits fresh1 st)).
Proof.
  intros Hf Hwf Hdata.
  destruct (planned_ingredients_strings st Hdata) as [ps [ss [Ep [Hps [Hnd Hnames]]]]].
  destruct Hdata as [_ [_ [L0 [HL Hn0]]]].
  assert (Hinv : loop_inv (getData "weeklyPlan" st) (getData "meals" st) st L0).
  { unfold loop_inv. auto. }
  assert (Hcur : cur_ok (collection_shared "shoppingList" st) (getShoppingList st) st L0 L0).
  { exists L0. rewrite (current_list_initial st L0 Hwf HL).
    repeat split; auto using incl_refl. }
  destruct (add_missing_spec fits fresh1 _ _ _ _ L0 Hf ss 0 st L0 Hnd Hinv Hcur)
    as [st1 [new [E1 [Hi1 [Hc1 [Hsub [Hno Hall]]]]]]].
  exists new.
  set (st1' := showSuccess ("Added " +:+ index_key (length new)
                              +:+ " items from meal plan!") st1).
  assert (R1 : generateFromMealPlan fits fresh1 st = (Return (length new), st1')).
  { unfold generateFromMealPlan. rewrite Ep, Hps, E1. reflexivity. }
  destruct Hi1 as [Hwf1 [HW1 [HM1 [HL1 Hn1]]]].
  assert (Ep2 : planned_ingredients st1' = Return ps).
  { rewrite <- Ep. apply planned_ingredients_ext; assumption. }
  assert (HL1' : getData "shoppingList" st1' = Val (JArr (L0 ++ new))) by exact HL1.
  assert (Hwf1' : state_wf st1') by (apply wf_showSuccess, Hwf1).
  assert (R2 : generateFromMealPlan fits fresh2 st1'
               = (Return 0,
                  showSuccess ("Added " +:+ index_key 0 +:+ " items from meal plan!")
                    st1')).
  { unfold generateFromMealPlan. rewrite Ep2, Hps.
    rewrite (add_missing_nothing fits fresh2 _ _ (L0 ++ new) ss 0 st1'
               (current_list_initial st1' _ Hwf1' HL1') Hn1 Hall).
    reflexivity. }
  rewrite R1. simpl fst. simpl snd. rewrite R2. simpl fst. simpl snd.
  assert (Hsi : shopping_items st = L0) by (unfold shopping_items; rewrite HL; reflexivity).
  assert (Hsi1 : shopping_items st1' = (L0 ++ new)%list).
  { unfold shopping_items. rewrite HL1'. reflexivity. }
  split; [reflexivity|]. split; [rewrite Hsi1, Hsi; reflexivity|].
  split; [eapply sublist_NoDup; [exact Hnd | exact Hsub]|].
  split.
  { intros x Hx. rewrite Hnames, Hsi. split; [|apply Hno, Hx].
    apply list_elem_of_In. eapply elem_of_sublist; [|exact Hsub].
    apply list_elem_of_In, in_map, Hx. }
  split; reflexivity.
Qed.

Lemma generateFromMealPlan_twice_witness :
  (forall d, unlimited d = true)
  /\ state_wf sample_page
  /\ plan_data_wf sample_page
  /\ exists new,
       fst (generateFromMealPlan unlimited sample_fresh sample_page)
         = Return (length new)
       /\ shopping_items (snd (generateFromMealPlan unlimited sample_fresh sample_page))
          = (shopping_items sample_page ++ new)%list
       /\ NoDup (map name_of new)
       /\ (forall x, In x new ->
             In (name_of x) (planned_names sample_page)
             /\ existsb (matches (name_of x)) (shopping_items sample_page) = false)
       /\ fst (generateFromMealPlan unlimited sample_fresh
                 (snd (generateFromMealPlan unlimited sample_fresh sample_page)))
          = Return 0
       /\ shopping_items
            (snd (generateFromMealPlan unlimited sample_fresh
                    (snd (generateFromMealPlan unlimited sample_fresh sample_page))))
          = shopping_items (snd (generateFromMealPlan unlimited sample_fresh sample_page)).
Proof.
  assert (H1 : forall d, unlimited d = true) by (intros d; reflexivity).
  assert (H2 : state_wf sample_page) by apply wf_fresh_page.
  assert (H3 : plan_data_wf sample_page).
  { split; [eexists; split; reflexivity|].
    split; eexists; split; reflexivity. }
  split; [exact H1|]. split; [exact H2|]. split; [exact H3|].
  exact (generateFromMealPlan_twice unlimited sample_fresh sample_fresh
           sample_page H1 H2 H3).
Defined.

(** Two planned ingredients that differ in case only, here Onion and onion,
    are distinct members of the set and are both added by the first run: the
    list is read once, before the loop. *)
Example generateFromMealPlan_sample :
  fst (generateFromMealPlan unlimited sample_fresh sample_page) = Return 4
  /\ map name_of (shopping_items (snd (generateFromMealPlan unlimited sample_fresh sample_page)))
     = ["RICE"; "Lentils"; "Onion"; "Chicken"; "onion"].
Proof. split; vm_compute; reflexivity. Qed.

(* ================================================================= *)
(** ** The weekly plan *)


Lemma plan_props_emit e st : plan_props (emit e st) = plan_props st.
Proof. reflexivity. Qed.

Lemma write_day_plan d v st dwp :
  own (module_defaults st) "weeklyPlan" = Some (JObj dwp) ->
  own (module_defaults (write_day d v st)) "weeklyPlan" = Some (JObj (obj_set dwp d v)).
Proof.
  intros H. unfold write_day. rewrite H. unfold write_section. simpl.
  apply own_obj_set_eq.
Qed.

(** The plan read after [updateData('weeklyPlan', plan)], when the store
    accepts the write: the defaults' plan overlaid with [plan]. *)
Lemma plan_after_update fits p st dwp :
  state_wf st -> own (module_defaults st) "weeklyPlan" = Some (JObj dwp) ->
  fits (JObj (obj_assign (loadData st) "weeklyPlan" (JObj p))) = true ->
  plan_props (snd (updateData fits "weeklyPlan" (JObj p) st))
  = spread dwp (Val (JObj p)).
Proof.
  intros Hwf Ho Hf. pose proof Hwf as [Hnd [dwp' [Ho' [Hn Hd]]]].
  assert (dwp' = dwp) by congruence. subst dwp'.
  unfold plan_props, getWeeklyPlan.
  rewrite (getData_after_update _ _ _ _ _ Hnd Hf). simpl is_merged_section. cbv iota.
  unfold obj_assign. simpl andb. cbv iota.
  unfold obj_get at 2. rewrite own_obj_set_eq.
  unfold obj_get. rewrite Ho. rewrite (spread_nil_obj _ Hn). reflexivity.
Qed.


Lemma addMealToDay_appends fits day mealId st ids :
  state_wf st -> (forall d, fits d = true) ->
  obj_get (plan_props st) day = Val (JArr ids) ->
  array_includes ids mealId = false ->
  fst (addMealToDay fits day mealId st) = Return true
  /\ obj_get (plan_props (snd (addMealToDay fits day mealId st))) day
     = Val (JArr (ids ++ [mealId]))
  /\ forall d, d <> day ->
       own (plan_props (snd (addMealToDay fits day mealId st))) d
       = own (plan_props st) d.
Proof.
  intros Hwf Hfits Hd Hi. pose proof Hwf as [Hnd [dwp [Ho [Hn Hdays]]]].
  destruct (plan_props_shape st Hwf) as [HnP _].
  destruct (plan_props_spec st dwp Hwf Ho) as [x [HP _]].
  unfold addMealToDay. rewrite Hd. simpl truthy. simpl negb. cbv iota.
  rewrite Hd. simpl includes_method. rewrite Hi. simpl as_array. cbv iota.
  rewrite andb_true_r.
  set (shared := plan_shared st || shares_day st day).
  set (ids' := JArr (ids ++ [mealId])).
  set (st2 := if shared then write_day day ids' st else st).
  set (p2 := obj_set (plan_props st) day ids').
  assert (H2 : state_wf st2).
  { unfold st2. destruct shared; [apply wf_write_day|]; exact Hwf. }
  assert (Hdwp2 : exists dwp2, own (module_defaults st2) "weeklyPlan" = Some (JObj dwp2)
                    /\ forall d, d <> day -> own dwp2 d = own dwp d).
  { unfold st2. destruct shared.
    - exists (obj_set dwp day ids'). split; [apply write_day_plan, Ho|].
      intros d Hne. apply own_obj_set_ne. congruence.
    - exists dwp. split; [exact Ho | reflexivity]. }
  destruct Hdwp2 as [dwp2 [Ho2 Hsame]].
  pose proof (plan_after_update fits p2 st2 dwp2 H2 Ho2 (Hfits _)) as Hplan.
  destruct (updateData fits "weeklyPlan" (JObj p2) st2) as [b st3] eqn:EU.
  simpl in Hplan. simpl fst. simpl snd.
  unfold showSuccess. rewrite plan_props_emit, Hplan.
  assert (HnP2 : NoDup (keys p2)) by (apply NoDup_obj_set, HnP).
  split; [reflexivity|]. split.
  - unfold obj_get. rewrite (own_spread_obj _ _ _ HnP2).
    unfold p2. rewrite own_obj_set_eq. reflexivity.
  - intros d Hne. rewrite (own_spread_obj _ _ _ HnP2).
    unfold p2. rewrite own_obj_set_ne by congruence.
    destruct (own (plan_props st) d) eqn:E; [reflexivity|].
    rewrite (Hsame d Hne).
    rewrite HP in E. rewrite own_spread in E.
    destruct (own (rev (own_props x)) d); [discriminate | exact E].
Qed.



(* ================================================================= *)
(** ** Dates as texts *)

Section DateTexts.

Import JSDate.


Lemma pad_ok_4 : forallb (pad_ok 4) (map Z.of_nat (seq 0 (100 * 100))) = true.
Proof. vm_compute. reflexivity. Qed.

Lemma pad_ok_2 : forallb (pad_ok 2) (map Z.of_nat (seq 0 100)) = true.
Proof. vm_compute. reflexivity. Qed.

Local Open Scope Z_scope.

Lemma pad_digits w n (k : nat) :
  forallb (pad_ok w) (map Z.of_nat (seq 0 k)) = true ->
  0 <= n < Z.of_nat k ->
  length (list_ascii_of_string (pad w n)) = w
  /\ digits_value 0 (list_ascii_of_string (pad w n)) = Some n.
Proof.
  intros H Hn. rewrite forallb_forall in H.
  specialize (H n). unfold pad_ok in H.
  assert (Hin : In n (map Z.of_nat (seq 0 k))).
  { apply in_map_iff. exists (Z.to_nat n). split; [lia|].
    apply in_seq. lia. }
  specialize (H Hin). apply andb_true_iff in H. destruct H as [H1 H2].
  apply Nat.eqb_eq in H1. split; [exact H1|].
  destruct (digits_value 0 _) as [v|]; [|discriminate].
  apply Z.eqb_eq in H2. congruence.
Qed.

Lemma pad4_spec y :
  0 <= y <= 9999 ->
  exists c1 c2 c3 c4,
    pad 4 y = String c1 (String c2 (String c3 (String c4 EmptyString)))
    /\ digits_value 0 [c1; c2; c3; c4] = Some y.
Proof.
  intros H. destruct (pad_digits 4 y _ pad_ok_4) as [H1 H2]; [lia|].
  rewrite <- (string_of_list_ascii_of_string (pad 4 y)).
  destruct (list_ascii_of_string (pad 4 y)) as [|c1 [|c2 [|c3 [|c4 [|]]]]];
    try discriminate.
  exists c1, c2, c3, c4. split; [reflexivity | exact H2].
Qed.

Lemma pad2_spec n :
  0 <= n <= 99 ->
  exists c1 c2,
    pad 2 n = String c1 (String c2 EmptyString)
    /\ digits_value 0 [c1; c2] = Some n.
Proof.
  intros H. destruct (pad_digits 2 n _ pad_ok_2) as [H1 H2]; [lia|].
  rewrite <- (string_of_list_ascii_of_string (pad 2 n)).
  destruct (list_ascii_of_string (pad 2 n)) as [|c1 [|c2 [|]]]; try discriminate.
  exists c1, c2. split; [reflexivity | exact H2].
Qed.

Lemma digit_of_compare c c' a a' :
  digit_of c = Some a -> digit_of c' = Some a' ->
  Ascii.compare c c' = (a ?= a').
Proof.
  unfold digit_of, Ascii.compare, nat_of_ascii.
  rewrite !N_nat_Z.
  destruct (_ && _); [|discriminate]. intros H; inversion H; subst a; clear H.
  destruct (_ && _); [|discriminate]. intros H; inversion H; subst a'; clear H.
  rewrite <- N2Z.inj_compare.
  destruct (Z.compare_spec (Z.of_N (N_of_ascii c)) (Z.of_N (N_of_ascii c')));
    symmetry; [apply Z.compare_eq_iff | apply Z.compare_lt_iff | apply Z.compare_gt_iff]; lia.
Qed.

Lemma digit_not_T c a : digit_of c = Some a -> Ascii.eqb c "T" = false.
Proof.
  intros H. apply Ascii.eqb_neq. intros ->. vm_compute in H. discriminate.
Qed.

Lemma digits_value_4 c1 c2 c3 c4 y :
  digits_value 0 [c1; c2; c3; c4] = Some y ->
  exists a1 a2 a3 a4,
    digit_of c1 = Some a1 /\ digit_of c2 = Some a2 /\ digit_of c3 = Some a3
    /\ digit_of c4 = Some a4 /\ y = 1000 * a1 + 100 * a2 + 10 * a3 + a4
    /\ 0 <= a1 <= 9 /\ 0 <= a2 <= 9 /\ 0 <= a3 <= 9 /\ 0 <= a4 <= 9.
Proof.
  simpl.
  destruct (digit_of c1) as [a1|] eqn:E1; [|discriminate].
  destruct (digit_of c2) as [a2|] eqn:E2; [|discriminate].
  destruct (digit_of c3) as [a3|] eqn:E3; [|discriminate].
  destruct (digit_of c4) as [a4|] eqn:E4; [|discriminate].
  intros H. inversion H. exists a1, a2, a3, a4.
  apply digit_of_range in E1, E2, E3, E4. repeat split; auto; lia.
Qed.

Lemma digits_value_2 c1 c2 n :
  digits_value 0 [c1; c2] = Some n ->
  exists a1 a2,
    digit_of c1 = Some a1 /\ digit_of c2 = Some a2 /\ n = 10 * a1 + a2
    /\ 0 <= a1 <= 9 /\ 0 <= a2 <= 9.
Proof.
  simpl.
  destruct (digit_of c1) as [a1|] eqn:E1; [|discriminate].
  destruct (digit_of c2) as [a2|] eqn:E2; [|discriminate].
  intros H. inversion H. exists a1, a2.
  apply digit_of_range in E1, E2. repeat split; auto; lia.
Qed.

(** The shape of a date-only text. *)
Lemma parse_date_only_inv s t :
  parse_date_only s = Some t ->
  exists y1 y2 y3 y4 m1 m2 d1 d2 y m d,
    s = string_of_list_ascii [y1; y2; y3; y4; "-"%char; m1; m2; "-"%char; d1; d2]
    /\ digits_value 0 [y1; y2; y3; y4] = Some y
    /\ digits_value 0 [m1; m2] = Some m
    /\ digits_value 0 [d1; d2] = Some d
    /\ 1 <= m <= 12 /\ 1 <= d <= DaysInMonth y (m - 1)
    /\ t = MakeDay y (m - 1) d * msPerDay.
Proof.
  unfold parse_date_only. intros H.
  rewrite <- (string_of_list_ascii_of_string s).
  destruct (list_ascii_of_string s) as [|y1 [|y2 [|y3 [|y4 [|s1 [|m1 [|m2 [|s2 [|d1 [|d2 [|]]]]]]]]]]]; try discriminate.
  destruct (Ascii.eqb s1 "-" && Ascii.eqb s2 "-") eqn:Es; [|discriminate].
  apply andb_true_iff in Es. destruct Es as [Es1 Es2].
  apply Ascii.eqb_eq in Es1, Es2. subst s1 s2.
  destruct (digits_value 0 [y1; y2; y3; y4]) as [y|] eqn:Ey; [|discriminate].
  destruct (digits_value 0 [m1; m2]) as [m|] eqn:Em; [|discriminate].
  destruct (digits_value 0 [d1; d2]) as [d|] eqn:Ed; [|discriminate].
  destruct (_ && _) eqn:Ev; [|discriminate].
  inversion H; subst t. clear H.
  repeat (apply andb_true_iff in Ev; destruct Ev as [Ev ?]).
  exists y1, y2, y3, y4, m1, m2, d1, d2, y, m, d.
  repeat split; auto; try lia. unfold MakeDate. lia.
Qed.

Lemma DayFromYear_mono y y' : y <= y' -> DayFromYear y <= DayFromYear y'.
Proof.
  intros H. unfold DayFromYear.
  pose proof (Z.div_mod (y - 1969) 4). pose proof (Z.mod_pos_bound (y-1969) 4).
  pose proof (Z.div_mod (y - 1901) 100). pose proof (Z.mod_pos_bound (y-1901) 100).
  pose proof (Z.div_mod (y - 1601) 400). pose proof (Z.mod_pos_bound (y-1601) 400).
  pose proof (Z.div_mod (y' - 1969) 4). pose proof (Z.mod_pos_bound (y'-1969) 4).
  pose proof (Z.div_mod (y' - 1901) 100). pose proof (Z.mod_pos_bound (y'-1901) 100).
  pose proof (Z.div_mod (y' - 1601) 400). pose proof (Z.mod_pos_bound (y'-1601) 400).
  lia.
Qed.

Lemma month_cases m : 1 <= m <= 12 ->
  m = 1 \/ m = 2 \/ m = 3 \/ m = 4 \/ m = 5 \/ m = 6 \/ m = 7 \/ m = 8 \/ m = 9
  \/ m = 10 \/ m = 11 \/ m = 12.
Proof. lia. Qed.

(** The days of a month end where the next month starts. *)
Lemma month_end y m :
  1 <= m <= 12 ->
  days_before_month (leap y) (m - 1) + DaysInMonth y (m - 1)
  = if m =? 12 then 365 + leap y else days_before_month (leap y) m.
Proof.
  intros H. apply month_cases in H.
  repeat (destruct H as [H|H]); subst m; simpl; lia.
Qed.

Lemma days_before_month_mono l m m' :
  0 <= l <= 1 -> 1 <= m <= m' -> m' <= 12 ->
  days_before_month l (m - 1) <= days_before_month l (m' - 1).
Proof.
  intros Hl H H'.
  assert (Hm : 1 <= m <= 12) by lia.
  assert (Hm' : 1 <= m' <= 12) by lia.
  apply month_cases in Hm. apply month_cases in Hm'.
  repeat (destruct Hm as [Hm|Hm]); subst m;
    repeat (destruct Hm' as [Hm'|Hm']); subst m'; simpl; lia.
Qed.

Lemma MakeDay_valid y m d :
  1 <= m <= 12 ->
  MakeDay y (m - 1) d = DayFromYear y + days_before_month (leap y) (m - 1) + d - 1.
Proof.
  intros H. unfold MakeDay, first_of_month.
  rewrite (Z.div_small (m - 1) 12), (Z.mod_small (m - 1) 12) by lia.
  rewrite Z.add_0_r. lia.
Qed.

Lemma MakeDay_in_year y m d :
  1 <= m <= 12 -> 1 <= d <= DaysInMonth y (m - 1) ->
  DayFromYear y <= MakeDay y (m - 1) d < DayFromYear (y + 1).
Proof.
  intros Hm Hd. rewrite (MakeDay_valid _ _ _ Hm).
  pose proof (year_length y). pose proof (leap_range y) as Hl.
  pose proof (month_end y m Hm) as He.
  pose proof (days_before_month_bounds (leap y) (m - 1) Hl).
  pose proof (days_before_month_mono (leap y) m 12 Hl ltac:(lia) ltac:(lia)) as Hmono.
  simpl days_before_month at 2 in Hmono.
  destruct (m =? 12) eqn:E.
  - lia.
  - assert (E' : days_before_month (leap y) m <= 334 + leap y).
    { apply Z.eqb_neq in E.
      pose proof (days_before_month_mono (leap y) (m + 1) 12 Hl ltac:(lia) ltac:(lia)) as H2.
      replace (m + 1 - 1) with m in H2 by lia. exact H2. }
    lia.
Qed.

(** A later date has a larger day number. *)
Lemma MakeDay_lt y m d y' m' d' :
  1 <= m <= 12 -> 1 <= d <= DaysInMonth y (m - 1) ->
  1 <= m' <= 12 -> 1 <= d' <= DaysInMonth y' (m' - 1) ->
  y < y' \/ (y = y' /\ (m < m' \/ (m = m' /\ d < d'))) ->
  MakeDay y (m - 1) d < MakeDay y' (m' - 1) d'.
Proof.
  intros Hm Hd Hm' Hd' [H|[-> [H|[-> H]]]].
  - pose proof (MakeDay_in_year y m d Hm Hd).
    pose proof (MakeDay_in_year y' m' d' Hm' Hd').
    pose proof (DayFromYear_mono (y + 1) y' ltac:(lia)). lia.
  - rewrite !MakeDay_valid by assumption.
    pose proof (month_end y' m Hm) as He.
    replace (m =? 12) with false in He by (symmetry; apply Z.eqb_neq; lia).
    pose proof (days_before_month_mono (leap y') (m + 1) m' (leap_range y')
                  ltac:(lia) ltac:(lia)) as Hmono.
    replace (m + 1 - 1) with m in Hmono by lia. lia.
  - rewrite !MakeDay_valid by assumption. lia.
Qed.

(** Date-only texts are ordered, as texts, like the days they denote. *)
Lemma date_text_compare s s' t t' :
  parse_date_only s = Some t -> parse_date_only s' = Some t' ->
  String.compare s s' = (t ?= t').
Proof.
  intros H H'.
  destruct (parse_date_only_inv _ _ H)
    as (y1 & y2 & y3 & y4 & m1 & m2 & d1 & d2 & y & m & d
        & -> & Ey & Em & Ed & Hm & Hd & ->).
  destruct (parse_date_only_inv _ _ H')
    as (y1' & y2' & y3' & y4' & m1' & m2' & d1' & d2' & y' & m' & d'
        & -> & Ey' & Em' & Ed' & Hm' & Hd' & ->).
  clear H H'.
  destruct (digits_value_4 _ _ _ _ _ Ey)
    as (a1 & a2 & a3 & a4 & E1 & E2 & E3 & E4 & -> & R1 & R2 & R3 & R4).
  destruct (digits_value_4 _ _ _ _ _ Ey')
    as (a1' & a2' & a3' & a4' & E1' & E2' & E3' & E4' & -> & R1' & R2' & R3' & R4').
  destruct (digits_value_2 _ _ _ Em) as (b1 & b2 & F1 & F2 & -> & S1 & S2).
  destruct (digits_value_2 _ _ _ Em') as (b1' & b2' & F1' & F2' & -> & S1' & S2').
  destruct (digits_value_2 _ _ _ Ed) as (e1 & e2 & G1 & G2 & -> & T1 & T2).
  destruct (digits_value_2 _ _ _ Ed') as (e1' & e2' & G1' & G2' & -> & T1' & T2').
  pose proof (DaysInMonth_le (1000 * a1 + 100 * a2 + 10 * a3 + a4) (10 * b1 + b2 - 1)).
  pose proof (DaysInMonth_le (1000 * a1' + 100 * a2' + 10 * a3' + a4') (10 * b1' + b2' - 1)).
  simpl string_of_list_ascii. cbn [String.compare].
  rewrite (digit_of_compare _ _ _ _ E1 E1'), (digit_of_compare _ _ _ _ E2 E2'),
    (digit_of_compare _ _ _ _ E3 E3'), (digit_of_compare _ _ _ _ E4 E4'),
    (digit_of_compare _ _ _ _ F1 F1'), (digit_of_compare _ _ _ _ F2 F2'),
    (digit_of_compare _ _ _ _ G1 G1'), (digit_of_compare _ _ _ _ G2 G2').
  change (Ascii.compare "-" "-") with Eq. cbv iota.
  assert (L : forall u v, u < v -> (u * msPerDay ?= v * msPerDay) = Lt)
    by (intros; apply Z.compare_lt_iff; unfold msPerDay; lia).
  assert (G : forall u v, v < u -> (u * msPerDay ?= v * msPerDay) = Gt)
    by (intros; apply Z.compare_gt_iff; unfold msPerDay; lia).
  repeat match goal with
         | |- context [?a ?= ?b] =>
             is_var a; is_var b;
             destruct (Z.compare_spec a b);
             [subst
             |symmetry; apply L, MakeDay_lt; auto; lia
             |symmetry; apply G, MakeDay_lt; auto; lia]
         end.
  symmetry. apply Z.compare_eq_iff. reflexivity.
Qed.

Lemma YearFromTime_range t :
  -719528 <= Day t < 2932897 -> 0 <= YearFromTime t <= 9999.
Proof.
  intros H. pose proof (YearFromTime_spec t) as HY.
  assert (E0 : DayFromYear 0 = -719528) by reflexivity.
  assert (E1 : DayFromYear 10000 = 2932897) by reflexivity.
  split.
  - destruct (Z_lt_le_dec (YearFromTime t) 0) as [Hlt|]; [|assumption].
    pose proof (DayFromYear_mono (YearFromTime t + 1) 0 ltac:(lia)). lia.
  - destruct (Z_lt_le_dec 9999 (YearFromTime t)) as [Hlt|]; [|assumption].
    pose proof (DayFromYear_mono 10000 (YearFromTime t) ltac:(lia)). lia.
Qed.

(** The date part of [toISOString] is a date-only text of the same day. *)
Lemma toISOString_date t :
  -719528 <= Day t < 2932897 ->
  parse_date_only (before_T (toISOString t)) = Some (Day t * msPerDay).
Proof.
  intros H. pose proof (YearFromTime_range t H) as HY.
  pose proof (MonthFromTime_range t) as HM.
  pose proof (DateFromTime_range t) as HD.
  pose proof (DaysInMonth_le (YearFromTime t) (MonthFromTime t)) as HL.
  unfold toISOString, year_string.
  replace ((0 <=? YearFromTime t) && (YearFromTime t <=? 9999)) with true
    by (symmetry; apply andb_true_iff; split; apply Z.leb_le; lia).
  destruct (pad4_spec (YearFromTime t) HY) as (c1 & c2 & c3 & c4 & -> & Ey).
  destruct (pad2_spec (MonthFromTime t + 1) ltac:(lia)) as (m1 & m2 & -> & Em).
  destruct (pad2_spec (DateFromTime t) ltac:(lia)) as (d1 & d2 & -> & Ed).
  destruct (digits_value_4 _ _ _ _ _ Ey) as (a1 & a2 & a3 & a4 & E1 & E2 & E3 & E4 & _).
  destruct (digits_value_2 _ _ _ Em) as (b1 & b2 & F1 & F2 & _).
  destruct (digits_value_2 _ _ _ Ed) as (e1 & e2 & G1 & G2 & _).
  rewrite !append_cons, !append_nil_l.
  cbn [before_T].
  rewrite (digit_not_T _ _ E1), (digit_not_T _ _ E2), (digit_not_T _ _ E3),
    (digit_not_T _ _ E4), (digit_not_T _ _ F1), (digit_not_T _ _ F2),
    (digit_not_T _ _ G1), (digit_not_T _ _ G2).
  change (Ascii.eqb "-" "T") with false. change (Ascii.eqb "T" "T") with true.
  cbv iota.
  unfold parse_date_only. cbn [list_ascii_of_string].
  change (Ascii.eqb "-" "-") with true. cbn [andb].
  rewrite Ey, Em, Ed.
  replace (MonthFromTime t + 1 - 1) with (MonthFromTime t) by lia.
  replace ((1 <=? MonthFromTime t + 1) && (MonthFromTime t + 1 <=? 12)
           && (1 <=? DateFromTime t)
           && (DateFromTime t <=? DaysInMonth (YearFromTime t) (MonthFromTime t)))
    with true
    by (symmetry; repeat (apply andb_true_iff; split); apply Z.leb_le; lia).
  pose proof (MakeDay_DateFromTime t 0) as HMD. rewrite !Z.add_0_r in HMD.
  rewrite HMD. unfold MakeDate. f_equal. lia.
Qed.

Local Close Scope Z_scope.

Lemma getTodayISO_day now :
  (-62167219200000 <= now < 253402300800000)%Z ->
  day_number (getTodayISO now) = Some (Day now).
Proof.
  intros H. unfold day_number, getTodayISO.
  assert (Hd : (-719528 <= Day now < 2932897)%Z).
  { unfold Day, msPerDay. split.
    - apply Z.div_le_lower_bound; lia.
    - apply Z.div_lt_upper_bound; lia. }
  rewrite (toISOString_date _ Hd). simpl. rewrite Day_mul. reflexivity.
Qed.

Lemma day_number_range s d :
  day_number s = Some d -> (-719528 <= d < 2932897)%Z.
Proof.
  unfold day_number. destruct (parse_date_only s) as [t|] eqn:E; [|discriminate].
  simpl. intros H. inversion H; subst d. clear H.
  destruct (parse_date_only_inv _ _ E)
    as (y1 & y2 & y3 & y4 & m1 & m2 & d1 & d2 & y & m & d
        & _ & Ey & _ & _ & Hm & Hd & ->).
  rewrite Day_mul.
  destruct (digits_value_4 _ _ _ _ _ Ey)
    as (a1 & a2 & a3 & a4 & _ & _ & _ & _ & -> & R1 & R2 & R3 & R4).
  pose proof (MakeDay_in_year _ _ _ Hm Hd) as HY.
  assert (E0 : DayFromYear 0 = (-719528)%Z) by reflexivity.
  assert (E1 : DayFromYear 10000 = 2932897%Z) by reflexivity.
  pose proof (DayFromYear_mono 0 (1000 * a1 + 100 * a2 + 10 * a3 + a4) ltac:(lia)).
  pose proof (DayFromYear_mono (1000 * a1 + 100 * a2 + 10 * a3 + a4 + 1) 10000 ltac:(lia)).
  lia.
Qed.

Lemma day_number_compare s s' d d' :
  day_number s = Some d -> day_number s' = Some d' ->
  String.compare s s' = (d ?= d')%Z.
Proof.
  intros H H'. destruct (day_number_spec _ _ H) as [P _].
  destruct (day_number_spec _ _ H') as [P' _].
  rewrite (date_text_compare _ _ _ _ P P').
  unfold msPerDay.
  destruct (Z.compare_spec d d'); [apply Z.compare_eq_iff | apply Z.compare_lt_iff
                                  | apply Z.compare_gt_iff]; lia.
Qed.

(** A day has one date-only text. *)
Lemma day_number_inj s s' d :
  day_number s = Some d -> day_number s' = Some d -> s = s'.
Proof.
  intros H H'. apply String.compare_eq_iff.
  rewrite (day_number_compare _ _ _ _ H H'). apply Z.compare_refl.
Qed.

Lemma date_text_day d :
  (-719528 <= d < 2932897)%Z -> day_number (date_text d) = Some d.
Proof.
  intros H. unfold day_number, date_text.
  rewrite toISOString_date by (rewrite Day_mul; exact H).
  simpl. rewrite !Day_mul. reflexivity.
Qed.

(* ================================================================= *)
(** ** Dates as texts *)

Lemma day_number_nonempty s d : day_number s = Some d -> String.eqb s "" = false.
Proof.
  destruct s; [|reflexivity]. vm_compute. discriminate.
Qed.

(** X23: [formatDateForInput] gives a date-only text back as it is, whatever
    the time zone; an empty or missing value gives the empty text; a text
    that is not a date throws [RangeError]. *)
Theorem formatDateForInput_round_trip other :
  (forall s d, day_number s = Some d ->
     formatDateForInput other (Val (JStr s)) = Return s)
  /\ (forall v, truthy v = false -> formatDateForInput other v = Return "")
  /\ (forall v, truthy v = true -> new_Date other v = None ->
        formatDateForInput other v = Throw RangeError).
Proof.
  split; [|split].
  - intros s d H. unfold formatDateForInput. simpl truthy.
    rewrite (day_number_nonempty _ _ H). simpl negb. cbv iota.
    destruct (day_number_spec _ _ H) as [P _].
    pose proof (day_number_range _ _ H) as R.
    unfold new_Date, Date_parse. rewrite P. simpl.
    unfold TimeClip.
    replace (Z.abs (d * msPerDay) <=? 8640000000000000)%Z with true
      by (symmetry; apply Z.leb_le; unfold msPerDay; lia).
    f_equal. apply (day_number_inj _ _ d); [|exact H].
    apply (date_text_day d R).
  - intros v H. unfold formatDateForInput. rewrite H. reflexivity.
  - intros v H N. unfold formatDateForInput. rewrite H, N. reflexivity.
Qed.

Lemma formatDateForInput_round_trip_witness :
  formatDateForInput no_other_format (Val (JStr "2024-02-29")) = Return "2024-02-29"
  /\ formatDateForInput no_other_format (Val JNull) = Return ""
  /\ formatDateForInput no_other_format (Val (JStr "2024-02-30")) = Throw RangeError.
Proof.
  destruct (formatDateForInput_round_trip no_other_format) as [H1 [H2 H3]].
  split; [apply (H1 "2024-02-29" 19782%Z); reflexivity|].
  split; [apply H2; reflexivity | apply H3; reflexivity].
Defined.

(** X24: for a date-only text, [isPast] says whether its day is before the
    day of [now] (both read in UTC), and [isToday] whether it is that day:
    the comparison of the texts is the comparison of the days. *)
Theorem isPast_compares_days now s d :
  (-62167219200000 <= now < 253402300800000)%Z ->
  day_number s = Some d ->
  isPast now (Val (JStr s)) = Return (d <? Day now)%Z
  /\ isToday now (Val (JStr s)) = (d =? Day now)%Z.
Proof.
  intros Hn Hs. pose proof (getTodayISO_day now Hn) as Ht.
  split.
  - unfold isPast, lt_text. simpl. unfold String.ltb.
    rewrite (day_number_compare _ _ _ _ Hs Ht). reflexivity.
  - unfold isToday. simpl.
    destruct (Z.eqb_spec d (Day now)) as [->|Hne].
    + apply String.eqb_eq. apply (day_number_inj _ _ _ Hs Ht).
    + apply String.eqb_neq. intros ->. congruence.
Qed.

Lemma isPast_compares_days_witness :
  isPast 1709231400000 (Val (JStr "2024-02-28")) = Return true
  /\ isToday 1709231400000 (Val (JStr "2024-02-28")) = false.
Proof.
  exact (isPast_compares_days 1709231400000 "2024-02-28" 19781
           ltac:(lia) eq_refl).
Defined.

Lemma is_due_spec now t :
  (-62167219200000 <= now < 253402300800000)%Z ->
  well_dated t = true ->
  is_due (getTodayISO now) t = Return (due_by (Day now) t).
Proof.
  intros Hn Hw. pose proof (getTodayISO_day now Hn) as Ht.
  destruct t as [| | | | |o]; try discriminate.
  unfold is_due, due_by, due_on. simpl member. simpl mbind. unfold outcome_bind.
  destruct (truthy (obj_get o "completed")); [reflexivity|].
  simpl negb. cbn [andb]. simpl in Hw. unfold obj_get in *.
  destruct (own o "dueDate") as [v|] eqn:E; [|reflexivity].
  destruct v as [|b|n|s|l|o']; simpl in Hw |- *;
    try reflexivity;
    try (apply negb_true_iff in Hw; rewrite ?Hw; reflexivity);
    try discriminate.
  destruct (String.eqb s "") eqn:Es.
  - apply String.eqb_eq in Es. subst s. reflexivity.
  - simpl in Hw. destruct (day_number s) as [d|] eqn:Ed; [|discriminate].
    simpl. unfold le_text. simpl. unfold String.leb.
    rewrite (day_number_compare _ _ _ _ Ed Ht). reflexivity.
Qed.

(** X18: over a list of tasks whose due dates are date-only texts (or are
    missing), [getDueTasks] returns, in the order of the list, exactly the
    tasks that are not completed and whose due day is the day of [now] (in
    UTC) or an earlier one; a task without a due date is never due. *)
Theorem getDueTasks_by_day now type st tasks :
  (-62167219200000 <= now < 253402300800000)%Z ->
  tasks_of type st = Val (JArr tasks) ->
  forallb well_dated tasks = true ->
  getDueTasks now type st = Return (List.filter (due_by (Day now)) tasks).
Proof.
  intros Hn Ht Hw. unfold getDueTasks. rewrite Ht. simpl.
  apply js_filter_total. apply Forall_forall. intros t Hin.
  apply is_due_spec; [exact Hn|].
  rewrite forallb_forall in Hw. apply Hw, list_elem_of_In, Hin.
Qed.

Lemma getDueTasks_by_day_witness :
  map (fun t => obj_get (own_props (Val t)) "id")
    (match getDueTasks 1709231400000 "cleaning" page_with_due_tasks with
     | Return l => l
     | Throw _ => []
     end)
  = [Val (JStr "t1"); Val (JStr "t5")].
Proof.
  rewrite (getDueTasks_by_day 1709231400000 "cleaning" page_with_due_tasks _
             ltac:(lia) eq_refl eq_refl).
  reflexivity.
Defined.

End DateTexts.

(* ================================================================= *)
(** ** Deleting, toggling and clearing *)

Lemma id_is_not_spec id x :
  not_null x = true -> id_is_not id x = Return (negb (has_id id x)).
Proof. destruct x; try discriminate; reflexivity. Qed.

Lemma not_checked_spec x :
  not_null x = true -> not_checked x = Return (negb (is_checked x)).
Proof. destruct x; try discriminate; reflexivity. Qed.

Lemma js_filter_not_null p (f : json -> bool) l :
  (forall x, not_null x = true -> p x = Return (f x)) ->
  forallb not_null l = true ->
  js_filter p l = Return (List.filter f l).
Proof.
  intros Hp Hl. apply js_filter_total. apply Forall_forall. intros x Hin.
  apply Hp. rewrite forallb_forall in Hl. apply Hl, list_elem_of_In, Hin.
Qed.

Lemma collection_list k st l :
  getData k st = Val (JArr l) -> collection k st = Val (JArr l).
Proof. unfold collection, or_else. intros ->. reflexivity. Qed.

Lemma collection_inv k st l :
  collection k st = Val (JArr l) ->
  getData k st = Val (JArr l) \/ (truthy (getData k st) = false /\ l = []).
Proof.
  unfold collection, or_else. destruct (truthy (getData k st)) eqn:E.
  - intros ->. left. reflexivity.
  - intros H. inversion H. right. auto.
Qed.

(** What a list section holds after [updateData], when the store accepts
    the write. *)
Lemma collection_after_update fits k l st :
  (forall d, fits d = true) -> state_wf st ->
  is_merged_section k = false -> k <> "__proto__" ->
  collection k (snd (updateData fits k (JArr l) st)) = Val (JArr l).
Proof.
  intros Hf Hwf Hm Hp. apply collection_list.
  apply getData_update_same; [apply wf_NoDup, Hwf | apply Hf | exact Hm | exact Hp].
Qed.

Lemma tasks_of_collection type st :
  tasks_of type st = collection (tasks_section type) st.
Proof.
  unfold tasks_of, tasks_section, getCleaningTasks, getMaintenanceTasks.
  destruct (String.eqb type "cleaning"); reflexivity.
Qed.

Lemma tasks_section_cases type :
  tasks_section type = "cleaningTasks" \/ tasks_section type = "maintenanceTasks".
Proof. unfold tasks_section. destruct (String.eqb type "cleaning"); auto. Qed.

(** X11: each delete operation persists the collection without the elements
    whose id is the given one, all of them, and with the others in their
    order. *)
Theorem delete_removes_every_match fits st id type meals tasks items :
  (forall d, fits d = true) -> state_wf st ->
  getMeals st = Val (JArr meals) -> forallb not_null meals = true ->
  tasks_of type st = Val (JArr tasks) -> forallb not_null tasks = true ->
  getShoppingList st = Val (JArr items) -> forallb not_null items = true ->
  getMeals (snd (deleteMeal fits id st))
    = Val (JArr (List.filter (fun x => negb (has_id id x)) meals))
  /\ tasks_of type (snd (deleteTask fits id type st))
     = Val (JArr (List.filter (fun x => negb (has_id id x)) tasks))
  /\ getShoppingList (snd (removeItem fits id st))
     = Val (JArr (List.filter (fun x => negb (has_id id x)) items)).
Proof.
  intros Hf Hwf Hm Nm Ht Nt Hi Ni.
  pose proof (fun l => js_filter_not_null (id_is_not id) _ l (id_is_not_spec id)) as F.
  split; [|split].
  - unfold deleteMeal. rewrite Hm. simpl as_array. rewrite bind_Return.
    rewrite (F _ Nm). simpl snd. unfold showSuccess, getMeals, collection.
    rewrite getData_emit. fold (collection "meals" (snd (updateData fits "meals"
      (JArr (List.filter (fun x => negb (has_id id x)) meals)) st))).
    apply collection_after_update; auto; try discriminate.
  - unfold deleteTask. rewrite Ht. simpl as_array. rewrite bind_Return.
    rewrite (F _ Nt). simpl snd. rewrite tasks_of_collection.
    unfold showSuccess, collection. rewrite getData_emit.
    fold (collection (tasks_section type) (snd (updateData fits (tasks_section type)
      (JArr (List.filter (fun x => negb (has_id id x)) tasks)) st))).
    destruct (tasks_section_cases type) as [-> | ->];
      apply collection_after_update; auto; try discriminate.
  - unfold removeItem. rewrite Hi. simpl as_array. rewrite bind_Return.
    rewrite (F _ Ni). simpl snd. unfold showSuccess, getShoppingList, collection.
    rewrite getData_emit. fold (collection "shoppingList" (snd (updateData fits "shoppingList"
      (JArr (List.filter (fun x => negb (has_id id x)) items)) st))).
    apply collection_after_update; auto; try discriminate.
Qed.

Lemma loaded_settings st ds :
  NoDup (keys (module_defaults st)) ->
  own (module_defaults st) "settings" = Some (JObj ds) -> NoDup (keys ds) ->
  exists x, getData "settings" st = Val (JObj (spread ds x)).
Proof.
  intros Hnd Ho Hn. rewrite (getData_read _ _ Hnd). unfold read_section.
  simpl is_merged_section. cbv iota. unfold obj_get. rewrite Ho.
  destruct (merged_from st) as [data|] eqn:Em.
  - destruct (loadData_cases st) as [[Hm _]|[data' [wp [se [Hm [_ [Hse _]]]]]]];
      [congruence|].
    assert (data' = data) by congruence. subst data'. rewrite Hse.
    rewrite (spread_nil_obj _ Hn). eauto.
  - exists Undefined. unfold spread. reflexivity.
Qed.

(** A write to another section leaves the settings as they were read. *)
Lemma getData_update_settings fits k v st :
  page_wf st -> k <> "settings" ->
  getData "settings" (snd (updateData fits k v st)) = getData "settings" st.
Proof.
  intros [Hwf [ds [Ho Hn]]] Hk. pose proof (wf_NoDup _ Hwf) as Hnd.
  destruct (fits (JObj (obj_assign (loadData st) k v))) eqn:Hf;
    [|apply getData_rejected, Hf].
  rewrite (getData_after_update _ _ _ _ _ Hnd Hf). simpl is_merged_section. cbv iota.
  rewrite (obj_get_ext (obj_assign (loadData st) k v) (loadData st))
    by (apply own_obj_assign_ne, Hk).
  fold (getData "settings" st).
  destruct (loaded_settings st ds Hnd Ho Hn) as [x Hx]. rewrite Hx.
  unfold obj_get. rewrite Ho. rewrite (spread_nil_obj _ Hn).
  rewrite (spread_spread _ _ Hn). reflexivity.
Qed.

(** X3: [updateData] changes what is read under the section it writes and
    under no other name, whether the store accepts the write or not. *)
Theorem updateData_frame fits k v st k' :
  page_wf st -> k <> k' ->
  getData k' (snd (updateData fits k v st)) = getData k' st.
Proof.
  intros Hwf Hk.
  destruct (String.eqb k' "weeklyPlan") eqn:Ew.
  { apply String.eqb_eq in Ew. subst k'.
    apply getData_update_plan; [apply Hwf | exact Hk]. }
  destruct (String.eqb k' "settings") eqn:Es.
  { apply String.eqb_eq in Es. subst k'.
    apply getData_update_settings; assumption. }
  apply getData_update_other; [apply wf_NoDup, Hwf | exact Hk |].
  unfold is_merged_section. rewrite Ew, Es. reflexivity.
Qed.

Lemma page_wf_fresh s : page_wf (fresh_page s).
Proof.
  split; [apply wf_fresh_page|]. eexists. split; [reflexivity|].
  apply (bool_decide_unpack _). vm_compute. reflexivity.
Qed.

Lemma updateData_frame_witness :
  getData "weeklyPlan"
    (snd (updateData unlimited "meals" (JArr []) sample_page))
  = getData "weeklyPlan" sample_page.
Proof.
  apply (updateData_frame unlimited "meals" (JArr []) sample_page "weeklyPlan");
    [apply page_wf_fresh | discriminate].
Defined.

Lemma delete_removes_every_match_witness :
  getMeals (snd (deleteMeal unlimited (JStr "m2") sample_page))
    = Val (JArr [meal_dal; meal_porridge])
  /\ tasks_of "cleaning" (snd (deleteTask unlimited (JStr "m2") "cleaning" sample_page))
     = Val (JArr sample_tasks)
  /\ getShoppingList (snd (removeItem unlimited (JStr "m2") sample_page))
     = Val (JArr sample_items).
Proof.
  exact (delete_removes_every_match unlimited sample_page (JStr "m2") "cleaning"
           sample_meals sample_tasks sample_items
           (fun _ => eq_refl) (wf_fresh_page _) eq_refl eq_refl eq_refl eq_refl
           eq_refl eq_refl).
Defined.

Lemma updateData_refused fits k v st :
  fits (JObj (obj_assign (loadData st) k v)) = false ->
  snd (updateData fits k v st) = emit quota_alert st.
Proof. intros H. unfold updateData, saveData. rewrite H. reflexivity. Qed.



(* ---------- toggles ---------- *)

Lemma js_find_inv p l : forall n i x,
  js_find p l n = Return (Some (i, x)) ->
  exists l1 l2, l = (l1 ++ x :: l2)%list /\ i = (n + length l1)%nat
    /\ Forall (fun y => p y = Return false) l1 /\ p x = Return true.
Proof.
  induction l as [|y l IH]; intros n i x; simpl; [discriminate|].
  destruct (p y) as [[|]|] eqn:E; simpl; try discriminate.
  - intros H. inversion H; subst. exists [], l. simpl.
    repeat split; auto; lia.
  - intros H. destruct (IH _ _ _ H) as (l1 & l2 & -> & -> & F & Hx).
    exists (y :: l1), l2. simpl. repeat split; auto; lia.
Qed.

Lemma js_find_middle p l1 x l2 : forall n,
  Forall (fun y => p y = Return false) l1 -> p x = Return true ->
  js_find p (l1 ++ x :: l2) n = Return (Some ((n + length l1)%nat, x)).
Proof.
  induction l1 as [|y l1 IH]; intros n F Hx; simpl.
  - rewrite Hx. simpl. rewrite Nat.add_0_r. reflexivity.
  - inversion F; subst. rewrite H1. simpl. rewrite IH by assumption.
    do 3 f_equal. lia.
Qed.

(** The element found keeps its place when it is replaced by a record with
    the same id. *)
Lemma js_find_replace id l i o o' :
  js_find (id_is id) l 0 = Return (Some (i, JObj o)) ->
  obj_get o' "id" = obj_get o "id" ->
  l !! i = Some (JObj o)
  /\ js_find (id_is id) (<[i := JObj o']> l) 0 = Return (Some (i, JObj o')).
Proof.
  intros H Hid. destruct (js_find_inv _ _ _ _ _ H) as (l1 & l2 & -> & -> & F & Hx).
  simpl. split.
  - rewrite lookup_app_r by lia. rewrite Nat.sub_diag. reflexivity.
  - replace (length l1) with (length l1 + 0)%nat at 1 by lia.
    rewrite insert_app_r. simpl.
    apply (js_find_middle _ _ _ _ 0%nat F).
    unfold id_is in *. simpl in *. rewrite Hid. exact Hx.
Qed.

Lemma obj_set_twice (o : obj) k v v' :
  obj_set (obj_set o k v) k v' = obj_set o k v'.
Proof.
  induction o as [|[k0 v0] o IH]; simpl.
  - rewrite eqb_refl_true. reflexivity.
  - destruct (String.eqb k0 k) eqn:E; simpl.
    + rewrite eqb_refl_true. reflexivity.
    + rewrite E, IH. reflexivity.
Qed.

Lemma store_at_collection fits k arr i x st :
  (forall d, fits d = true) -> state_wf st ->
  is_merged_section k = false -> k <> "__proto__" -> k <> "weeklyPlan" ->
  state_wf (store_at fits k arr i x st)
  /\ collection k (store_at fits k arr i x st) = Val (JArr (<[i := x]> arr)).
Proof.
  intros Hf Hwf Hm Hp Hk. split; [apply wf_store_at; assumption|].
  unfold store_at. apply collection_after_update; auto.
  destruct (collection_shared k st); [apply wf_write_section|]; assumption.
Qed.

Lemma toggleItemChecked_found fits id st items i item :
  getShoppingList st = Val (JArr items) ->
  js_find (id_is id) items 0 = Return (Some (i, JObj item)) ->
  toggleItemChecked fits id st =
    (Return (negb (truthy (obj_get item "checked"))),
     store_at fits "shoppingList" items i
       (JObj (obj_set item "checked"
                (JBool (negb (truthy (obj_get item "checked")))))) st).
Proof.
  intros Hi Hf. unfold toggleItemChecked. rewrite Hi. simpl as_array.
  rewrite bind_Return, Hf. reflexivity.
Qed.

Lemma toggleFavourite_found fits id st meals i meal :
  getMeals st = Val (JArr meals) ->
  js_find (id_is id) meals 0 = Return (Some (i, JObj meal)) ->
  toggleFavourite fits id st =
    (Return (negb (truthy (obj_get meal "favourite"))),
     store_at fits "meals" meals i
       (JObj (obj_set meal "favourite"
                (JBool (negb (truthy (obj_get meal "favourite")))))) st).
Proof.
  intros Hi Hf. unfold toggleFavourite. rewrite Hi. simpl as_array.
  rewrite bind_Return, Hf. reflexivity.
Qed.

(** X14: when the store accepts the writes, [toggleItemChecked] called twice
    on an item whose [checked] is a boolean returns its negation, then the
    boolean, and leaves the shopping list as it was before the two calls. *)
Theorem toggleItemChecked_twice fits st id items i item b :
  (forall d, fits d = true) -> state_wf st ->
  getShoppingList st = Val (JArr items) ->
  js_find (id_is id) items 0 = Return (Some (i, JObj item)) ->
  own item "checked" = Some (JBool b) ->
  fst (toggleItemChecked fits id st) = Return (negb b)
  /\ fst (toggleItemChecked fits id (snd (toggleItemChecked fits id st)))
     = Return b
  /\ getShoppingList
       (snd (toggleItemChecked fits id (snd (toggleItemChecked fits id st))))
     = Val (JArr items).
Proof.
  intros Hf Hwf Hi Hfind Hc.
  rewrite (toggleItemChecked_found _ _ _ _ _ _ Hi Hfind).
  rewrite (obj_get_own _ _ _ Hc). simpl truthy. simpl fst. simpl snd.
  set (item1 := obj_set item "checked" (JBool (negb b))).
  destruct (store_at_collection fits "shoppingList" items i (JObj item1) st
              Hf Hwf eq_refl ltac:(discriminate) ltac:(discriminate)) as [Hwf1 Hc1].
  destruct (js_find_replace id items i item item1 Hfind) as [Hl Hfind1].
  { apply obj_get_ext. unfold item1. apply own_obj_set_ne. discriminate. }
  fold (getShoppingList (store_at fits "shoppingList" items i (JObj item1) st)) in Hc1.
  rewrite (toggleItemChecked_found _ _ _ _ _ _ Hc1 Hfind1).
  assert (E : obj_get item1 "checked" = Val (JBool (negb b))).
  { apply obj_get_own. unfold item1. apply own_obj_set_eq. }
  rewrite E. simpl truthy. rewrite negb_involutive. simpl fst. simpl snd.
  split; [reflexivity|]. split; [reflexivity|].
  unfold item1. rewrite obj_set_twice, (obj_set_same _ _ _ Hc).
  destruct (store_at_collection fits "shoppingList"
              (<[i:=JObj item1]> items) i (JObj item)
              (store_at fits "shoppingList" items i (JObj item1) st)
              Hf Hwf1 eq_refl ltac:(discriminate) ltac:(discriminate)) as [_ Hc2].
  unfold getShoppingList. fold item1. rewrite Hc2.
  rewrite list_insert_insert_eq, (list_insert_id _ _ _ Hl). reflexivity.
Qed.

Lemma toggleItemChecked_twice_witness :
  fst (toggleItemChecked unlimited (JStr "i1") sample_page) = Return true
  /\ fst (toggleItemChecked unlimited (JStr "i1")
            (snd (toggleItemChecked unlimited (JStr "i1") sample_page)))
     = Return false
  /\ getShoppingList
       (snd (toggleItemChecked unlimited (JStr "i1")
               (snd (toggleItemChecked unlimited (JStr "i1") sample_page))))
     = Val (JArr sample_items).
Proof.
  exact (toggleItemChecked_twice unlimited sample_page (JStr "i1") sample_items 0
           [ ("id", JStr "i1"); ("name", JStr "RICE"); ("checked", JBool false) ]
           false (fun _ => eq_refl) (wf_fresh_page _) eq_refl eq_refl eq_refl).
Defined.

(** X13: [toggleFavourite] on a meal that is found returns the negation of
    its [favourite] flag (a missing flag counts as false) and persists the
    meal with that flag and its other fields as they were, at the same
    place of the collection; the next call returns the flag negated back. *)
Theorem toggleFavourite_flips fits st id meals i meal :
  (forall d, fits d = true) -> state_wf st ->
  getMeals st = Val (JArr meals) ->
  js_find (id_is id) meals 0 = Return (Some (i, JObj meal)) ->
  let f := truthy (obj_get meal "favourite") in
  let st1 := snd (toggleFavourite fits id st) in
  fst (toggleFavourite fits id st) = Return (negb f)
  /\ getMeals st1
     = Val (JArr (<[i := JObj (obj_set meal "favourite" (JBool (negb f)))]> meals))
  /\ fst (toggleFavourite fits id st1) = Return f.
Proof.
  intros Hf Hwf Hm Hfind f st1. unfold st1.
  rewrite (toggleFavourite_found _ _ _ _ _ _ Hm Hfind). fold f.
  simpl fst. simpl snd.
  set (meal1 := obj_set meal "favourite" (JBool (negb f))).
  destruct (store_at_collection fits "meals" meals i (JObj meal1) st
              Hf Hwf eq_refl ltac:(discriminate) ltac:(discriminate)) as [Hwf1 Hc1].
  destruct (js_find_replace id meals i meal meal1 Hfind) as [Hl Hfind1].
  { apply obj_get_ext. unfold meal1. apply own_obj_set_ne. discriminate. }
  fold (getMeals (store_at fits "meals" meals i (JObj meal1) st)) in Hc1.
  split; [reflexivity|]. split; [exact Hc1|].
  rewrite (toggleFavourite_found _ _ _ _ _ _ Hc1 Hfind1).
  assert (E : obj_get meal1 "favourite" = Val (JBool (negb f))).
  { apply obj_get_own. unfold meal1. apply own_obj_set_eq. }
  rewrite E. simpl. rewrite negb_involutive. reflexivity.
Qed.

Lemma toggleFavourite_flips_witness :
  fst (toggleFavourite unlimited (JStr "m2") sample_page) = Return true
  /\ getMeals (snd (toggleFavourite unlimited (JStr "m2") sample_page))
     = Val (JArr [ meal_dal;
                   JObj [ ("id", JStr "m2"); ("title", JStr "Roast");
                          ("type", JStr "dinner"); ("dietary", JArr []);
                          ("mainIngredients", JArr [JStr "chicken"]);
                          ("ingredients", JArr [JStr "Chicken"; JStr "onion"]);
                          ("favourite", JBool true) ];
                   meal_porridge ])
  /\ fst (toggleFavourite unlimited (JStr "m2")
            (snd (toggleFavourite unlimited (JStr "m2") sample_page)))
     = Return false.
Proof.
  exact (toggleFavourite_flips unlimited sample_page (JStr "m2") sample_meals 1
           [ ("id", JStr "m2"); ("title", JStr "Roast"); ("type", JStr "dinner");
             ("dietary", JArr []); ("mainIngredients", JArr [JStr "chicken"]);
             ("ingredients", JArr [JStr "Chicken"; JStr "onion"]) ]
           (fun _ => eq_refl) (wf_fresh_page _) eq_refl eq_refl).
Defined.

(* ---------- checked items ---------- *)

Lemma filter_filter_same {A} (f : A -> bool) l :
  List.filter f (List.filter f l) = List.filter f l.
Proof.
  induction l as [|x l IH]; simpl; [reflexivity|].
  destruct (f x) eqn:E; simpl; rewrite ?E, IH; reflexivity.
Qed.

Lemma forallb_filter {A} (f g : A -> bool) l :
  forallb f l = true -> forallb f (List.filter g l) = true.
Proof.
  induction l as [|x l IH]; simpl; [reflexivity|].
  intros H. apply andb_true_iff in H. destruct H as [H1 H2].
  destruct (g x); simpl; rewrite ?H1; auto.
Qed.

(** X15: when the store accepts the write, [clearCheckedItems] returns and
    persists the items that are not checked, in their order, and a second
    call finds nothing more to clear. *)
Theorem clearCheckedItems_keeps_unchecked fits st items :
  (forall d, fits d = true) -> state_wf st ->
  getShoppingList st = Val (JArr items) -> forallb not_null items = true ->
  let kept := List.filter (fun x => negb (is_checked x)) items in
  let st1 := snd (clearCheckedItems fits st) in
  fst (clearCheckedItems fits st) = Return kept
  /\ getShoppingList st1 = Val (JArr kept)
  /\ fst (clearCheckedItems fits st1) = Return kept.
Proof.
  intros Hf Hwf Hi Ni kept st1.
  pose proof (fun l => js_filter_not_null not_checked _ l not_checked_spec) as G.
  assert (E : clearCheckedItems fits st
              = (Return kept,
                 showSuccess "Checked items cleared!"
                   (snd (updateData fits "shoppingList" (JArr kept) st)))).
  { unfold clearCheckedItems. rewrite Hi. simpl as_array.
    rewrite bind_Return, (G _ Ni). reflexivity. }
  assert (H1 : getShoppingList st1 = Val (JArr kept)).
  { unfold st1. rewrite E. simpl snd. unfold showSuccess, getShoppingList, collection.
    rewrite getData_emit.
    fold (collection "shoppingList" (snd (updateData fits "shoppingList" (JArr kept) st))).
    apply collection_after_update; auto; discriminate. }
  assert (Nk : forallb not_null kept = true) by (apply forallb_filter, Ni).
  split; [rewrite E; reflexivity|]. split; [exact H1|].
  unfold clearCheckedItems. rewrite H1. simpl as_array.
  rewrite bind_Return, (G _ Nk). unfold kept. rewrite filter_filter_same.
  reflexivity.
Qed.

Lemma clearCheckedItems_keeps_unchecked_witness :
  fst (clearCheckedItems unlimited page_with_items)
    = Return (List.filter (fun x => negb (is_checked x)) listed_items)
  /\ getShoppingList (snd (clearCheckedItems unlimited page_with_items))
     = Val (JArr (List.filter (fun x => negb (is_checked x)) listed_items)).
Proof.
  destruct (clearCheckedItems_keeps_unchecked unlimited page_with_items
              listed_items (fun _ => eq_refl) (wf_fresh_page _) eq_refl eq_refl)
    as [H1 [H2 _]].
  split; [exact H1 | exact H2].
Defined.

(* ================================================================= *)
(** ** The planner *)

Lemma filter_as_bool (mealId : json) ids :
  filter (fun id => strict_eq (Val id) mealId = false) ids
  = List.filter (fun id => negb (strict_eq (Val id) mealId)) ids.
Proof.
  induction ids as [|x ids IH]; [reflexivity|].
  rewrite filter_cons, IH. cbn [List.filter].
  destruct (strict_eq (Val x) mealId) eqn:E; cbn [negb].
  - rewrite decide_False by discriminate. reflexivity.
  - rewrite decide_True by reflexivity. reflexivity.
Qed.

Lemma obj_assign_own o k v : has_own o k = true -> obj_assign o k v = obj_set o k v.
Proof.
  intros H. unfold obj_assign. rewrite H, andb_false_r. reflexivity.
Qed.

Lemma obj_assign_not_proto o k v : k <> "__proto__" -> obj_assign o k v = obj_set o k v.
Proof.
  intros H. unfold obj_assign. apply String.eqb_neq in H. rewrite H. reflexivity.
Qed.

(** The plan after [plan[day] = v; updateData('weeklyPlan', plan)], when
    the store accepts the write. *)
Lemma plan_after_assign fits day v st :
  state_wf st -> (forall d, fits d = true) ->
  obj_assign (plan_props st) day v = obj_set (plan_props st) day v ->
  let st1 := plan_write day v st in
  let st2 := snd (updateData fits "weeklyPlan"
                    (JObj (obj_assign (plan_props st) day v)) st1) in
  state_wf st2
  /\ own (plan_props st2) day = Some v
  /\ forall d, d <> day -> own (plan_props st2) d = own (plan_props st) d.
Proof.
  intros Hwf Hf Ha st1 st2. pose proof Hwf as [Hnd [dwp [Ho [Hn Hdays]]]].
  destruct (plan_props_shape st Hwf) as [HnP _].
  destruct (plan_props_spec st dwp Hwf Ho) as [x [HP _]].
  assert (H1 : state_wf st1) by (apply wf_plan_write, Hwf).
  set (p1 := obj_assign (plan_props st) day v) in *.
  assert (Hp1 : NoDup (keys p1)) by (apply NoDup_obj_assign, HnP).
  assert (Hdwp1 : exists dwp1, own (module_defaults st1) "weeklyPlan" = Some (JObj dwp1)
                    /\ forall d, own p1 d = None -> own dwp1 d = None).
  { unfold st1, plan_write. destruct (plan_shared st).
    - exists p1. split; [apply own_obj_set_eq | auto].
    - exists dwp. split; [exact Ho|]. intros d Hd.
      assert (E : own (plan_props st) d = None).
      { rewrite Ha in Hd. rewrite own_obj_set in Hd.
        destruct (String.eqb day d); [discriminate | exact Hd]. }
      rewrite HP in E. rewrite own_spread in E.
      destruct (own (rev (own_props x)) d); [discriminate | exact E]. }
  destruct Hdwp1 as [dwp1 [Ho1 Hnone]].
  pose proof (plan_after_update fits p1 st1 dwp1 H1 Ho1 (Hf _)) as Hplan.
  fold st2 in Hplan. split; [apply wf_updateData, H1|].
  rewrite Hplan. split.
  - rewrite (own_spread_obj _ _ _ Hp1). rewrite Ha, own_obj_set_eq.
    reflexivity.
  - intros d Hne. rewrite (own_spread_obj _ _ _ Hp1).
    destruct (own p1 d) eqn:E.
    + rewrite Ha, own_obj_set_ne in E by congruence. congruence.
    + rewrite (Hnone d E).
      rewrite Ha, own_obj_set_ne in E by congruence. congruence.
Qed.

Lemma getMealsForDay_own day st l :
  own (plan_props st) day = Some (JArr l) -> getMealsForDay day st = Val (JArr l).
Proof. intros H. unfold getMealsForDay. rewrite (obj_get_own _ _ _ H). reflexivity. Qed.

Lemma obj_get_Val_own o k v : obj_get o k = Val v -> own o k = Some v.
Proof.
  unfold obj_get. destruct (own o k); [congruence|].
  destruct (inherited k); discriminate.
Qed.

(** X19: when the day has a list, [removeMealFromDay] returns [true], also
    when the id is not in the list, and (the store accepting the write) the
    day's list is read back without any occurrence of the id, the other ids
    in their order, and the other days as they were; when the day has no
    list it returns [false] and changes nothing. *)
Theorem removeMealFromDay_removes fits day mealId st :
  state_wf st -> (forall d, fits d = true) ->
  (forall ids, obj_get (plan_props st) day = Val (JArr ids) ->
     let st' := snd (removeMealFromDay fits day mealId st) in
     fst (removeMealFromDay fits day mealId st) = Return true
     /\ getMealsForDay day st'
        = Val (JArr (List.filter (fun id => negb (strict_eq (Val id) mealId)) ids))
     /\ forall d, d <> day -> own (plan_props st') d = own (plan_props st) d)
  /\ (truthy (obj_get (plan_props st) day) = false ->
      removeMealFromDay fits day mealId st = (Return false, st)).
Proof.
  intros Hwf Hf. split.
  - intros ids Hd st'. unfold st'. clear st'.
    pose proof (obj_get_Val_own _ _ _ Hd) as Ho.
    assert (Ha : forall v, obj_assign (plan_props st) day v = obj_set (plan_props st) day v).
    { intros v. apply obj_assign_own. unfold has_own. rewrite Ho. reflexivity. }
    unfold removeMealFromDay. rewrite Hd. simpl truthy. cbv iota. simpl as_array.
    cbv iota. rewrite filter_as_bool.
    set (kept := JArr (List.filter (fun id => negb (strict_eq (Val id) mealId)) ids)).
    destruct (plan_after_assign fits day kept st Hwf Hf (Ha kept)) as [_ [H1 H2]].
    destruct (updateData fits "weeklyPlan" (JObj (obj_assign (plan_props st) day kept))
                (plan_write day kept st)) as [b st2] eqn:EU.
    simpl in H1, H2 |- *. split; [reflexivity|]. split.
    + apply getMealsForDay_own. unfold showSuccess. rewrite plan_props_emit. exact H1.
    + intros d Hne. unfold showSuccess. rewrite plan_props_emit. apply H2, Hne.
  - intros Hd. unfold removeMealFromDay. rewrite Hd. reflexivity.
Qed.

Lemma removeMealFromDay_removes_witness :
  fst (removeMealFromDay unlimited "Tuesday" (JStr "m2") sample_page) = Return true
  /\ getMealsForDay "Tuesday"
       (snd (removeMealFromDay unlimited "Tuesday" (JStr "m2") sample_page))
     = Val (JArr [JStr "m1"])
  /\ removeMealFromDay unlimited "Funday" (JStr "m2") sample_page
     = (Return false, sample_page).
Proof.
  destruct (removeMealFromDay_removes unlimited "Tuesday" (JStr "m2") sample_page
              (wf_fresh_page _) (fun _ => eq_refl)) as [H _].
  destruct (H [JStr "m2"; JStr "m1"] eq_refl) as [H1 [H2 _]].
  destruct (removeMealFromDay_removes unlimited "Funday" (JStr "m2") sample_page
              (wf_fresh_page _) (fun _ => eq_refl)) as [_ H3].
  split; [exact H1|]. split; [exact H2 | apply H3; reflexivity].
Defined.

(** X20: after [clearDay] (the store accepting the write) the day's list is
    read back empty, the other days are as they were, and [addMealToDay]
    accepts any meal for that day. *)
Theorem clearDay_empties fits day st :
  state_wf st -> (forall d, fits d = true) -> day <> "__proto__" ->
  let st' := clearDay fits day st in
  getMealsForDay day st' = Val (JArr [])
  /\ (forall d, d <> day -> own (plan_props st') d = own (plan_props st) d)
  /\ (forall mealId, fst (addMealToDay fits day mealId st') = Return true).
Proof.
  intros Hwf Hf Hp st'. unfold st'. clear st'.
  pose proof (plan_after_assign fits day (JArr []) st Hwf Hf
                (obj_assign_not_proto _ _ _ Hp)) as H.
  pose proof (wf_clearDay fits day st Hwf) as Hwf'.
  unfold clearDay in *.
  destruct (updateData fits "weeklyPlan" (JObj (obj_assign (plan_props st) day (JArr [])))
              (plan_write day (JArr []) st)) as [b st2] eqn:EU.
  simpl in H. destruct H as [_ [H1 H2]].
  unfold showSuccess in *. rewrite plan_props_emit.
  split; [apply getMealsForDay_own; rewrite plan_props_emit; exact H1|].
  split; [exact H2|].
  intros mealId.
  apply (addMealToDay_appends fits day mealId _ [] Hwf' Hf).
  - apply obj_get_own. rewrite plan_props_emit. exact H1.
  - reflexivity.
Qed.

Lemma clearDay_empties_witness :
  getMealsForDay "Tuesday" (clearDay unlimited "Tuesday" sample_page) = Val (JArr [])
  /\ own (plan_props (clearDay unlimited "Tuesday" sample_page)) "Monday"
     = Some (JArr [JStr "m1"]).
Proof.
  destruct (clearDay_empties unlimited "Tuesday" sample_page (wf_fresh_page _)
              (fun _ => eq_refl) ltac:(discriminate)) as [H1 [H2 _]].
  split; [exact H1|]. rewrite (H2 "Monday") by discriminate. reflexivity.
Defined.

(** X21: after [clearWeek] (the store accepting the write) each of the seven
    days is read back with an empty list; and on a page whose default plan
    has the seven days only, the plan read back is the seven empty days and
    nothing else: a key that an import or a call with another day name had
    added is gone. *)
Theorem clearWeek_seven_empty_days fits st dwp :
  state_wf st -> (forall d, fits d = true) ->
  own (module_defaults st) "weeklyPlan" = Some (JObj dwp) ->
  (forall day, In day DAYS -> getMealsForDay day (clearWeek fits st) = Val (JArr []))
  /\ (keys dwp = DAYS -> plan_props (clearWeek fits st) = empty_week).
Proof.
  intros Hwf Hf Ho.
  pose proof (plan_after_update fits empty_week st dwp Hwf Ho (Hf _)) as Hplan.
  assert (E : plan_props (clearWeek fits st) = spread dwp (Val (JObj empty_week))).
  { unfold clearWeek.
    change (fold_left (fun p day => obj_assign p day (JArr [])) DAYS []) with empty_week.
    destruct (updateData fits "weeklyPlan" (JObj empty_week) st) as [b st1].
    unfold showSuccess. rewrite plan_props_emit. exact Hplan. }
  assert (Hn : NoDup (keys empty_week))
    by (apply (bool_decide_unpack _); vm_compute; reflexivity).
  split.
  - intros day Hin. apply getMealsForDay_own. rewrite E, (own_spread_obj _ _ _ Hn).
    simpl in Hin. repeat (destruct Hin as [<-|Hin]; [reflexivity|]). contradiction.
  - intros Hk. rewrite E. apply (spread_absorb dwp empty_week []); [exact Hn|].
    rewrite Hk, app_nil_r. reflexivity.
Qed.

Lemma clearWeek_seven_empty_days_witness :
  keys (plan_props page_after_import) = (DAYS ++ ["Funday"])%list
  /\ plan_props (clearWeek unlimited page_after_import) = empty_week.
Proof.
  split; [reflexivity|].
  destruct (clearWeek_seven_empty_days unlimited page_after_import _
              (wf_run _ _ _ _ _ (wf_fresh_page _)) (fun _ => eq_refl) eq_refl)
    as [_ H].
  apply H. reflexivity.
Defined.

(* ---------- the day of the week ---------- *)

Lemma weekday_name_DAYS t : In (weekday_name (WeekDay t)) DAYS.
Proof.
  unfold WeekDay. pose proof (Z.mod_pos_bound (JSDate.Day t + 4) 7 ltac:(lia)) as H.
  set (w := ((JSDate.Day t + 4) mod 7)%Z) in *. clearbody w.
  assert (C : (w = 0 \/ w = 1 \/ w = 2 \/ w = 3 \/ w = 4 \/ w = 5 \/ w = 6)%Z) by lia.
  repeat (destruct C as [C|C]); subst w; simpl; tauto.
Qed.

(** X22: [getDayOfWeek] reads a date-only text as midnight UTC and names the
    day in local time: in a zone at or ahead of UTC (by less than a day) it
    is the weekday of the date, and in a zone behind UTC it is the weekday
    before.  Without an argument the name is one of the planner's seven
    days, so that [getTodaysMeals] reads a list that the plan has. *)
Theorem getDayOfWeek_date_only zone off other now :
  (forall u b, zone u b = off) ->
  (forall s d, day_number s = Some d ->
     getDayOfWeek zone other now (Val (JStr s))
     = weekday_name ((d + 4 + off / JSDate.msPerDay) mod 7))
  /\ In (getDayOfWeek zone other now Undefined) DAYS
  /\ (forall st, state_wf st ->
        exists v, own (plan_props st) (getDayOfWeek zone other now Undefined) = Some v
                  /\ getTodaysMeals zone other now st = or_else (Val v) (JArr [])).
Proof.
  intros Hz. split; [|split].
  - intros s d Hs. unfold getDayOfWeek. simpl truthy.
    rewrite (day_number_nonempty _ _ Hs). simpl negb. cbv iota.
    destruct (day_number_spec _ _ Hs) as [P _].
    pose proof (day_number_range _ _ Hs) as R.
    unfold JSDate.new_Date, JSDate.Date_parse. rewrite P. simpl.
    unfold JSDate.TimeClip.
    replace (Z.abs (d * JSDate.msPerDay) <=? 8640000000000000)%Z with true
      by (symmetry; apply Z.leb_le; unfold JSDate.msPerDay; lia).
    unfold WeekDay, JSDate.LocalTime, JSDate.Day. rewrite Hz.
    rewrite Z.div_add_l by (unfold JSDate.msPerDay; lia).
    do 2 f_equal. lia.
  - unfold getDayOfWeek. simpl. apply weekday_name_DAYS.
  - intros st Hwf. destruct (plan_props_shape st Hwf) as [_ Hd].
    rewrite Forall_forall in Hd.
    assert (Hin : In (getDayOfWeek zone other now Undefined) DAYS)
      by (unfold getDayOfWeek; simpl; apply weekday_name_DAYS).
    specialize (Hd _ (proj2 (list_elem_of_In _ _) Hin)). simpl in Hd.
    unfold has_own in Hd.
    destruct (own (plan_props st) (getDayOfWeek zone other now Undefined)) as [v|] eqn:E;
      [|discriminate].
    exists v. split; [reflexivity|]. unfold getTodaysMeals.
    rewrite (obj_get_own _ _ _ E). reflexivity.
Qed.

Lemma getDayOfWeek_date_only_witness :
  getDayOfWeek zone_utc no_other_format 0 (Val (JStr "2024-03-25")) = "Monday"
  /\ getDayOfWeek zone_minus_5 no_other_format 0 (Val (JStr "2024-03-25")) = "Sunday".
Proof.
  split.
  - destruct (getDayOfWeek_date_only zone_utc 0 no_other_format 0 (fun _ _ => eq_refl))
      as [H _].
    rewrite (H "2024-03-25" 19807%Z eq_refl). reflexivity.
  - destruct (getDayOfWeek_date_only zone_minus_5 (-18000000) no_other_format 0
                (fun _ _ => eq_refl)) as [H _].
    rewrite (H "2024-03-25" 19807%Z eq_refl). reflexivity.
Defined.

(* ================================================================= *)
(** ** The stored document: loading, initialising, exporting *)

Lemma spread_undefined o : spread o Undefined = o.
Proof. reflexivity. Qed.

(** The shape of the document that [loadData] returns: the keys of the
    defaults first, a plan and settings that extend those of the
    defaults. *)
Lemma loadData_shape st dwp ds :
  state_wf st ->
  own (module_defaults st) "weeklyPlan" = Some (JObj dwp) ->
  own (module_defaults st) "settings" = Some (JObj ds) -> NoDup (keys ds) ->
  exists extra x y,
    keys (loadData st) = (keys (module_defaults st) ++ extra)%list
    /\ own (loadData st) "weeklyPlan" = Some (JObj (spread dwp x))
    /\ own (loadData st) "settings" = Some (JObj (spread ds y)).
Proof.
  intros Hwf Ho Hs Hns. pose proof Hwf as [Hnd [dwp' [Ho' [Hn Hdays]]]].
  assert (dwp' = dwp) by congruence. subst dwp'.
  destruct (loadData_cases st) as [[Hm Hl]|[data [wp [se [Hm [Hw [Hse Hl]]]]]]];
    rewrite Hl.
  - unfold copy_defaults. rewrite (spread_nil_obj _ Hnd).
    exists [], Undefined, Undefined. rewrite app_nil_r. auto.
  - rewrite (spread_nil_obj _ Hnd).
    rewrite (obj_get_own _ _ _ Ho), (obj_get_own _ _ _ Hs).
    rewrite (spread_nil_obj _ Hn), (spread_nil_obj _ Hns).
    destruct (keys_fold_set_app (own_props (Val data)) (module_defaults st)) as [e He].
    exists e, wp, se.
    assert (Hw1 : has_own (spread (module_defaults st) (Val data)) "weeklyPlan" = true).
    { apply has_own_spread_mono. unfold has_own. rewrite Ho. reflexivity. }
    assert (Hs1 : has_own (spread (module_defaults st) (Val data)) "settings" = true).
    { apply has_own_spread_mono. unfold has_own. rewrite Hs. reflexivity. }
    split; [|split].
    + rewrite !keys_obj_set. rewrite has_own_obj_set, Hs1, Hw1, orb_true_r. exact He.
    + rewrite own_obj_set_ne by discriminate. apply own_obj_set_eq.
    + apply own_obj_set_eq.
Qed.

(** The merge gives back a document that has the keys of the defaults
    first, and whose plan and settings have those of the defaults'. *)
Lemma merge_defaults_absorb D X dwp ds p s extra e1 e2 :
  NoDup (keys D) ->
  own D "weeklyPlan" = Some (JObj dwp) -> own D "settings" = Some (JObj ds) ->
  NoDup (keys X) -> keys X = (keys D ++ extra)%list ->
  own X "weeklyPlan" = Some (JObj p) -> NoDup (keys p) ->
  keys p = (keys dwp ++ e1)%list ->
  own X "settings" = Some (JObj s) -> NoDup (keys s) ->
  keys s = (keys ds ++ e2)%list ->
  merge_defaults D (JObj X) = Return X.
Proof.
  intros HD Hw Hs HX HkX Hp Hnp Hkp Hse Hns Hks.
  rewrite merge_defaults_object. f_equal.
  rewrite (spread_nil_obj _ HD), (spread_absorb _ _ _ HX HkX).
  rewrite (obj_get_own _ _ _ Hw), (obj_get_own _ _ _ Hs).
  rewrite (obj_get_own _ _ _ Hp), (obj_get_own _ _ _ Hse).
  assert (Hdwp : NoDup (keys dwp)).
  { rewrite Hkp in Hnp. apply NoDup_app in Hnp. apply Hnp. }
  assert (Hds : NoDup (keys ds)).
  { rewrite Hks in Hns. apply NoDup_app in Hns. apply Hns. }
  rewrite (spread_nil_obj _ Hdwp), (spread_nil_obj _ Hds).
  rewrite (spread_absorb _ _ _ Hnp Hkp), (spread_absorb _ _ _ Hns Hks).
  rewrite (obj_set_same _ _ _ Hp). apply obj_set_same. exact Hse.
Qed.

Lemma keys_spread_app target src :
  exists extra, keys (spread target src) = (keys target ++ extra)%list.
Proof. apply keys_fold_set_app. Qed.

Lemma merge_loaded st :
  page_wf st ->
  merge_defaults (module_defaults st) (JObj (loadData st)) = Return (loadData st).
Proof.
  intros [Hwf [ds [Hs Hns]]]. pose proof Hwf as [Hnd [dwp [Ho [Hn Hdays]]]].
  destruct (loadData_shape st dwp ds Hwf Ho Hs Hns) as (extra & x & y & Hk & Hp & Hse).
  destruct (keys_spread_app dwp x) as [e1 He1].
  destruct (keys_spread_app ds y) as [e2 He2].
  eapply merge_defaults_absorb; eauto using NoDup_loadData, NoDup_spread.
Qed.

(** X2: saving the document that [loadData] returned and loading again
    gives that document. *)
Theorem load_save_load fits st :
  page_wf st -> fits (JObj (loadData st)) = true ->
  loadData (snd (saveData fits (loadData st) st)) = loadData st.
Proof.
  intros Hwf Hf. rewrite (loadData_after_save _ _ _ Hf).
  rewrite (merge_loaded _ Hwf). reflexivity.
Qed.

Lemma load_save_load_witness :
  loadData (snd (saveData unlimited (loadData page_after_import) page_after_import))
  = loadData page_after_import.
Proof.
  apply (load_save_load unlimited page_after_import); [|reflexivity].
  split; [apply wf_run, wf_fresh_page|].
  eexists. split; [reflexivity|].
  apply (bool_decide_unpack _). vm_compute. reflexivity.
Defined.

Lemma merge_scalar D j dwp ds :
  NoDup (keys D) ->
  own D "weeklyPlan" = Some (JObj dwp) -> NoDup (keys dwp) ->
  own D "settings" = Some (JObj ds) -> NoDup (keys ds) ->
  match j with JBool _ | JNum _ => True | _ => False end ->
  merge_defaults D j = Return D.
Proof.
  intros HD Hw Hnw Hs Hns Hj.
  assert (E : merge_defaults D j =
              Return (obj_set (obj_set (spread (spread [] (Val (JObj D))) (Val j))
                        "weeklyPlan" (JObj (spread (spread [] (obj_get D "weeklyPlan")) Undefined)))
                        "settings" (JObj (spread (spread [] (obj_get D "settings")) Undefined)))).
  { destruct j; try contradiction; reflexivity. }
  rewrite E. f_equal.
  assert (E2 : spread (spread [] (Val (JObj D))) (Val j) = D).
  { rewrite (spread_nil_obj _ HD). destruct j; try contradiction; reflexivity. }
  rewrite E2, (obj_get_own _ _ _ Hw), (obj_get_own _ _ _ Hs).
  rewrite !spread_undefined, (spread_nil_obj _ Hnw), (spread_nil_obj _ Hns).
  rewrite (obj_set_same _ _ _ Hw). apply obj_set_same, Hs.
Qed.

Lemma loadData_no_document st :
  page_wf st -> no_document (localStorage st) = true ->
  loadData st = module_defaults st.
Proof.
  intros [Hwf [ds [Hs Hns]]] Hno. pose proof Hwf as [Hnd [dwp [Ho [Hn Hdays]]]].
  unfold loadData, copy_defaults.
  destruct (localStorage st) as [[j|]|]; try apply (spread_nil_obj _ Hnd).
  destruct j; try discriminate; try apply (spread_nil_obj _ Hnd);
    rewrite (merge_scalar _ _ dwp ds); auto.
Qed.

(** X1: when the store holds no document (no text under the key, a text
    that does not parse, or the text of [null], of a boolean or of a
    number), [loadData] returns the defaults as they are in memory; on a
    page that has just evaluated the module, this is the document written
    in the module. *)
Theorem loadData_without_document st :
  page_wf st -> no_document (localStorage st) = true ->
  loadData st = module_defaults st
  /\ (module_defaults st = defaultData -> loadData st = defaultData).
Proof.
  intros Hwf Hno. pose proof (loadData_no_document st Hwf Hno) as E.
  split; [exact E | congruence].
Qed.

Lemma loadData_without_document_witness :
  loadData (fresh_page (Some BadText)) = defaultData
  /\ loadData (fresh_page (Some (JsonText (JNum 5)))) = defaultData.
Proof.
  split.
  - apply (loadData_without_document (fresh_page (Some BadText)));
      [apply page_wf_fresh | reflexivity | reflexivity].
  - apply (loadData_without_document (fresh_page (Some (JsonText (JNum 5)))));
      [apply page_wf_fresh | reflexivity | reflexivity].
Defined.

Lemma merge_defaults_self D :
  defaults_wf D -> settings_wf D -> merge_defaults D (JObj D) = Return D.
Proof.
  intros [Hnd [dwp [Ho [Hn Hdays]]]] [ds [Hs Hns]].
  apply (merge_defaults_absorb D D dwp ds dwp ds [] [] []); auto;
    rewrite app_nil_r; reflexivity.
Qed.

(** X4: [initStorage] does not change what [loadData] returns.  It leaves a
    store that holds a document as it is and returns what [loadData]
    returns; into a store that holds nothing it writes the defaults (when
    storage is available and accepts the write), and the document it
    returns has their content. *)
Theorem initStorage_keeps_loaded fits available empty_text st :
  page_wf st ->
  loadData (snd (initStorage fits available empty_text st)) = loadData st
  /\ (forall j, localStorage st = Some (JsonText j) ->
        initStorage fits available empty_text st
        = (if available then loadData st else module_defaults st, st))
  /\ (localStorage st = None -> available = true ->
      fits (JObj (module_defaults st)) = true ->
      localStorage (snd (initStorage fits available empty_text st))
        = Some (JsonText (JObj (module_defaults st)))
      /\ fst (initStorage fits available empty_text st) = loadData st).
Proof.
  intros Hwf. pose proof Hwf as [Hwf1 Hwf2]. pose proof (wf_NoDup _ Hwf1) as Hnd.
  assert (S : forall st', localStorage st' = localStorage st ->
                module_defaults st' = module_defaults st -> loadData st' = loadData st).
  { intros st' H1 H2. unfold loadData, copy_defaults. rewrite H1, H2. reflexivity. }
  assert (SV : no_document (localStorage st) = true ->
               loadData (snd (saveData fits (module_defaults st) st)) = loadData st).
  { intros Hno. pose proof (loadData_no_document st Hwf Hno) as E.
    destruct (fits (JObj (module_defaults st))) eqn:Hf.
    - rewrite (loadData_after_save _ _ _ Hf), (merge_defaults_self _ Hwf1 Hwf2).
      symmetry. exact E.
    - unfold saveData. rewrite Hf. apply S; reflexivity. }
  split; [|split].
  - unfold initStorage. destruct available; simpl negb; cbv iota; [|reflexivity].
    destruct (localStorage st) as [[j|]|] eqn:El; simpl snd; try reflexivity.
    + destruct empty_text; [|reflexivity]. apply SV. reflexivity.
    + apply SV. reflexivity.
  - intros j Hj. unfold initStorage. rewrite Hj. destruct available; reflexivity.
  - intros Hn -> Hf. unfold initStorage. rewrite Hn. simpl.
    unfold saveData. rewrite Hf. simpl. split; [reflexivity|].
    symmetry. apply (loadData_no_document st Hwf). rewrite Hn. reflexivity.
Qed.

Lemma initStorage_keeps_loaded_witness :
  localStorage (snd (initStorage unlimited true false (fresh_page None)))
    = Some (JsonText (JObj defaultData))
  /\ loadData (snd (initStorage unlimited true false (fresh_page None)))
     = loadData (fresh_page None)
  /\ initStorage unlimited true false sample_page = (loadData sample_page, sample_page).
Proof.
  destruct (initStorage_keeps_loaded unlimited true false (fresh_page None)
              (page_wf_fresh _)) as [H1 [_ H3]].
  destruct (initStorage_keeps_loaded unlimited true false sample_page
              (page_wf_fresh _)) as [_ [H2 _]].
  split; [apply H3; reflexivity|]. split; [exact H1|].
  exact (H2 _ eq_refl).
Defined.

(* ---------- export ---------- *)

Lemma keys_obj_set_app o k v :
  exists extra, keys (obj_set o k v) = (keys o ++ extra)%list.
Proof.
  rewrite keys_obj_set. destruct (has_own o k).
  - exists []. rewrite app_nil_r. reflexivity.
  - eauto.
Qed.

Lemma exported_doc_absorbed st v :
  page_wf st ->
  merge_defaults (module_defaults st) (JObj (obj_set (loadData st) "exportDate" v))
  = Return (obj_set (loadData st) "exportDate" v).
Proof.
  intros [Hwf [ds [Hs Hns]]]. pose proof Hwf as [Hnd [dwp [Ho [Hn Hdays]]]].
  destruct (loadData_shape st dwp ds Hwf Ho Hs Hns) as (extra & x & y & Hk & Hp & Hse).
  destruct (keys_spread_app dwp x) as [e1 He1].
  destruct (keys_spread_app ds y) as [e2 He2].
  destruct (keys_obj_set_app (loadData st) "exportDate" v) as [e3 He3].
  eapply (merge_defaults_absorb _ _ dwp ds (spread dwp x) (spread ds y) (extra ++ e3));
    eauto using NoDup_loadData, NoDup_spread, NoDup_obj_set.
  - rewrite He3, Hk, app_assoc. reflexivity.
  - rewrite own_obj_set_ne by discriminate. exact Hp.
  - rewrite own_obj_set_ne by discriminate. exact Hse.
Qed.

Lemma exportData_file fits t1 t2 t3 st :
  page_wf st ->
  fst (exportData fits t1 t2 t3 st)
  = (true,
     Some ("home-management-backup-" +:+ getTodayISO t2 +:+ ".json",
           JObj (obj_set (loadData st) "exportDate" (JStr (JSDate.toISOString t1))))).
Proof.
  intros [Hwf [ds [Hs Hns]]]. pose proof Hwf as [Hnd [dwp [Ho [Hn Hdays]]]].
  destruct (loadData_shape st dwp ds Hwf Ho Hs Hns) as (extra & x & y & Hk & Hp & Hse).
  unfold exportData.
  change (obj_assign (loadData st) "exportDate" (JStr (JSDate.toISOString t1)))
    with (obj_set (loadData st) "exportDate" (JStr (JSDate.toISOString t1))).
  rewrite (obj_get_own _ "settings" (JObj (spread ds y)))
    by (rewrite own_obj_set_ne by discriminate; exact Hse).
  destruct (saveData fits _ _). reflexivity.
Qed.

(** X5: [exportData], when the store accepts the write, returns [true] and
    downloads the loaded document with [exportDate] added, under a name
    that carries the UTC date; afterwards the document loaded is the
    downloaded one with [settings.lastExport] set: [exportDate] has become
    part of the stored document. *)
Theorem exportData_result fits t1 t2 t3 st :
  page_wf st -> (forall d, fits d = true) ->
  exists so,
    own (loadData st) "settings" = Some (JObj so)
    /\ let doc := obj_set (loadData st) "exportDate" (JStr (JSDate.toISOString t1)) in
       fst (exportData fits t1 t2 t3 st)
         = (true, Some ("home-management-backup-" +:+ getTodayISO t2 +:+ ".json",
                        JObj doc))
       /\ loadData (snd (exportData fits t1 t2 t3 st))
          = obj_set doc "settings"
              (JObj (obj_set so "lastExport" (JStr (JSDate.toISOString t3)))).
Proof.
  intros Hpw Hf. pose proof Hpw as [Hwf [ds [Hs Hns]]].
  pose proof Hwf as [Hnd [dwp [Ho [Hn Hdays]]]].
  destruct (loadData_shape st dwp ds Hwf Ho Hs Hns) as (extra & x & y & Hk & Hp & Hse).
  exists (spread ds y). split; [exact Hse|]. intros doc.
  set (so := spread ds y) in *.
  set (so' := obj_set so "lastExport" (JStr (JSDate.toISOString t3))).
  assert (Hdoc : obj_get doc "settings" = Val (JObj so)).
  { apply obj_get_own. unfold doc. rewrite own_obj_set_ne by discriminate. exact Hse. }
  unfold exportData.
  change (obj_assign (loadData st) "exportDate" (JStr (JSDate.toISOString t1))) with doc.
  rewrite Hdoc.
  change (obj_assign so "lastExport" (JStr (JSDate.toISOString t3))) with so'.
  set (st1 := if shares_section st "settings"
              then write_section "settings" (JObj so') st else st).
  set (X := obj_set doc "settings" (JObj so')).
  assert (HX : NoDup (keys X)) by (unfold X, doc; eauto using NoDup_obj_set, NoDup_loadData).
  assert (Hso' : NoDup (keys so')) by (unfold so', so; eauto using NoDup_obj_set, NoDup_spread).
  assert (HkX : exists e, keys X = (keys (module_defaults st) ++ e)%list).
  { unfold X. rewrite keys_obj_set.
    replace (has_own doc "settings") with true
      by (unfold has_own; rewrite (obj_get_Val_own _ _ _ Hdoc); reflexivity).
    destruct (keys_obj_set_app (loadData st) "exportDate" (JStr (JSDate.toISOString t1)))
      as [e3 He3].
    exists (extra ++ e3)%list. unfold doc. rewrite He3, Hk, app_assoc. reflexivity. }
  destruct HkX as [eX HkX].
  assert (HpX : own X "weeklyPlan" = Some (JObj (spread dwp x))).
  { unfold X, doc. rewrite !own_obj_set_ne by discriminate. exact Hp. }
  assert (HsX : own X "settings" = Some (JObj so')) by apply own_obj_set_eq.
  destruct (keys_spread_app dwp x) as [e1 He1].
  assert (M : merge_defaults (module_defaults st1) (JObj X) = Return X).
  { unfold st1. destruct (shares_section st "settings").
    - simpl module_defaults.
      apply (merge_defaults_absorb _ _ dwp so' (spread dwp x) so' eX e1 []);
        auto using NoDup_obj_set, NoDup_spread.
      + rewrite own_obj_set_ne by discriminate. exact Ho.
      + apply own_obj_set_eq.
      + rewrite keys_obj_set.
        replace (has_own (module_defaults st) "settings") with true
          by (unfold has_own; rewrite Hs; reflexivity).
        exact HkX.
      + rewrite app_nil_r. reflexivity.
    - destruct (keys_spread_app ds y) as [e2 He2].
      destruct (keys_obj_set_app so "lastExport" (JStr (JSDate.toISOString t3)))
        as [e3 He3].
      apply (merge_defaults_absorb _ _ dwp ds (spread dwp x) so' eX e1 (e2 ++ e3));
        auto using NoDup_spread.
      unfold so'. rewrite He3. unfold so. rewrite He2, app_assoc. reflexivity. }
  pose proof (loadData_after_save fits X st1 (Hf _)) as L.
  rewrite M in L.
  destruct (saveData fits X st1) as [b st2]. simpl in L.
  split; [reflexivity | exact L].
Qed.

Lemma exportData_result_witness :
  fst (exportData unlimited 1709231400000 1709231400001 1709231400002 page_with_meal)
  = (true,
     Some ("home-management-backup-2024-02-29.json",
           JObj (obj_set (loadData page_with_meal) "exportDate"
                   (JStr "2024-02-29T18:30:00.000Z"))))
  /\ getData "exportDate"
       (snd (exportData unlimited 1709231400000 1709231400001 1709231400002
               page_with_meal))
     = Val (JStr "2024-02-29T18:30:00.000Z").
Proof.
  destruct (exportData_result unlimited 1709231400000 1709231400001 1709231400002
              page_with_meal (page_wf_fresh _) (fun _ => eq_refl))
    as [so [_ [H1 H2]]].
  split; [exact H1|]. unfold getData. rewrite H2. reflexivity.
Defined.

Lemma loadData_stored_object st o :
  loadData (set_store st (Some (JsonText (JObj o))))
  = match merge_defaults (module_defaults st) (JObj o) with
    | Return m => m
    | Throw _ => copy_defaults st
    end.
Proof. reflexivity. Qed.

(** X6: importing the file that [exportData] downloaded, on a page with the
    same defaults in memory, resolves [true], and the document loaded
    afterwards is the exported one: what [loadData] returned at the export,
    with [exportDate] added. *)
Theorem export_then_import fits t1 t2 t3 st st2 :
  page_wf st -> (forall d, fits d = true) ->
  module_defaults st2 = module_defaults st ->
  exists name doc,
    snd (fst (exportData fits t1 t2 t3 st)) = Some (name, JObj doc)
    /\ doc = obj_set (loadData st) "exportDate" (JStr (JSDate.toISOString t1))
    /\ fst (importData fits (Content (JsonText (JObj doc))) st2) = Return true
    /\ loadData (snd (importData fits (Content (JsonText (JObj doc))) st2)) = doc.
Proof.
  intros Hpw Hf HD.
  pose proof (exportData_file fits t1 t2 t3 st Hpw) as H1.
  set (doc := obj_set (loadData st) "exportDate" (JStr (JSDate.toISOString t1))) in *.
  exists ("home-management-backup-" +:+ getTodayISO t2 +:+ ".json"), doc.
  split; [rewrite H1; reflexivity|]. split; [reflexivity|].
  assert (E : forall s, module_defaults s = module_defaults st ->
                loadData (set_store s (Some (JsonText (JObj doc)))) = doc).
  { intros s Hs. rewrite loadData_stored_object, Hs.
    unfold doc. rewrite (exported_doc_absorbed _ _ Hpw). reflexivity. }
  rewrite (importData_object fits doc st2) by apply Hf.
  simpl fst. simpl snd. split; [reflexivity|]. rewrite (E st2 HD).
  apply (E st2 HD).
Qed.

Lemma export_then_import_witness :
  exists name doc,
    snd (fst (exportData unlimited 1709231400000 1709231400001 1709231400002
                sample_page)) = Some (name, JObj doc)
    /\ getData "meals"
         (snd (importData unlimited (Content (JsonText (JObj doc))) (fresh_page None)))
       = Val (JArr sample_meals).
Proof.
  destruct (export_then_import unlimited 1709231400000 1709231400001 1709231400002
              sample_page (fresh_page None) (page_wf_fresh _) (fun _ => eq_refl)
              eq_refl) as (name & doc & H1 & H2 & _ & H4).
  exists name, doc. split; [exact H1|].
  unfold getData. rewrite H4, H2. reflexivity.
Defined.

(* ================================================================= *)
(** ** Filters, pages and relative times *)

Lemma own_obj_delete o k k' :
  own (obj_delete o k) k' = if String.eqb k k' then None else own o k'.
Proof.
  unfold obj_delete. induction o as [|[k0 v0] o IH]; simpl.
  - destruct (String.eqb k k'); reflexivity.
  - destruct (String.eqb k0 k) eqn:E; simpl.
    + apply String.eqb_eq in E. subst k0. rewrite IH.
      destruct (String.eqb k k'); reflexivity.
    + rewrite IH. destruct (String.eqb k0 k') eqn:E'; [|reflexivity].
      apply String.eqb_eq in E'. subst k0. rewrite String.eqb_sym, E. reflexivity.
Qed.

(** X27: the filter manager.  A value other than ['all'] and the empty text
    is read back under its category, and the manager then has active
    filters; ['all'] or the empty text removes the category, which is then
    read as [null]; a category is not touched by setting another; after
    [clearFilters] nothing is active. *)
Theorem filter_manager_set_get category value fs :
  category <> "__proto__" ->
  (value <> "all" -> value <> "" ->
     FilterManager.getFilter category (FilterManager.setFilter category value fs)
       = Val (JStr value)
     /\ FilterManager.hasActiveFilters (FilterManager.setFilter category value fs)
        = true)
  /\ (inherited category = false ->
      FilterManager.getFilter category (FilterManager.setFilter category "all" fs)
        = Val JNull
      /\ FilterManager.getFilter category (FilterManager.setFilter category "" fs)
         = Val JNull)
  /\ (forall other, other <> category ->
        FilterManager.getFilter other (FilterManager.setFilter category value fs)
        = FilterManager.getFilter other fs)
  /\ FilterManager.hasActiveFilters (FilterManager.clearFilters fs) = false.
Proof.
  intros Hp. unfold FilterManager.getFilter, FilterManager.setFilter.
  split; [|split; [|split]].
  - intros H1 H2. apply String.eqb_neq in H1, H2. rewrite H1, H2. simpl orb. cbv iota.
    rewrite (obj_assign_not_proto _ _ _ Hp). split.
    + rewrite (obj_get_own _ _ (JStr value)) by apply own_obj_set_eq.
      unfold or_else. simpl. rewrite H2. reflexivity.
    + unfold FilterManager.hasActiveFilters. apply Nat.ltb_lt.
      assert (In category (keys (obj_set fs category (JStr value)))).
      { apply has_own_keys. rewrite has_own_obj_set, eqb_refl_true. reflexivity. }
      destruct (keys (obj_set fs category (JStr value))); [contradiction | simpl; lia].
  - intros Hi. simpl. unfold obj_get. rewrite own_obj_delete, eqb_refl_true, Hi.
    split; reflexivity.
  - intros other Ho. f_equal. apply obj_get_ext.
    destruct (_ || _).
    + rewrite own_obj_delete. apply not_eq_sym, String.eqb_neq in Ho. rewrite Ho.
      reflexivity.
    + apply own_obj_assign_ne. congruence.
  - reflexivity.
Qed.

Lemma filter_manager_set_get_witness :
  FilterManager.getFilter "type"
    (FilterManager.setFilter "type" "dinner" FilterManager.constructor)
  = Val (JStr "dinner")
  /\ FilterManager.getFilter "type"
       (FilterManager.setFilter "type" "all"
          (FilterManager.setFilter "type" "dinner" FilterManager.constructor))
     = Val JNull.
Proof.
  split.
  - destruct (filter_manager_set_get "type" "dinner" FilterManager.constructor
                ltac:(discriminate)) as [H _].
    apply H; discriminate.
  - destruct (filter_manager_set_get "type" "all"
                (FilterManager.setFilter "type" "dinner" FilterManager.constructor)
                ltac:(discriminate)) as [_ [H _]].
    apply H. reflexivity.
Defined.

(* ---------- pages ---------- *)




(* ---------- relative time ---------- *)

(** X25: [getRelativeTime] by the time elapsed since the date, in
    milliseconds: less than a minute, also when the date is in the future
    or is not a date, is "Just now"; then whole minutes, whole hours, and
    whole days up to seven; from eight days on, the formatted date. *)
Theorem getRelativeTime_by_elapsed other formatDate now dateString :
  (JSDate.new_Date other dateString = None ->
     getRelativeTime other formatDate now dateString = "Just now")
  /\ (forall date, JSDate.new_Date other dateString = Some date ->
        let e := (now - date)%Z in
        ((e < 60000)%Z ->
           getRelativeTime other formatDate now dateString = "Just now")
        /\ ((60000 <= e < 3600000)%Z ->
            getRelativeTime other formatDate now dateString
            = Z_to_string (e / 60000) +:+ " minute" +:+ plural (e / 60000) +:+ " ago")
        /\ ((3600000 <= e < 86400000)%Z ->
            getRelativeTime other formatDate now dateString
            = Z_to_string (e / 3600000) +:+ " hour" +:+ plural (e / 3600000) +:+ " ago")
        /\ ((86400000 <= e < 691200000)%Z ->
            getRelativeTime other formatDate now dateString
            = Z_to_string (e / 86400000) +:+ " day" +:+ plural (e / 86400000) +:+ " ago")
        /\ ((691200000 <= e)%Z ->
            getRelativeTime other formatDate now dateString = formatDate dateString)).
Proof.
  split.
  - intros H. unfold getRelativeTime. rewrite H. reflexivity.
  - intros date H e. unfold getRelativeTime. rewrite H. fold e.
    assert (Em : (e / 1000 / 60 = e / 60000)%Z) by (rewrite Z.div_div by lia; reflexivity).
    assert (Eh : (e / 1000 / 60 / 60 = e / 3600000)%Z)
      by (rewrite !Z.div_div by lia; reflexivity).
    assert (Ed : (e / 1000 / 60 / 60 / 24 = e / 86400000)%Z)
      by (rewrite !Z.div_div by lia; reflexivity).
    cbv zeta. rewrite Ed, Eh, Em.
    pose proof (Z.div_mod e 60000 ltac:(lia)).
    pose proof (Z.mod_pos_bound e 60000 ltac:(lia)).
    pose proof (Z.div_mod e 3600000 ltac:(lia)).
    pose proof (Z.mod_pos_bound e 3600000 ltac:(lia)).
    pose proof (Z.div_mod e 86400000 ltac:(lia)).
    pose proof (Z.mod_pos_bound e 86400000 ltac:(lia)).
    repeat split; intros He;
      repeat match goal with
             | |- context [(?a <? ?b)%Z] => destruct (Z.ltb_spec a b); try lia
             end; reflexivity.
Qed.

Lemma getRelativeTime_by_elapsed_witness :
  getRelativeTime no_other_format (fun _ => "01/03/2024") 1709251200000
    (Val (JStr "2024-02-29")) = "1 day ago"
  /\ getRelativeTime no_other_format (fun _ => "01/03/2024") 1709251200000
       (Val (JStr "2024-03-05")) = "Just now".
Proof.
  destruct (getRelativeTime_by_elapsed no_other_format (fun _ => "01/03/2024")
              1709251200000 (Val (JStr "2024-02-29"))) as [_ H].
  destruct (H 1709164800000%Z eq_refl) as [_ [_ [_ [H1 _]]]].
  destruct (getRelativeTime_by_elapsed no_other_format (fun _ => "01/03/2024")
              1709251200000 (Val (JStr "2024-03-05"))) as [_ H'].
  destruct (H' 1709596800000%Z eq_refl) as [H2 _].
  split; [apply H1; simpl; lia | apply H2; simpl; lia].
Defined.

(* ================================================================= *)
(** ** Notifications *)

Lemma due_today_not_null today t :
  not_null t = true -> due_today today t = Return (due_today_value today t).
Proof.
  destruct t as [| | | | |o]; try discriminate; intros _; try reflexivity.
  unfold due_today, due_today_value. simpl member. rewrite bind_Return.
  destruct (truthy (obj_get o "completed")); reflexivity.
Qed.

Lemma js_filter_returns_not_null p l r :
  (forall x, not_null x = false -> exists e, p x = Throw e) ->
  js_filter p l = Return r -> forallb not_null l = true.
Proof.
  intros Hp. revert r. induction l as [|x l IH]; intros r; simpl; [reflexivity|].
  destruct (not_null x) eqn:E.
  - destruct (p x); simpl; [|discriminate].
    destruct (js_filter p l) eqn:El; simpl; [|discriminate].
    intros _. eapply IH. reflexivity.
  - destruct (Hp x E) as [e ->]. discriminate.
Qed.

Lemma due_today_null today x :
  not_null x = false -> exists e, due_today today x = Throw e.
Proof. destruct x; try discriminate. intros _. eexists. reflexivity. Qed.

Lemma compare_refl_string s : String.compare s s = Eq.
Proof.
  induction s as [|c s IH]; [reflexivity|]. simpl.
  unfold Ascii.compare. rewrite N.compare_refl. exact IH.
Qed.

Lemma due_today_is_due today t :
  String.eqb today "" = false ->
  due_today_value today t = true -> is_due today t = Return true.
Proof.
  intros Hne. destruct t as [| | | | |o]; try discriminate. simpl.
  intros H. apply andb_true_iff in H. destruct H as [H1 H2].
  unfold is_due. simpl member. rewrite bind_Return.
  apply negb_true_iff in H1. rewrite H1. rewrite bind_Return.
  destruct (obj_get o "dueDate") as [| |[| | |s| |]]; try discriminate.
  simpl in H2. apply String.eqb_eq in H2. subst s. simpl truthy. rewrite Hne.
  cbn [negb]. unfold le_text, text_of_operand. rewrite bind_Return.
  unfold String.leb. rewrite compare_refl_string. reflexivity.
Qed.

Lemma js_filter_In p l : forall r x,
  js_filter p l = Return r -> In x l -> p x = Return true -> In x r.
Proof.
  induction l as [|y l IH]; intros r x H Hin Hx; [destruct Hin|].
  simpl in H. destruct (p y) as [b|] eqn:Ey; [|discriminate].
  rewrite bind_Return in H.
  destruct (js_filter p l) as [r'|] eqn:El; [|discriminate].
  rewrite bind_Return in H. inversion H. subst r. clear H.
  destruct Hin as [->|Hin].
  - rewrite Hx in Ey. inversion Ey. subst b. left. reflexivity.
  - specialize (IH r' x eq_refl Hin Hx). destruct b; [right|]; exact IH.
Qed.

Lemma getDueTasks_inv now type st l :
  getDueTasks now type st = Return l ->
  exists tasks,
    tasks_of type st = Val (JArr tasks)
    /\ js_filter (is_due (getTodayISO now)) tasks = Return l.
Proof.
  unfold getDueTasks. intros H.
  destruct (tasks_of type st) as [| |[| | | |tasks|]]; try discriminate.
  exists tasks. split; [reflexivity | exact H].
Qed.

Lemma tasks_due_today_within_due now st lc lm due :
  (-62167219200000 <= now < 253402300800000)%Z ->
  getDueTasks now "cleaning" st = Return lc ->
  getDueTasks now "maintenance" st = Return lm ->
  tasks_due_today now st = Return due ->
  incl due (lc ++ lm).
Proof.
  intros Hn Hlc Hlm Hd.
  destruct (getDueTasks_inv _ _ _ _ Hlc) as (cleaning & Hc & Fc).
  destruct (getDueTasks_inv _ _ _ _ Hlm) as (maintenance & Hm & Fm).
  change (collection "cleaningTasks" st = Val (JArr cleaning)) in Hc.
  change (collection "maintenanceTasks" st = Val (JArr maintenance)) in Hm.
  unfold tasks_due_today in Hd. rewrite Hc, Hm in Hd. simpl in Hd.
  pose proof (js_filter_returns_not_null _ _ _ (due_today_null _) Hd) as Nn.
  rewrite (js_filter_not_null _ _ _ (due_today_not_null _) Nn) in Hd.
  inversion Hd; subst due. clear Hd.
  assert (Hne : String.eqb (getTodayISO now) "" = false)
    by (apply (day_number_nonempty _ (JSDate.Day now)), getTodayISO_day, Hn).
  intros t Ht. apply List.filter_In in Ht. destruct Ht as [Hin Ht].
  pose proof (due_today_is_due _ _ Hne Ht) as Hdue.
  apply in_app_iff. apply in_app_iff in Hin. destruct Hin as [Hin|Hin].
  - left. exact (js_filter_In _ _ _ _ Fc Hin Hdue).
  - right. exact (js_filter_In _ _ _ _ Fm Hin Hdue).
Qed.

(** X28: a notification of [checkDueTasks] counts tasks that are not
    completed and are due today, at least one; each of them is also among
    the tasks that [getDueTasks] returns for the two lists (which holds the
    overdue tasks as well), the title has the plural when there is more than
    one, and the tag is that of the daily tasks. *)
Theorem checkDueTasks_within_due house granted now st title options lc lm :
  (-62167219200000 <= now < 253402300800000)%Z ->
  checkDueTasks house granted now st = Return (Some (title, options)) ->
  getDueTasks now "cleaning" st = Return lc ->
  getDueTasks now "maintenance" st = Return lm ->
  exists due,
    tasks_due_today now st = Return due
    /\ incl due (lc ++ lm) /\ due <> []
    /\ title = index_key (length due) +:+ " Task"
                 +:+ (if (1 <? length due)%nat then "s" else "") +:+ " Due Today"
    /\ obj_get options "tag" = Val (JStr "daily-tasks").
Proof.
  intros Hn H Hlc Hlm. unfold checkDueTasks in H.
  destruct (member_of (getData "settings" st) "notificationsEnabled") as [en|];
    [|discriminate].
  rewrite bind_Return in H. destruct (negb (truthy en)); [discriminate|].
  destruct (member_of (getData "settings" st) "notifyCleaning") as [nc|];
    [|discriminate].
  rewrite bind_Return in H. destruct (negb (truthy nc)); [discriminate|].
  destruct (tasks_due_today now st) as [due|] eqn:Ed; [|discriminate].
  rewrite bind_Return in H.
  pose proof (tasks_due_today_within_due now st _ _ _ Hn Hlc Hlm Ed) as H3.
  exists due. split; [reflexivity|]. split; [exact H3|].
  destruct due as [|t due]; [discriminate|]. split; [discriminate|].
  cbn [length Nat.ltb Nat.leb] in H.
  destruct (join_texts ", " (map name_for_join (t :: due))) as [body|];
    [|discriminate].
  rewrite bind_Return in H. unfold showNotification in H.
  destruct granted; [|discriminate]. inversion H. split; reflexivity.
Qed.

Lemma checkDueTasks_within_due_witness :
  exists due,
    tasks_due_today 1709231400000 page_with_notifications = Return due
    /\ length due = 2%nat.
Proof.
  destruct (checkDueTasks_within_due "H" true 1709231400000
              page_with_notifications "2 Tasks Due Today" _ _ _
              ltac:(lia) eq_refl eq_refl eq_refl)
    as (due & H0 & _).
  exists due. split; [exact H0|].
  vm_compute in H0. inversion H0. reflexivity.
Defined.

(* ---------- switching notifications off ---------- *)

(** X29: after [disableNotifications] (the store accepting the write) the
    settings are read back with [notificationsEnabled] false and the other
    settings as they were, and [checkDueTasks] notifies nothing. *)
Theorem disableNotifications_disables fits st :
  page_wf st -> (forall d, fits d = true) ->
  exists data,
    getData "settings" st = Val (JObj data)
    /\ fst (disableNotifications fits st) = Return tt
    /\ getData "settings" (snd (disableNotifications fits st))
       = Val (JObj (obj_set data "notificationsEnabled" (JBool false)))
    /\ forall house granted now,
         checkDueTasks house granted now (snd (disableNotifications fits st))
         = Return None.
Proof.
  intros Hpw Hf. pose proof Hpw as [Hwf [ds [Hs Hns]]].
  pose proof (wf_NoDup _ Hwf) as Hnd.
  destruct (loaded_settings st ds Hnd Hs Hns) as [y Hy].
  exists (spread ds y). split; [exact Hy|].
  unfold disableNotifications, set_notificationsEnabled. rewrite Hy.
  change (obj_assign (spread ds y) "notificationsEnabled" (JBool false))
    with (obj_set (spread ds y) "notificationsEnabled" (JBool false)).
  set (data' := obj_set (spread ds y) "notificationsEnabled" (JBool false)).
  set (st1 := if shares_section st "settings"
              then write_section "settings" (JObj data') st else st).
  simpl fst. simpl snd. split; [reflexivity|].
  assert (Hd' : NoDup (keys data')) by (unfold data'; auto using NoDup_obj_set, NoDup_spread).
  assert (H1 : NoDup (keys (module_defaults st1))).
  { unfold st1. destruct (shares_section st "settings"); [apply NoDup_obj_set|]; exact Hnd. }
  assert (G : getData "settings" (snd (updateData fits "settings" (JObj data') st1))
              = Val (JObj data')).
  { rewrite (getData_after_update _ _ _ _ _ H1 (Hf _)). simpl is_merged_section. cbv iota.
    change (obj_assign (loadData st1) "settings" (JObj data'))
      with (obj_set (loadData st1) "settings" (JObj data')).
    rewrite (obj_get_own (obj_set (loadData st1) "settings" (JObj data')) _ (JObj data'))
      by apply own_obj_set_eq.
    do 2 f_equal. unfold st1. destruct (shares_section st "settings").
    - simpl module_defaults.
      rewrite (obj_get_own _ _ (JObj data')) by apply own_obj_set_eq.
      rewrite (spread_nil_obj _ Hd').
      apply (spread_absorb _ _ []); [exact Hd' | rewrite app_nil_r; reflexivity].
    - rewrite (obj_get_own _ _ _ Hs), (spread_nil_obj _ Hns).
      destruct (keys_spread_app ds y) as [e2 He2].
      destruct (keys_obj_set_app (spread ds y) "notificationsEnabled" (JBool false))
        as [e3 He3].
      apply (spread_absorb _ _ (e2 ++ e3)); [exact Hd'|].
      unfold data'. rewrite He3, He2, app_assoc. reflexivity. }
  split; [exact G|].
  intros house granted now. unfold checkDueTasks. rewrite G. simpl member_of.
  rewrite (obj_get_own data' "notificationsEnabled" (JBool false))
    by apply own_obj_set_eq.
  reflexivity.
Qed.

Lemma disableNotifications_disables_witness :
  getData "settings" (snd (disableNotifications unlimited page_with_notifications))
  = Val (JObj [ ("notificationsEnabled", JBool false); ("notifyMeals", JBool true);
                ("notifyCleaning", JBool true); ("notifyShopping", JBool true);
                ("lastExport", JNull) ])
  /\ checkDueTasks "H" true 1709231400000
       (snd (disableNotifications unlimited page_with_notifications)) = Return None.
Proof.
  destruct (disableNotifications_disables unlimited page_with_notifications
              (page_wf_fresh _) (fun _ => eq_refl)) as (data & H1 & _ & H3 & H4).
  vm_compute in H1. inversion H1; subst data.
  split; [exact H3 | apply H4].
Defined.

(* ================================================================= *)
(** ** The states of a page *)

Section SettingsKept.

Variable c : option json.

Lemma sa_saveData fits data st :
  settings_are c st -> settings_are c (snd (saveData fits data st)).
Proof. unfold saveData. destruct (fits _); auto. Qed.

Lemma sa_updateData fits k v st :
  settings_are c st -> settings_are c (snd (updateData fits k v st)).
Proof. apply sa_saveData. Qed.

Lemma sa_showSuccess st m : settings_are c st -> settings_are c (showSuccess m st).
Proof. auto. Qed.

Lemma sa_write_section k v st :
  k <> "settings" -> settings_are c st -> settings_are c (write_section k v st).
Proof.
  intros Hk H. unfold settings_are, write_section. simpl.
  rewrite own_obj_set_ne by exact Hk. exact H.
Qed.

Lemma sa_write_day d v st : settings_are c st -> settings_are c (write_day d v st).
Proof.
  intros H. unfold write_day.
  destruct (own (module_defaults st) "weeklyPlan") as [[| | | | |dwp]|]; try exact H.
  apply sa_write_section; [discriminate | exact H].
Qed.

Lemma sa_plan_write day v st : settings_are c st -> settings_are c (plan_write day v st).
Proof.
  intros H. unfold plan_write. destruct (plan_shared st); [|exact H].
  apply sa_write_section; [discriminate | exact H].
Qed.

Lemma sa_push_and_save fits k arr x st :
  k <> "settings" -> settings_are c st -> settings_are c (push_and_save fits k arr x st).
Proof.
  intros Hk H. unfold push_and_save. apply sa_updateData.
  destruct (collection_shared k st); [apply sa_write_section|]; assumption.
Qed.

Lemma sa_store_at fits k arr i x st :
  k <> "settings" -> settings_are c st -> settings_are c (store_at fits k arr i x st).
Proof.
  intros Hk H. unfold store_at. apply sa_updateData.
  destruct (collection_shared k st); [apply sa_write_section|]; assumption.
Qed.

Lemma tasks_section_not_settings type : tasks_section type <> "settings".
Proof. unfold tasks_section. destruct (String.eqb type "cleaning"); discriminate. Qed.

Lemma sa_addMealToDay fits day id st :
  settings_are c st -> settings_are c (snd (addMealToDay fits day id st)).
Proof.
  intros H. unfold addMealToDay.
  set (st1 := if negb (truthy (obj_get (plan_props st) day))
              then plan_write day (JArr []) st else st).
  assert (H1 : settings_are c st1).
  { unfold st1. destruct (negb _); [apply sa_plan_write|]; exact H. }
  destruct (includes_method _ id) as [[|]|]; simpl; try exact H1.
  destruct (as_array _) as [ids|]; simpl; try exact H1.
  match goal with
  | |- context [updateData fits ?k ?v ?s] =>
      pose proof (sa_updateData fits k v s) as HU;
      destruct (updateData fits k v s) as [b st3]
  end.
  simpl. apply sa_showSuccess. simpl in HU. apply HU.
  destruct (_ || _); [apply sa_write_day|]; exact H1.
Qed.

Lemma sa_removeMealFromDay fits day id st :
  settings_are c st -> settings_are c (snd (removeMealFromDay fits day id st)).
Proof.
  intros H. unfold removeMealFromDay.
  destruct (truthy _); [|exact H].
  destruct (as_array _) as [ids|]; simpl; try exact H.
  match goal with
  | |- context [updateData fits ?k ?v ?s] =>
      pose proof (sa_updateData fits k v s) as HU;
      destruct (updateData fits k v s) as [b st3]
  end.
  simpl. apply sa_showSuccess. simpl in HU. apply HU, sa_plan_write, H.
Qed.

Lemma sa_clearDay fits day st : settings_are c st -> settings_are c (clearDay fits day st).
Proof.
  intros H. unfold clearDay.
  match goal with
  | |- context [updateData fits ?k ?v ?s] =>
      pose proof (sa_updateData fits k v s) as HU;
      destruct (updateData fits k v s) as [b st3]
  end.
  apply sa_showSuccess. simpl in HU. apply HU, sa_plan_write, H.
Qed.

Lemma sa_clearWeek fits st : settings_are c st -> settings_are c (clearWeek fits st).
Proof.
  intros H. unfold clearWeek.
  match goal with
  | |- context [updateData fits ?k ?v ?s] =>
      pose proof (sa_updateData fits k v s) as HU;
      destruct (updateData fits k v s) as [b st3]
  end.
  apply sa_showSuccess. simpl in HU. apply HU, H.
Qed.

Lemma sa_importData fits file st :
  settings_are c st -> settings_are c (snd (importData fits file st)).
Proof.
  intros H. unfold importData.
  destruct file as [|[v|]]; try exact H.
  destruct (_ || _); [exact H|].
  destruct (merge_defaults _ v) as [m|]; [|exact H].
  pose proof (sa_saveData fits m st H) as HS.
  destruct (saveData fits m st) as [[|] st']; exact HS.
Qed.

Lemma sa_addMeal fits id now data st :
  settings_are c st -> settings_are c (snd (addMeal fits id now data st)).
Proof.
  intros H. unfold addMeal. destruct (as_array _); [|exact H].
  simpl. apply sa_showSuccess, sa_push_and_save; [discriminate | exact H].
Qed.

Lemma sa_updateMeal fits id data st :
  settings_are c st -> settings_are c (snd (updateMeal fits id data st)).
Proof.
  intros H. unfold updateMeal.
  destruct (_ ≫= _) as [[meals [[i m]|]]|]; try exact H.
  simpl. apply sa_showSuccess, sa_store_at; [discriminate | exact H].
Qed.

Lemma sa_addTask fits id now data type st :
  settings_are c st -> settings_are c (snd (addTask fits id now data type st)).
Proof.
  intros H. unfold addTask. destruct (as_array _); [|exact H].
  simpl. apply sa_showSuccess, sa_push_and_save; [apply tasks_section_not_settings | exact H].
Qed.

Lemma sa_toggleTaskComplete fits zone other now id type st :
  settings_are c st ->
  settings_are c (snd (toggleTaskComplete fits zone other now id type st)).
Proof.
  intros H. unfold toggleTaskComplete.
  destruct (_ ≫= _) as [[tasks [[i [| | | | |task]]|]]|]; try exact H.
  pose proof (tasks_section_not_settings type) as Hk.
  repeat match goal with
         | |- context [if ?b then _ else _] => destruct b
         | |- context [match calculateNextDueDate ?a ?b ?c ?d with _ => _ end] =>
             destruct (calculateNextDueDate a b c d)
         end; simpl;
    try (apply sa_store_at; assumption);
    try (apply sa_write_section; assumption); try exact H.
Qed.

Lemma sa_addShoppingItem fits id now data st :
  settings_are c st -> settings_are c (snd (addShoppingItem fits id now data st)).
Proof.
  intros H. unfold addShoppingItem. destruct (as_array _); [|exact H].
  simpl. apply sa_showSuccess, sa_push_and_save; [discriminate | exact H].
Qed.

Lemma sa_toggleItemChecked fits id st :
  settings_are c st -> settings_are c (snd (toggleItemChecked fits id st)).
Proof.
  intros H. unfold toggleItemChecked.
  destruct (_ ≫= _) as [[l [[i [| | | | |item]]|]]|]; try exact H.
  simpl. apply sa_store_at; [discriminate | exact H].
Qed.

Lemma sa_add_missing fits fresh shared snapshot ings :
  forall added st, settings_are c st ->
    settings_are c (snd (add_missing fits fresh shared snapshot ings added st)).
Proof.
  induction ings as [|ing ings IH]; intros added st H; simpl; [exact H|].
  destruct (_ ≫= _) as [[[i x]|]|]; simpl; try exact H; [apply IH, H|].
  pose proof (sa_addShoppingItem fits (fresh added).1 (fresh added).2
                (generated_item ing) st H) as HA.
  destruct (addShoppingItem _ _ _ _ st) as [[r|e] st']; simpl in HA; [|exact HA].
  apply IH, HA.
Qed.

Lemma sa_generateFromMealPlan fits fresh st :
  settings_are c st -> settings_are c (snd (generateFromMealPlan fits fresh st)).
Proof.
  intros H. unfold generateFromMealPlan.
  destruct (planned_ingredients st) as [ings|]; [|exact H].
  pose proof (sa_add_missing fits fresh (collection_shared "shoppingList" st)
                (getShoppingList st) (map fst ings) 0 st H) as HA.
  destruct (add_missing _ _ _ _ _ _ st) as [[n|e] st']; simpl in *; exact HA.
Qed.

Lemma sa_run fits zone other o st :
  settings_are c st -> settings_are c (run fits zone other o st).
Proof.
  intros H. destruct o; simpl;
    auto using sa_addMealToDay, sa_removeMealFromDay, sa_clearDay, sa_clearWeek,
      sa_importData, sa_updateData, sa_addMeal, sa_updateMeal, sa_addTask,
      sa_toggleTaskComplete, sa_addShoppingItem, sa_toggleItemChecked,
      sa_generateFromMealPlan.
Qed.

End SettingsKept.

Lemma page_wf_intro st ds :
  state_wf st -> settings_are (Some (JObj ds)) st -> NoDup (keys ds) -> page_wf st.
Proof. intros H1 H2 H3. split; [exact H1|]. exists ds. auto. Qed.

Lemma page_wf_same_defaults st st' :
  module_defaults st' = module_defaults st -> page_wf st -> page_wf st'.
Proof.
  intros E [H1 H2]. unfold page_wf, state_wf. rewrite E. auto.
Qed.

Lemma defaults_updateData fits k v st :
  module_defaults (snd (updateData fits k v st)) = module_defaults st.
Proof. unfold updateData, saveData. destruct (fits _); reflexivity. Qed.

Lemma defaults_saveData fits d st :
  module_defaults (snd (saveData fits d st)) = module_defaults st.
Proof. unfold saveData. destruct (fits _); reflexivity. Qed.

Lemma page_wf_write_settings st s :
  page_wf st -> NoDup (keys s) -> page_wf (write_section "settings" (JObj s) st).
Proof.
  intros [H1 H2] Hs. split.
  - apply wf_write_section; [discriminate | exact H1].
  - exists s. split; [apply own_obj_set_eq | exact Hs].
Qed.

Lemma getData_settings_NoDup st s :
  page_wf st -> getData "settings" st = Val (JObj s) -> NoDup (keys s).
Proof.
  intros [Hwf [ds [Hs Hns]]] H.
  destruct (loaded_settings st ds (wf_NoDup _ Hwf) Hs Hns) as [y Hy].
  rewrite Hy in H. inversion H. apply NoDup_spread, Hns.
Qed.

Lemma page_wf_perform fits zone other a st :
  page_wf st -> page_wf (perform fits zone other a st).
Proof.
  intros Hpw. pose proof Hpw as [Hwf [ds [Hs Hns]]].
  destruct a; simpl.
  - apply (page_wf_intro _ ds); [apply wf_run, Hwf | apply sa_run, Hs | exact Hns].
  - unfold deleteMeal. destruct (_ ≫= _); [|exact Hpw]. simpl.
    eapply page_wf_same_defaults; [|exact Hpw]. apply defaults_updateData.
  - apply (page_wf_intro _ ds); [|  |exact Hns].
    + unfold toggleFavourite.
      destruct (_ ≫= _) as [[l [[i [| | | | |m]]|]]|]; try exact Hwf.
      simpl. apply wf_store_at; [discriminate | exact Hwf].
    + unfold toggleFavourite.
      destruct (_ ≫= _) as [[l [[i [| | | | |m]]|]]|]; try exact Hs.
      simpl. apply sa_store_at; [discriminate | exact Hs].
  - unfold deleteTask. destruct (_ ≫= _); [|exact Hpw]. simpl.
    eapply page_wf_same_defaults; [|exact Hpw]. apply defaults_updateData.
  - unfold removeItem. destruct (_ ≫= _); [|exact Hpw]. simpl.
    eapply page_wf_same_defaults; [|exact Hpw]. apply defaults_updateData.
  - unfold clearCheckedItems. destruct (_ ≫= _); [|exact Hpw]. simpl.
    eapply page_wf_same_defaults; [|exact Hpw]. apply defaults_updateData.
  - unfold exportData.
    set (data := obj_assign (loadData st) "exportDate" (JStr (JSDate.toISOString t1))).
    assert (E : obj_get data "settings" = getData "settings" st).
    { unfold getData. apply obj_get_ext. unfold data. apply own_obj_assign_ne. discriminate. }
    rewrite E.
    destruct (getData "settings" st) as [| |[| | | |l|s]] eqn:G; try exact Hpw.
    + pose proof (defaults_saveData fits data st) as D.
      destruct (saveData fits data st) as [b st2]. simpl in *.
      eapply page_wf_same_defaults; [exact D | exact Hpw].
    + match goal with
      | |- context [saveData fits ?d ?s1] =>
          pose proof (defaults_saveData fits d s1) as D;
          destruct (saveData fits d s1) as [b st2]
      end.
      simpl in *. eapply page_wf_same_defaults; [exact D|].
      destruct (shares_section st "settings"); [|exact Hpw].
      apply page_wf_write_settings; [exact Hpw|].
      apply NoDup_obj_assign. apply (getData_settings_NoDup st s Hpw G).
  - unfold initStorage. destruct (negb available); [exact Hpw|].
    destruct (match localStorage st with
              | Some (JsonText _) => false
              | Some BadText => empty_text
              | None => true
              end); [|exact Hpw].
    simpl. eapply page_wf_same_defaults; [|exact Hpw]. apply defaults_saveData.
  - unfold set_notificationsEnabled.
    destruct (getData "settings" st) as [| |[| | | |l|s]] eqn:G; try exact Hpw; simpl.
    + eapply page_wf_same_defaults; [apply defaults_updateData | exact Hpw].
    + eapply page_wf_same_defaults; [apply defaults_updateData|].
      destruct (shares_section st "settings"); [|exact Hpw].
      apply page_wf_write_settings; [exact Hpw|].
      apply NoDup_obj_assign. apply (getData_settings_NoDup st s Hpw G).
Qed.

(** X8: in every state that a page reaches through the operations modelled,
    the in-memory defaults keep their shape, the weekly plan read has the
    seven days, and the settings read are a record: the assignments
    [plan[day] = ...], [data.settings.lastExport = ...] and
    [data.notificationsEnabled = ...] never meet a value without
    properties. *)
Theorem page_state_invariant fits zone other st :
  page_state fits zone other st ->
  page_wf st
  /\ Forall (fun day => has_own (plan_props st) day = true) DAYS
  /\ (exists plan, getData "weeklyPlan" st = Val (JObj plan))
  /\ (exists settings, getData "settings" st = Val (JObj settings)).
Proof.
  intros H.
  assert (Hpw : page_wf st).
  { induction H; [apply page_wf_fresh | apply page_wf_perform; assumption]. }
  split; [exact Hpw|]. pose proof Hpw as [Hwf [ds [Hs Hns]]].
  split; [apply plan_props_shape, Hwf|]. split.
  - pose proof Hwf as [_ [dwp [Ho _]]].
    destruct (loaded_plan st dwp Hwf Ho) as [x [Hx _]]. eauto.
  - destruct (loaded_settings st ds (wf_NoDup _ Hwf) Hs Hns) as [y Hy]. eauto.
Qed.

Lemma page_state_invariant_witness :
  page_wf (perform unlimited zone_utc no_other_format (ExportData 0 0 0)
             (perform unlimited zone_utc no_other_format
                (Op (AddMealToDay "Funday" (JStr "m1"))) (fresh_page None))).
Proof.
  apply (page_state_invariant unlimited zone_utc no_other_format).
  apply page_perform, page_perform, page_fresh.
Defined.

(* ================================================================= *)
(** ** Adding and updating; the next due date *)

Lemma push_and_save_collection fits k arr x st :
  (forall d, fits d = true) -> state_wf st ->
  is_merged_section k = false -> k <> "__proto__" -> k <> "weeklyPlan" ->
  collection k (push_and_save fits k arr x st) = Val (JArr (arr ++ [x])).
Proof.
  intros Hf Hwf Hm Hp Hk. unfold push_and_save.
  apply collection_after_update; auto.
  destruct (collection_shared k st); [apply wf_write_section|]; assumption.
Qed.

(** X9: when the store accepts the write, each add operation appends the
    record it returns to its collection: the collection read back is the
    one read before, followed by that record. *)
Theorem add_appends fits st id now data type meals tasks items :
  (forall d, fits d = true) -> state_wf st ->
  getMeals st = Val (JArr meals) ->
  tasks_of type st = Val (JArr tasks) ->
  getShoppingList st = Val (JArr items) ->
  (exists m, fst (addMeal fits id now data st) = Return m
             /\ getMeals (snd (addMeal fits id now data st))
                = Val (JArr (meals ++ [m])))
  /\ (exists t, fst (addTask fits id now data type st) = Return t
                /\ tasks_of type (snd (addTask fits id now data type st))
                   = Val (JArr (tasks ++ [t])))
  /\ (exists x, fst (addShoppingItem fits id now data st) = Return x
                /\ getShoppingList (snd (addShoppingItem fits id now data st))
                   = Val (JArr (items ++ [x]))).
Proof.
  intros Hf Hwf Hm Ht Hi. split; [|split].
  - unfold addMeal. rewrite Hm. simpl as_array. cbv iota. eexists.
    split; [reflexivity|]. simpl snd. unfold showSuccess, getMeals, collection.
    rewrite getData_emit.
    apply (push_and_save_collection fits "meals"); auto; discriminate.
  - unfold addTask. rewrite Ht. simpl as_array. cbv iota. eexists.
    split; [reflexivity|]. simpl snd. rewrite tasks_of_collection.
    unfold showSuccess, collection. rewrite getData_emit.
    destruct (tasks_section_cases type) as [-> | ->];
      apply (push_and_save_collection fits); auto; discriminate.
  - unfold addShoppingItem. rewrite Hi. simpl as_array. cbv iota. eexists.
    split; [reflexivity|]. simpl snd. unfold showSuccess, getShoppingList, collection.
    rewrite getData_emit.
    apply (push_and_save_collection fits "shoppingList"); auto; discriminate.
Qed.

Lemma add_appends_witness :
  exists m,
    fst (addMeal unlimited "m4" "2024-01-03T09:00:00.000Z"
           (JObj [("title", JStr "Soup")]) sample_page) = Return m
    /\ getMeals (snd (addMeal unlimited "m4" "2024-01-03T09:00:00.000Z"
                        (JObj [("title", JStr "Soup")]) sample_page))
       = Val (JArr (sample_meals ++ [m])).
Proof.
  destruct (add_appends unlimited sample_page "m4" "2024-01-03T09:00:00.000Z"
              (JObj [("title", JStr "Soup")]) "cleaning"
              sample_meals sample_tasks sample_items
              (fun _ => eq_refl) (wf_fresh_page _) eq_refl eq_refl eq_refl)
    as [H _].
  exact H.
Defined.

(** X10: [updateMeal] on a meal that is found returns the meal overlaid with
    the fields given, which win (the id included, when one is given), and
    (the store accepting the write) persists it at the place of the meal,
    the other meals as they were. *)
Theorem updateMeal_merges fits st mealId fields meals i meal :
  (forall d, fits d = true) -> state_wf st ->
  getMeals st = Val (JArr meals) ->
  js_find (id_is mealId) meals 0 = Return (Some (i, JObj meal)) ->
  NoDup (keys meal) -> NoDup (keys fields) ->
  exists updated,
    fst (updateMeal fits mealId (JObj fields) st) = Return (JObj updated)
    /\ getMeals (snd (updateMeal fits mealId (JObj fields) st))
       = Val (JArr (<[i := JObj updated]> meals))
    /\ meals !! i = Some (JObj meal)
    /\ forall k,
         own updated k
         = match own fields k with Some v => Some v | None => own meal k end.
Proof.
  intros Hf Hwf Hm Hfind Hn1 Hn2.
  exists (spread (spread [] (Val (JObj meal))) (Val (JObj fields))).
  unfold updateMeal. rewrite Hm. simpl as_array. rewrite bind_Return, Hfind.
  rewrite bind_Return. cbv iota. simpl fst. simpl snd.
  split; [reflexivity|]. split; [|split].
  - unfold showSuccess, getMeals, collection. rewrite getData_emit.
    apply (store_at_collection fits "meals"); auto; discriminate.
  - destruct (js_find_inv _ _ _ _ _ Hfind) as (l1 & l2 & -> & -> & _).
    simpl. rewrite lookup_app_r by lia. rewrite Nat.sub_diag. reflexivity.
  - intros k. rewrite (own_spread_obj _ _ _ Hn2), (spread_nil_obj _ Hn1).
    reflexivity.
Qed.

Lemma updateMeal_merges_witness :
  exists updated,
    fst (updateMeal unlimited (JStr "m2") (JObj [("title", JStr "Sunday roast")])
           sample_page) = Return (JObj updated)
    /\ own updated "title" = Some (JStr "Sunday roast")
    /\ own updated "type" = Some (JStr "dinner").
Proof.
  destruct (updateMeal_merges unlimited sample_page (JStr "m2")
              [("title", JStr "Sunday roast")] sample_meals 1
              [ ("id", JStr "m2"); ("title", JStr "Roast"); ("type", JStr "dinner");
                ("dietary", JArr []); ("mainIngredients", JArr [JStr "chicken"]);
                ("ingredients", JArr [JStr "Chicken"; JStr "onion"]) ]
              (fun _ => eq_refl) (wf_fresh_page _) eq_refl eq_refl)
    as (updated & H1 & _ & _ & H4).
  - apply (bool_decide_unpack _). vm_compute. reflexivity.
  - apply (bool_decide_unpack _). vm_compute. reflexivity.
  - exists updated. split; [exact H1|]. rewrite !H4. split; reflexivity.
Defined.

(* ---------- the next due date ---------- *)

Section NextDue.

Import JSDate.

(** X17: in a zone whose offset from UTC never changes, [calculateNextDueDate]
    moves a date-only due date by seven days when the frequency is a text
    that the table does not have (and that names no member of
    [Object.prototype]), or is missing; for a frequency that names such a
    member it throws [RangeError]. *)
Theorem calculateNextDueDate_default zone off other due d :
  (forall u b, zone u b = off) ->
  day_number due = Some d ->
  (forall f, own freq f = None -> inherited f = false ->
     calculateNextDueDate zone other (Val (JStr due)) (Val (JStr f))
     = Return (date_text (d + 7)))
  /\ calculateNextDueDate zone other (Val (JStr due)) Undefined
     = Return (date_text (d + 7))
  /\ (forall f, inherited f = true ->
        calculateNextDueDate zone other (Val (JStr due)) (Val (JStr f))
        = Throw RangeError).
Proof.
  intros Hz Hd. destruct (day_number_spec _ _ Hd) as [Hp Hr].
  assert (Seven : forall frequency,
            or_else (obj_get freq (to_string frequency)) (JNum 7) = Val (JNum 7) ->
            calculateNextDueDate zone other (Val (JStr due)) frequency
            = Return (date_text (d + 7))).
  { intros frequency E. unfold calculateNextDueDate. rewrite E.
    unfold new_Date, Date_parse. rewrite Hp. simpl.
    unfold TimeClip at 1.
    replace (Z.abs (d * msPerDay) <=? 8640000000000000)%Z with true
      by (symmetry; apply Z.leb_le; unfold msPerDay; lia).
    rewrite (setDate_getDate_constant zone off) by exact Hz.
    unfold TimeClip.
    replace (Z.abs (d * msPerDay + 7 * msPerDay) <=? 8640000000000000)%Z with true
      by (symmetry; apply Z.leb_le; unfold msPerDay; lia).
    unfold date_text. do 3 f_equal. lia. }
  split; [|split].
  - intros f Hf Hi. apply Seven. simpl to_string. unfold obj_get. rewrite Hf, Hi.
    reflexivity.
  - apply Seven. reflexivity.
  - intros f Hi. unfold calculateNextDueDate. simpl to_string.
    assert (E : own freq f = None).
    { unfold freq. rewrite !own_cons.
      repeat match goal with
             | |- context [String.eqb ?a f] => destruct (String.eqb a f) eqn:?
             end; try reflexivity;
        repeat match goal with
               | E : String.eqb _ f = true |- _ => apply String.eqb_eq in E; subst f
               end; discriminate. }
    unfold obj_get. rewrite E, Hi. reflexivity.
Qed.

End NextDue.

Lemma calculateNextDueDate_default_witness :
  calculateNextDueDate zone_utc no_other_format (Val (JStr "2024-02-25"))
    (Val (JStr "biweekly")) = Return "2024-03-03"
  /\ calculateNextDueDate zone_utc no_other_format (Val (JStr "2024-02-25"))
       (Val (JStr "constructor")) = Throw RangeError.
Proof.
  destruct (calculateNextDueDate_default zone_utc 0 no_other_format "2024-02-25"
              19778 (fun _ _ => eq_refl) eq_refl) as [H1 [_ H3]].
  split; [apply (H1 "biweekly"); reflexivity | apply H3; reflexivity].
Defined.

(* ---------- a recurring task, a rejected import ---------- *)

Lemma toggle_recurring_constant_zone_witness :
  exists task',
    fst (toggleTaskComplete unlimited zone_utc no_other_format
           "2024-03-26T09:00:00.000Z" (JStr "t1") "cleaning"
           (page_with_task "monthly" "2024-03-25")) = Return (JObj task')
    /\ own task' "dueDate" = Some (JStr "2024-04-24")
    /\ own task' "completed" = Some (JBool false)
    /\ own task' "lastCompleted" = Some (JStr "2024-03-26T09:00:00.000Z").
Proof.
  exact (toggle_recurring_constant_zone unlimited zone_utc 0 no_other_format
           "2024-03-26T09:00:00.000Z" (JStr "t1") "cleaning"
           (page_with_task "monthly" "2024-03-25") _ 0
           [ ("id", JStr "t1"); ("name", JStr "Hoover the stairs");
             ("frequency", JStr "monthly"); ("dueDate", JStr "2024-03-25");
             ("completed", JBool false) ]
           "2024-03-25" 19807 "monthly" 30
           (fun _ _ => eq_refl) eq_refl eq_refl eq_refl eq_refl eq_refl eq_refl
           eq_refl).
Defined.

Lemma importData_rejects_witness :
  (exists e, importData unlimited (Content (JsonText (JStr "meals"))) page_with_meal
             = (Throw e, page_with_meal))
  /\ (exists e, importData unlimited (Content BadText) page_with_meal
                = (Throw e, page_with_meal)).
Proof.
  split.
  - exact (importData_rejects unlimited (Content (JsonText (JStr "meals")))
             page_with_meal I).
  - exact (importData_rejects unlimited (Content BadText) page_with_meal I).
Defined.
